(** * OnnixBot: signal aggregation and risk screening

    A shallow embedding of the signal-generation and risk-assessment core of
    the trading bot: [risk_management.py] (class [RiskManager]),
    [ENHANCED_POCKET_OPTION_BOT.py] (class [EnhancedPocketOptionBot]),
    [technical_analysis.py] (class [TechnicalAnalyzer]) and the RSI helper of
    [REALTIME_TRADING_BOT.py].

    Numbers.  The Python code computes on IEEE-754 doubles (Python floats and
    the float64 cells of pandas series).  They are modelled by [fnum]: the
    special values (signed zero, the infinities, NaN) behave as IEEE-754
    prescribes, and finite values are exact rationals, so rounding, overflow
    and underflow are not modelled.  Where a statement turns on rounding, the
    code is also embedded on binary64 itself ([Binary64], the kernel's
    primitive floats).  Python integers ([risk_score], [signal_strength],
    counters) are [Z]. *)

From Stdlib Require Import QArith Qabs Lqa ZArith Lia Bool List String.
From stdpp Require Import base option gmap strings.
From Corelib Require PrimFloat.

Local Open Scope Z_scope.
Local Open Scope string_scope.
Local Open Scope list_scope.

(* ===================================================================== *)
(** ** Floating-point values *)
(* ===================================================================== *)

Module PyFloat.

Inductive fnum : Type :=
| Fin (q : Q)     (* a finite value; [Fin q] with [q == 0] is +0.0 *)
| NZero           (* -0.0 *)
| PInf            (* +inf *)
| NInf            (* -inf *)
| NaN.

Definition Qeqb (a b : Q) : bool := Qeq_bool a b.
Definition Qltb (a b : Q) : bool := negb (Qle_bool b a).
Definition Qleb (a b : Q) : bool := Qle_bool a b.

(** Sign bit ([true] = negative), zero test and the finite value. *)
Definition sgn (x : fnum) : bool :=
  match x with
  | Fin q => Qltb q 0
  | NZero => true
  | PInf => false
  | NInf => true
  | NaN => false
  end.

Definition is_zero (x : fnum) : bool :=
  match x with
  | Fin q => Qeqb q 0
  | NZero => true
  | _ => false
  end.

Definition is_inf (x : fnum) : bool :=
  match x with PInf | NInf => true | _ => false end.

Definition is_nan (x : fnum) : bool :=
  match x with NaN => true | _ => false end.

Definition val (x : fnum) : Q :=
  match x with Fin q => q | _ => 0%Q end.

Definition signed_zero (neg : bool) : fnum := if neg then NZero else Fin 0.
Definition signed_inf (neg : bool) : fnum := if neg then NInf else PInf.

(** A finite result: a zero takes the sign [neg], any other value is itself. *)
Definition finite (neg : bool) (q : Q) : fnum :=
  if Qeqb q 0 then signed_zero neg else Fin q.

Definition fneg (x : fnum) : fnum :=
  match x with
  | Fin q => if Qeqb q 0 then NZero else Fin (- q)
  | NZero => Fin 0
  | PInf => NInf
  | NInf => PInf
  | NaN => NaN
  end.

Definition fabs (x : fnum) : fnum :=
  match x with
  | Fin q => Fin (Qabs q)
  | NZero => Fin 0
  | PInf | NInf => PInf
  | NaN => NaN
  end.

(** Round-to-nearest addition: an exact zero sum of non-zero operands, or of
    zeros of different signs, is +0.0; only (-0.0) + (-0.0) is -0.0. *)
Definition fadd (x y : fnum) : fnum :=
  match x, y with
  | NaN, _ | _, NaN => NaN
  | PInf, NInf | NInf, PInf => NaN
  | PInf, _ | _, PInf => PInf
  | NInf, _ | _, NInf => NInf
  | NZero, NZero => NZero
  | NZero, Fin q | Fin q, NZero => Fin q
  | Fin a, Fin b => Fin (a + b)
  end.

Definition fsub (x y : fnum) : fnum := fadd x (fneg y).

Definition fmul (x y : fnum) : fnum :=
  if is_nan x || is_nan y then NaN
  else if is_inf x || is_inf y then
    if is_zero x || is_zero y then NaN else signed_inf (xorb (sgn x) (sgn y))
  else finite (xorb (sgn x) (sgn y)) (val x * val y).

(** Division as numpy performs it on float64: a division by zero yields an
    infinity or NaN, it does not raise. *)
Definition fdiv (x y : fnum) : fnum :=
  if is_nan x || is_nan y then NaN
  else if is_inf x then
    if is_inf y then NaN else signed_inf (xorb (sgn x) (sgn y))
  else if is_inf y then signed_zero (xorb (sgn x) (sgn y))
  else if is_zero y then
    if is_zero x then NaN else signed_inf (xorb (sgn x) (sgn y))
  else finite (xorb (sgn x) (sgn y)) (val x / val y).

(** Comparisons: every ordered comparison with NaN is false, the two zeros
    are equal. *)
Definition flt (x y : fnum) : bool :=
  match x, y with
  | NaN, _ | _, NaN => false
  | _, NInf => false
  | NInf, _ => true
  | PInf, _ => false
  | _, PInf => true
  | _, _ => Qltb (val x) (val y)
  end.

Definition fle (x y : fnum) : bool :=
  match x, y with
  | NaN, _ | _, NaN => false
  | NInf, _ => true
  | _, NInf => false
  | _, PInf => true
  | PInf, _ => false
  | _, _ => Qleb (val x) (val y)
  end.

Definition fgt (x y : fnum) : bool := flt y x.
Definition fge (x y : fnum) : bool := fle y x.

Definition feqb (x y : fnum) : bool :=
  match x, y with
  | NaN, _ | _, NaN => false
  | PInf, PInf | NInf, NInf => true
  | PInf, _ | _, PInf | NInf, _ | _, NInf => false
  | _, _ => Qeqb (val x) (val y)
  end.

(** Python's builtin [min(a, b)]: [b] when [b < a], else [a]. *)
Definition pymin (a b : fnum) : fnum := if flt b a then b else a.

(** The value denoted, up to the representation of a rational: [Fin p] and
    [Fin q] denote the same double when [p == q]. *)
Definition same (x y : fnum) : Prop :=
  match x, y with
  | Fin p, Fin q => (p == q)%Q
  | NZero, NZero | PInf, PInf | NInf, NInf | NaN, NaN => True
  | _, _ => False
  end.

Definition of_Z (z : Z) : fnum := Fin (inject_Z z).

End PyFloat.
Export PyFloat.

Declare Scope fnum_scope.
Delimit Scope fnum_scope with F.
Notation "x <? y" := (flt x y) : fnum_scope.
Notation "x <=? y" := (fle x y) : fnum_scope.
Notation "x >? y" := (fgt x y) : fnum_scope.
Notation "x >=? y" := (fge x y) : fnum_scope.
Notation "x =? y" := (feqb x y) : fnum_scope.
Notation "x + y" := (fadd x y) : fnum_scope.
Notation "x - y" := (fsub x y) : fnum_scope.
Notation "x * y" := (fmul x y) : fnum_scope.
Notation "x / y" := (fdiv x y) : fnum_scope.
Notation "- x" := (fneg x) : fnum_scope.

(* ===================================================================== *)
(** ** risk_management.py: class RiskManager *)
(* ===================================================================== *)

Module RiskManagement.

(** A calendar day ([datetime.now().date()]), as its ordinal.  The clock is
    an input of every operation; the reads of the clock made during one call
    are taken to fall on the same day. *)
Definition date : Type := Z.

(** [self.config]: the keys the risk manager reads, [None] when absent. *)
Record config : Type := Config {
  RISK_PERCENTAGE : option fnum;
  MAX_POSITION_SIZE : option fnum;
  MAX_DAILY_SIGNALS : option Z
}.

(** [self.daily_stats]. *)
Record daily_stats : Type := DailyStats {
  trades_taken : Z;
  signals_sent : Z;
  max_trades_reached : bool;
  win_rate : fnum;
  profit_loss : fnum;
  last_reset : date
}.

(** A value stored under a numeric key of a signal dictionary: a number, or
    [None], on which arithmetic and ordering raise [TypeError]. *)
Inductive pyval : Type :=
| VNum (x : fnum)
| VNone.

(** [signal['technical_indicators']]. *)
Record indicators : Type := Indicators {
  RSI : option pyval;
  MACD : option pyval;
  MACD_Signal : option pyval;
  ADX : option pyval
}.

(** The signal dictionary; a field is [None] when its key is absent. *)
Record signal : Type := Signal {
  current_price : option pyval;
  stop_loss : option pyval;
  take_profit : option pyval;
  confidence : option pyval;
  signal_type : option string;          (* signal['signal'] *)
  technical_indicators : option indicators
}.

(** The [risk_assessment] dictionary. *)
Record risk_assessment : Type := RiskAssessment {
  risk_level : string;
  score : Z;
  max_loss : fnum;
  risk_reward_ratio : fnum;
  warnings : list string;
  recommendation : string;
  position_size : fnum
}.

Definition initial_assessment : risk_assessment :=
  {| risk_level := "LOW"; score := 0; max_loss := Fin 0;
     risk_reward_ratio := Fin 0; warnings := [];
     recommendation := "APPROVED"; position_size := Fin 0 |}.

(** *** Dictionary assignments *)

Definition set_risk_level (v : string) (a : risk_assessment) : risk_assessment :=
  {| risk_level := v; score := score a; max_loss := max_loss a;
     risk_reward_ratio := risk_reward_ratio a; warnings := warnings a;
     recommendation := recommendation a; position_size := position_size a |}.

Definition set_score (v : Z) (a : risk_assessment) : risk_assessment :=
  {| risk_level := risk_level a; score := v; max_loss := max_loss a;
     risk_reward_ratio := risk_reward_ratio a; warnings := warnings a;
     recommendation := recommendation a; position_size := position_size a |}.

Definition set_max_loss (v : fnum) (a : risk_assessment) : risk_assessment :=
  {| risk_level := risk_level a; score := score a; max_loss := v;
     risk_reward_ratio := risk_reward_ratio a; warnings := warnings a;
     recommendation := recommendation a; position_size := position_size a |}.

Definition set_risk_reward_ratio (v : fnum) (a : risk_assessment) : risk_assessment :=
  {| risk_level := risk_level a; score := score a; max_loss := max_loss a;
     risk_reward_ratio := v; warnings := warnings a;
     recommendation := recommendation a; position_size := position_size a |}.

Definition append_warning (w : string) (a : risk_assessment) : risk_assessment :=
  {| risk_level := risk_level a; score := score a; max_loss := max_loss a;
     risk_reward_ratio := risk_reward_ratio a; warnings := warnings a ++ [w];
     recommendation := recommendation a; position_size := position_size a |}.

Definition set_recommendation (v : string) (a : risk_assessment) : risk_assessment :=
  {| risk_level := risk_level a; score := score a; max_loss := max_loss a;
     risk_reward_ratio := risk_reward_ratio a; warnings := warnings a;
     recommendation := v; position_size := position_size a |}.

Definition set_position_size (v : fnum) (a : risk_assessment) : risk_assessment :=
  {| risk_level := risk_level a; score := score a; max_loss := max_loss a;
     risk_reward_ratio := risk_reward_ratio a; warnings := warnings a;
     recommendation := recommendation a; position_size := v |}.

(** *** The body of the [try] block: a state and exception monad

    The state is the [risk_assessment] dictionary, which the [except] clause
    still sees as the body left it. *)

Inductive exn : Type := TypeError.

(** [str(e)] in the handler.  The interpreter's message names the operation
    and the types of its operands, which [pyval] does not record; it is
    rendered here by the class of the exception, and no statement below reads
    it. *)
Definition exn_text (e : exn) : string :=
  match e with TypeError => "TypeError" end.

Definition M (A : Type) : Type := risk_assessment -> risk_assessment * (exn + A).

Definition raise {A} (e : exn) : M A := fun s => (s, inl e).
Definition modify (f : risk_assessment -> risk_assessment) : M unit :=
  fun s => (f s, inr tt).

#[export] Instance M_ret : MRet M := fun A (a : A) s => (s, inr a).
#[export] Instance M_bind : MBind M := fun A B (k : A -> M B) (m : M A) s =>
  match m s with
  | (s', inr a) => k a s'
  | (s', inl e) => (s', inl e)
  end.

(** A numeric operand: [None] raises [TypeError]. *)
Definition num (v : pyval) : M fnum :=
  match v with VNum x => mret x | VNone => raise TypeError end.

(** [d.get(key, dflt)] on an optional field. *)
Definition get {A} (dflt : A) (field : option A) : A :=
  match field with Some v => v | None => dflt end.

(** [v == 0]. *)
Definition eq0 (v : pyval) : bool :=
  match v with VNum x => (x =? Fin 0)%F | VNone => false end.

(** [signal.get('signal') == s]. *)
Definition is_signal (sig : signal) (s : string) : bool :=
  match signal_type sig with Some t => String.eqb t s | None => false end.

(** *** calculate_position_size *)

Definition calculate_position_size (cfg : config)
    (account_balance risk_percentage stop_loss_distance : fnum) : fnum :=
  let risk_amount := (account_balance * (risk_percentage / Fin 100))%F in
  let position_size :=
    if (stop_loss_distance >? Fin 0)%F
    then (risk_amount / stop_loss_distance)%F else Fin 0 in
  let max_position := get (Fin 100) (MAX_POSITION_SIZE cfg) in
  pymin position_size max_position.

(** *** The session limiter *)

Definition reset_daily_stats (now : date) : daily_stats :=
  {| trades_taken := 0; signals_sent := 0; max_trades_reached := false;
     win_rate := Fin 0; profit_loss := Fin 0; last_reset := now |}.

(** The constructor's [self.daily_stats]. *)
Definition init_daily_stats (now : date) : daily_stats := reset_daily_stats now.

Definition check_daily_limits (cfg : config) (now : date) (st : daily_stats)
  : bool * daily_stats :=
  let current_date := now in
  let st := if negb (last_reset st =? current_date)%Z
            then reset_daily_stats now else st in
  let max_signals := get 50 (MAX_DAILY_SIGNALS cfg) in
  ((signals_sent st >=? max_signals)%Z, st).

Definition add_signal_sent (st : daily_stats) : daily_stats :=
  {| trades_taken := trades_taken st; signals_sent := signals_sent st + 1;
     max_trades_reached := max_trades_reached st; win_rate := win_rate st;
     profit_loss := profit_loss st; last_reset := last_reset st |}.

Definition add_trade_taken (st : daily_stats) : daily_stats :=
  {| trades_taken := trades_taken st + 1; signals_sent := signals_sent st;
     max_trades_reached := max_trades_reached st; win_rate := win_rate st;
     profit_loss := profit_loss st; last_reset := last_reset st |}.

Definition add_profit_loss (x : fnum) (st : daily_stats) : daily_stats :=
  {| trades_taken := trades_taken st; signals_sent := signals_sent st;
     max_trades_reached := max_trades_reached st; win_rate := win_rate st;
     profit_loss := (profit_loss st + x)%F; last_reset := last_reset st |}.

(** [trade_result]: [None], or a dictionary from keys to numbers.  A
    dictionary is true when it is not empty. *)
Definition truthy (trade_result : option (gmap string fnum)) : bool :=
  match trade_result with
  | Some d => negb (bool_decide (d = ∅))
  | None => false
  end.

Definition update_daily_stats (now : date) (signal_sent : bool)
    (trade_result : option (gmap string fnum)) (st : daily_stats) : daily_stats :=
  let current_date := now in
  let st := if negb (last_reset st =? current_date)%Z
            then reset_daily_stats now else st in
  let st := if signal_sent then add_signal_sent st else st in
  if truthy trade_result then
    let st := add_trade_taken st in
    match trade_result ≫= (fun d => d !! "profit_loss") with
    | Some x => add_profit_loss x st
    | None => st
    end
  else st.

(** *** assess_trade_risk *)

Definition risk_level_of (risk_score : Z) : string :=
  if (risk_score <=? -2)%Z then "VERY_LOW"
  else if (risk_score <=? 0)%Z then "LOW"
  else if (risk_score <=? 2)%Z then "MEDIUM"
  else if (risk_score <=? 4)%Z then "HIGH"
  else "VERY_HIGH".

Definition empty_indicators : indicators :=
  {| RSI := None; MACD := None; MACD_Signal := None; ADX := None |}.

(** The numbered blocks of the risk scoring system, each a statement on the
    running [risk_score] and the [warnings] list. *)

(* 1. Risk-reward ratio assessment *)
Definition assess_risk_reward (risk_reward_ratio : fnum) (risk_score : Z) : M Z :=
  if (risk_reward_ratio <? Fin 1)%F then
    modify (append_warning "Poor risk-reward ratio");;
    mret (risk_score + 3)%Z
  else if (risk_reward_ratio <? Fin (3 # 2))%F then mret (risk_score + 1)%Z
  else mret (risk_score - 1)%Z.

(* 2. Stop loss distance assessment *)
Definition assess_stop_distance (risk_percent : fnum) (risk_score : Z) : M Z :=
  if (risk_percent >? Fin 5)%F then
    modify (append_warning "High stop loss percentage");;
    mret (risk_score + 2)%Z
  else if (risk_percent <? Fin 1)%F then
    modify (append_warning "Very tight stop loss");;
    mret (risk_score + 1)%Z
  else mret risk_score.

(* 3. Confidence level assessment *)
Definition assess_confidence (confidence : fnum) (risk_score : Z) : M Z :=
  if (confidence <? Fin 30)%F then
    modify (append_warning "Low signal confidence");;
    mret (risk_score + 2)%Z
  else if (confidence >? Fin 70)%F then mret (risk_score - 2)%Z
  else mret risk_score.

(* 4. Technical indicator alignment.  The conditions are
   [(signal == 'BUY' and ...) or (signal == 'SELL' and ...)]: an indicator is
   compared, and a [None] raises, only behind a direction test that holds. *)
Definition indicator_alignment (sig : signal) (indicators : indicators) : M Z :=
  let alignment_score := 0%Z in
  (* RSI check *)
  let rsi := get (VNum (Fin 50)) (RSI indicators) in
  rsi_in_band ←
    (if is_signal sig "BUY" || is_signal sig "SELL" then
       r ← num rsi; mret ((Fin 30 <? r)%F && (r <? Fin 70)%F)
     else mret false);
  let alignment_score :=
    if (rsi_in_band : bool) then (alignment_score + 1)%Z
    else (alignment_score - 1)%Z in
  (* MACD check *)
  let macd := get (VNum (Fin 0)) (MACD indicators) in
  let macd_signal := get (VNum (Fin 0)) (MACD_Signal indicators) in
  macd_agrees ←
    (if is_signal sig "BUY" then
       m ← num macd; s ← num macd_signal; mret (m >? s)%F
     else if is_signal sig "SELL" then
       m ← num macd; s ← num macd_signal; mret (m <? s)%F
     else mret false);
  let alignment_score :=
    if (macd_agrees : bool) then (alignment_score + 1)%Z
    else (alignment_score - 1)%Z in
  mret alignment_score.

(* 5. Market volatility check *)
Definition assess_volatility (indicators : indicators) (risk_score : Z) : M Z :=
  adx ← num (get (VNum (Fin 0)) (ADX indicators));
  if (adx >? Fin 30)%F then
    modify (append_warning "High market volatility");;
    mret (risk_score + 1)%Z
  else mret risk_score.

(* Final recommendation *)
Definition final_recommendation (risk_score : Z) (confidence : fnum) : M unit :=
  if (risk_score >? 4)%Z || (confidence <? Fin 20)%F then
    modify (set_recommendation "REJECTED")
  else if (risk_score >? 2)%Z then modify (set_recommendation "CAUTION")
  else mret tt.

(* Daily limits check *)
Definition daily_limits_check (cfg : config) (now : date) (st : daily_stats)
  : M daily_stats :=
  let '(limit_reached, st) := check_daily_limits cfg now st in
  (if limit_reached then
     modify (set_recommendation "REJECTED");;
     modify (append_warning "Daily trading limit reached")
   else mret tt);;
  mret st.

(** The statements of the [try] block.  The result is the state of the
    session limiter, which [check_daily_limits] may have reset. *)
Definition assess_body (cfg : config) (now : date) (st : daily_stats)
    (sig : signal) (account_balance : fnum) : M daily_stats :=
  let current_price := get (VNum (Fin 0)) (current_price sig) in
  let stop_loss := get (VNum (Fin 0)) (stop_loss sig) in
  let take_profit := get (VNum (Fin 0)) (take_profit sig) in
  let confidence := get (VNum (Fin 0)) (confidence sig) in
  if eq0 current_price || eq0 stop_loss then
    modify (set_recommendation "REJECTED");;
    modify (append_warning "Invalid price data");;
    mret st
  else
    (* Calculate stop loss distance *)
    price ← num current_price;
    stop ← num stop_loss;
    let stop_distance := fabs (price - stop)%F in
    let risk_percent := ((stop_distance / price) * Fin 100)%F in
    (* Calculate risk-reward ratio *)
    target ← num take_profit;
    let profit_distance :=
      if is_signal sig "BUY" then (target - price)%F else (price - target)%F in
    let risk_reward_ratio :=
      if (stop_distance >? Fin 0)%F
      then (profit_distance / stop_distance)%F else Fin 0 in
    modify (set_risk_reward_ratio risk_reward_ratio);;
    modify (set_max_loss stop_distance);;
    (* Risk scoring system *)
    let risk_score := 0%Z in
    risk_score ← assess_risk_reward risk_reward_ratio risk_score;
    risk_score ← assess_stop_distance risk_percent risk_score;
    conf ← num confidence;
    risk_score ← assess_confidence conf risk_score;
    let indicators := get empty_indicators (technical_indicators sig) in
    alignment_score ← indicator_alignment sig indicators;
    let risk_score := (risk_score + alignment_score)%Z in
    risk_score ← assess_volatility indicators risk_score;
    modify (set_score risk_score);;
    (* Determine risk level *)
    modify (set_risk_level (risk_level_of risk_score));;
    (* Calculate recommended position size *)
    let position_size :=
      calculate_position_size cfg account_balance
        (get (Fin 2) (RISK_PERCENTAGE cfg)) stop_distance in
    modify (set_position_size position_size);;
    final_recommendation risk_score conf;;
    daily_limits_check cfg now st.

(** [try: ... except Exception as e: ...]: the handler marks the assessment
    as it stands as ERROR and appends the exception's text. *)
Definition assess_trade_risk (cfg : config) (now : date) (st : daily_stats)
    (sig : signal) (account_balance : fnum) : risk_assessment * daily_stats :=
  match assess_body cfg now st sig account_balance initial_assessment with
  | (a, inr st') => (a, st')
  | (a, inl e) =>
      (append_warning ("Risk assessment error: " ++ exn_text e)%string
         (set_recommendation "ERROR" a), st)
  end.

End RiskManagement.

(* ===================================================================== *)
(** ** The pandas series operations the bots use *)
(* ===================================================================== *)

Module Pandas.

(** A float64 series, oldest value first. *)
Abbreviation series := (list fnum).

(** [s.diff()]: the first entry is NaN. *)
Definition diff (s : series) : series :=
  match s with
  | [] => []
  | _ :: rest => NaN :: zip_with fsub rest s
  end.

(** [s.where(cond, 0)] for a condition on the entry itself: an entry on
    which the condition is false (NaN included) is replaced by 0. *)
Definition where_ (cond : fnum -> bool) (s : series) : series :=
  (fun x => if cond x then x else Fin 0) <$> s.

Definition neg (s : series) : series := fneg <$> s.

Definition sum (s : series) : fnum := foldl fadd (Fin 0) s.

(** The mean of the last [window] entries of a prefix of the series, NaN
    while the prefix is shorter than the window. *)
Definition window_mean (window : nat) (prefix : series) : fnum :=
  if (length prefix <? window)%nat then NaN
  else (sum (drop (length prefix - window) prefix) / of_Z (Z.of_nat window))%F.

(** [s.rolling(window=w).mean()]. *)
Definition rolling_mean (window : nat) (s : series) : series :=
  (fun i => window_mean window (take (S i) s)) <$> seq 0 (length s).

(** [s.iloc[-k]], [k >= 1]; [None] stands for IndexError. *)
Definition iloc_back (k : nat) (s : series) : option fnum :=
  if (length s <? k)%nat then None else s !! (length s - k)%nat.

(** The RSI series both bots compute:
    [gain = delta.where(delta > 0, 0).rolling(period).mean()],
    [loss = (-delta.where(delta < 0, 0)).rolling(period).mean()],
    [rs = gain / loss], [rsi = 100 - 100 / (1 + rs)]. *)
Definition avg_gain (period : nat) (prices : series) : series :=
  let delta := diff prices in
  rolling_mean period (where_ (fun d => (d >? Fin 0)%F) delta).

Definition avg_loss (period : nat) (prices : series) : series :=
  let delta := diff prices in
  rolling_mean period (neg (where_ (fun d => (d <? Fin 0)%F) delta)).

Definition rsi_of (gain loss : fnum) : fnum :=
  let rs := (gain / loss)%F in
  (Fin 100 - Fin 100 / (Fin 1 + rs))%F.

Definition rsi_series (period : nat) (prices : series) : series :=
  zip_with rsi_of (avg_gain period prices) (avg_loss period prices).

End Pandas.

(* ===================================================================== *)
(** ** REALTIME_TRADING_BOT.py: calculate_rsi *)
(* ===================================================================== *)

Module RealtimeBot.
Import Pandas.

(** [calculate_rsi(prices, period=14)]; [None] is the IndexError of
    [rsi.iloc[-1]] on an empty series. *)
Definition calculate_rsi (prices : series) (period : nat) : option fnum :=
  iloc_back 1 (rsi_series period prices).

End RealtimeBot.

(* ===================================================================== *)
(** ** ENHANCED_POCKET_OPTION_BOT.py: class EnhancedPocketOptionBot *)
(* ===================================================================== *)

Module EnhancedBot.
Import Pandas.

(** The values of [action]. *)
Inductive direction : Type := HOLD | CALL | PUT.

#[export] Instance direction_eq_dec : EqDecision direction.
Proof. solve_decision. Defined.

(** The values of [data_freshness]. *)
Inductive freshness : Type := LIVE | STALE | SIMULATED.

(** A reason: the text of the f-string and the number formatted into it. *)
Definition reason : Type := string * option fnum.

(** The dictionary [calculate_technical_indicators] returns. *)
Record indicators : Type := Indicators {
  current_price : fnum;
  rsi : fnum;
  macd : fnum;
  macd_signal : fnum;
  bb_upper : fnum;
  bb_middle : fnum;
  bb_lower : fnum;
  ma_20 : fnum;
  ma_50 : fnum;
  momentum_1 : fnum;
  momentum_5 : fnum;
  volatility : fnum
}.

(** The local variables the scoring rules update. *)
Record analysis : Type := Analysis {
  action : direction;
  signal_strength : Z;
  reasoning : list reason
}.

Definition initial_analysis : analysis :=
  {| action := HOLD; signal_strength := 0; reasoning := [] |}.

(** [action = a] (when [a] is given); [signal_strength += points];
    [reasoning.append(r)]. *)
Definition fire (a : option direction) (points : Z) (r : reason) (s : analysis)
  : analysis :=
  {| action := match a with Some a => a | None => action s end;
     signal_strength := signal_strength s + points;
     reasoning := reasoning s ++ [r] |}.

(** [if action == "HOLD": action = a]. *)
Definition if_hold (s : analysis) (a : direction) : option direction :=
  if bool_decide (action s = HOLD) then Some a else None.

(* RSI Analysis *)
Definition rsi_analysis (ind : indicators) (s : analysis) : analysis :=
  let rsi := rsi ind in
  if (rsi <? Fin 30)%F then fire (Some CALL) 30 ("RSI oversold", Some rsi) s
  else if (rsi >? Fin 70)%F then fire (Some PUT) 30 ("RSI overbought", Some rsi) s
  else if (rsi <? Fin 40)%F then fire None 15 ("RSI bearish", Some rsi) s
  else if (rsi >? Fin 60)%F then fire None 15 ("RSI bullish", Some rsi) s
  else fire None 5 ("RSI neutral", Some rsi) s.

(* MACD Analysis *)
Definition macd_analysis (ind : indicators) (s : analysis) : analysis :=
  if (macd ind >? macd_signal ind)%F
  then fire (if_hold s CALL) 25 ("MACD bullish crossover", None) s
  else fire (if_hold s PUT) 25 ("MACD bearish crossover", None) s.

(* Bollinger Bands Analysis *)
Definition bollinger_analysis (ind : indicators) (s : analysis) : analysis :=
  let current_price := current_price ind in
  if (current_price <=? bb_lower ind)%F then
    fire (if bool_decide (action s = HOLD) || bool_decide (action s = PUT)
          then Some CALL else None)
         20 ("Price at lower Bollinger Band", None) s
  else if (current_price >=? bb_upper ind)%F then
    fire (if bool_decide (action s = HOLD) || bool_decide (action s = CALL)
          then Some PUT else None)
         20 ("Price at upper Bollinger Band", None) s
  else if (current_price >? bb_middle ind)%F && bool_decide (action s = CALL) then
    fire None 10 ("Price above Bollinger middle", None) s
  else if (current_price <? bb_middle ind)%F && bool_decide (action s = PUT) then
    fire None 10 ("Price below Bollinger middle", None) s
  else s.

(* Moving Average Analysis *)
Definition moving_average_analysis (ind : indicators) (s : analysis) : analysis :=
  let current_price := current_price ind in
  if (current_price >? ma_20 ind)%F then
    fire (if_hold s CALL) 15 ("Price above MA20", None) s
  else if (current_price <? ma_20 ind)%F then
    fire (if_hold s PUT) 15 ("Price below MA20", None) s
  else s.

(* Momentum confirmation *)
Definition momentum_confirmation (ind : indicators) (s : analysis) : analysis :=
  let momentum_1 := momentum_1 ind in
  if (momentum_1 >? Fin (2 # 100))%F then
    fire (if_hold s CALL) 15 ("Strong positive momentum", Some momentum_1) s
  else if (momentum_1 <? Fin (- 2 # 100))%F then
    fire (if_hold s PUT) 15 ("Strong negative momentum", Some momentum_1) s
  else if (momentum_1 >? Fin 0)%F then
    fire None 5 ("Positive momentum", Some momentum_1) s
  else if (momentum_1 <? Fin 0)%F then
    fire None 5 ("Negative momentum", Some momentum_1) s
  else s.

(** The scoring rules in the order [generate_comprehensive_signal] runs
    them. *)
Definition rules : list (indicators -> analysis -> analysis) :=
  [rsi_analysis; macd_analysis; bollinger_analysis;
   moving_average_analysis; momentum_confirmation].

Definition run_rules (ind : indicators) (s : analysis) : analysis :=
  foldl (fun s rule => rule ind s) s rules.

(* Determine confidence level *)
Definition confidence_level_of (signal_strength : Z) : string :=
  if (signal_strength >=? 80)%Z then "VERY HIGH"
  else if (signal_strength >=? 60)%Z then "HIGH"
  else if (signal_strength >=? 40)%Z then "MEDIUM"
  else "LOW".

(* Risk assessment *)
Definition risk_level_of (volatility : fnum) : string :=
  if (volatility <? Fin 1)%F then "LOW"
  else if (volatility <? Fin 2)%F then "MEDIUM" else "HIGH".

(** The signal dictionary (the display name of the pair, the expiry label
    and the timestamp are left out). *)
Record signal : Type := Signal {
  pair_symbol : string;
  sig_action : direction;
  sig_current_price : fnum;
  timeframe : string;
  period : string;
  sig_signal_strength : Z;
  confidence : string;
  risk_level : string;
  sig_rsi : fnum;
  sig_macd : fnum;
  sig_macd_signal : fnum;
  momentum : fnum;
  sig_volatility : fnum;
  bb_position : string;
  ma_position : string;
  sig_reasoning : list reason;       (* joined with ". " by the code *)
  data_freshness : freshness
}.

Section Engine.

(** The pandas computations that are not rational functions of the prices
    are parameters: [s.ewm(span=n).mean()], [s.rolling(window=n).std()]
    and [s.std()]. *)
Variable ewm_mean : nat -> series -> series.
Variable rolling_std : nat -> series -> series.
Variable std : series -> fnum.

(** [s.pct_change()]. *)
Definition pct_change (s : series) : series :=
  match s with
  | [] => []
  | _ :: rest => NaN :: zip_with (fun x prev => ((x - prev) / prev)%F) rest s
  end.

(** [s.iloc[-1] if not s.empty else dflt]. *)
Definition last_or (dflt : fnum) (s : series) : fnum :=
  match iloc_back 1 s with Some x => x | None => dflt end.

(** [calculate_technical_indicators(data)], on the Close column of the
    frame; a frame that is [None] is [None] here.  Behind the length guard
    no [iloc] fails, so the NaN default of the reads below is never used. *)
Definition calculate_technical_indicators (data : option series)
  : option indicators :=
  match data with
  | None => None
  | Some close =>
    if bool_decide (close = []) || (length close <? 20)%nat then None
    else
      let at_back k := default NaN (iloc_back k close) in
      let current_price := at_back 1%nat in
      (* RSI calculation *)
      let rsi := rsi_series 14 close in
      (* MACD calculation *)
      let exp1 := ewm_mean 12 close in
      let exp2 := ewm_mean 26 close in
      let macd := zip_with fsub exp1 exp2 in
      let signal_line := ewm_mean 9 macd in
      (* Bollinger Bands *)
      let bb_period := 20%nat in
      let bb_middle := rolling_mean bb_period close in
      let bb_std := rolling_std bb_period close in
      let bb_upper := zip_with (fun m sd => (m + sd * Fin 2)%F) bb_middle bb_std in
      let bb_lower := zip_with (fun m sd => (m - sd * Fin 2)%F) bb_middle bb_std in
      (* Moving Averages *)
      let ma_20 := rolling_mean 20 close in
      let ma_50 := rolling_mean 50 close in
      (* Price momentum and volatility *)
      let momentum_1 :=
        if (1 <? length close)%nat
        then ((at_back 1 - at_back 2) / at_back 2 * Fin 100)%F%nat else Fin 0 in
      let momentum_5 :=
        if (5 <? length close)%nat
        then ((at_back 1 - at_back 6) / at_back 6 * Fin 100)%F%nat else Fin 0 in
      let volatility := (std (pct_change close) * Fin 100)%F in
      Some {| current_price := current_price;
              rsi := last_or (Fin 50) rsi;
              macd := last_or (Fin 0) macd;
              macd_signal := last_or (Fin 0) signal_line;
              bb_upper := last_or current_price bb_upper;
              bb_middle := last_or current_price bb_middle;
              bb_lower := last_or current_price bb_lower;
              ma_20 := last_or current_price ma_20;
              ma_50 := last_or current_price ma_50;
              momentum_1 := momentum_1;
              momentum_5 := momentum_5;
              volatility := volatility |}
  end.

(** [generate_comprehensive_signal(pair_symbol, timeframe, period)].  The
    result of [get_live_market_data] is the argument [data]: [None] when the
    fetch failed, else the dictionary of frames by timeframe. *)
Definition generate_comprehensive_signal
    (data : option (gmap string (option series)))
    (pair_symbol timeframe period : string) : option signal :=
  match data with
  | None => None
  | Some data =>
    if bool_decide (data = ∅) then None else
    match data !! timeframe with
    | None => None
    | Some frame =>
      match calculate_technical_indicators frame with
      | None => None
      | Some ind =>
        let s := run_rules ind initial_analysis in
        let current_price := current_price ind in
        Some {|
          pair_symbol := pair_symbol;
          sig_action := action s;
          sig_current_price := current_price;
          timeframe := timeframe;
          period := period;
          sig_signal_strength := Z.min (signal_strength s) 95;
          confidence := confidence_level_of (signal_strength s);
          risk_level := risk_level_of (volatility ind);
          sig_rsi := rsi ind;
          sig_macd := macd ind;
          sig_macd_signal := macd_signal ind;
          momentum := momentum_1 ind;
          sig_volatility := volatility ind;
          bb_position :=
            if (current_price <=? bb_lower ind)%F then "Lower Band"
            else if (current_price >=? bb_upper ind)%F then "Upper Band"
            else "Middle Range";
          ma_position :=
            if (current_price >? ma_20 ind)%F then "Above MA20" else "Below MA20";
          sig_reasoning := reasoning s;
          data_freshness :=
            match frame with
            | Some close => if (0 <? length close)%nat then LIVE else STALE
            | None => STALE
            end
        |}
      end
    end
  end.

(** The fixture of [display_comprehensive_signal]. *)
Definition fallback_signal (pair_symbol timeframe period : string) : signal :=
  {| pair_symbol := pair_symbol; sig_action := CALL;
     sig_current_price := Fin (10923 # 10000);
     timeframe := timeframe; period := period;
     sig_signal_strength := 75; confidence := "MEDIUM"; risk_level := "LOW";
     sig_rsi := Fin (452 # 10); sig_macd := Fin (12 # 10000);
     sig_macd_signal := Fin (10 # 10000); momentum := Fin (5 # 100);
     sig_volatility := Fin (8 # 10);
     bb_position := "Middle Range"; ma_position := "Above MA20";
     sig_reasoning :=
       [("Real-time data temporarily unavailable. Using market simulation.",
         None)];
     data_freshness := SIMULATED |}.

(** The signal [display_comprehensive_signal] renders:
    [signal_data = generate_comprehensive_signal(...)], replaced by the
    fixture [if not signal_data]. *)
Definition displayed_signal (data : option (gmap string (option series)))
    (pair_symbol timeframe period : string) : signal :=
  match generate_comprehensive_signal data pair_symbol timeframe period with
  | Some signal_data => signal_data
  | None => fallback_signal pair_symbol timeframe period
  end.

End Engine.

End EnhancedBot.

(* ===================================================================== *)
(** ** technical_analysis.py: class TechnicalAnalyzer *)
(* ===================================================================== *)

Module TechnicalAnalysis.

(** A row of the frame [calculate_indicators] returns: the bar and the
    indicator columns [generate_signal] reads (they are computed by the [ta]
    library). *)
Record row : Type := Row {
  Open : fnum; High : fnum; Low : fnum; Close : fnum;
  RSI : fnum; MACD : fnum; MACD_Signal : fnum;
  MA20 : fnum; MA50 : fnum;
  BB_Upper : fnum; BB_Lower : fnum;
  Stoch_K : fnum; Stoch_D : fnum;
  ADX : fnum; ATR : fnum
}.

(** The [patterns] dictionary: a flag is [true] when its key is present. *)
Record patterns : Type := Patterns {
  doji : bool; hammer : bool; shooting_star : bool;
  bullish_engulfing : bool; bearish_engulfing : bool;
  morning_star : bool; evening_star : bool
}.

Definition no_patterns : patterns :=
  Patterns false false false false false false false.

(** Python's builtin [max(a, b)]: [b] when [b > a], else [a]. *)
Definition pymax (a b : fnum) : fnum := if (b >? a)%F then b else a.

(** [data.iloc[-k]]. *)
Definition iloc_back {A} (k : nat) (l : list A) : option A :=
  if (length l <? k)%nat then None else l !! (length l - k)%nat.

Definition detect_candlestick_patterns (data : list row) : patterns :=
  match iloc_back 1 data, iloc_back 2 data with
  | Some latest, Some prev =>
    let body := fabs (Close latest - Open latest)%F in
    let upper_shadow := (High latest - pymax (Open latest) (Close latest))%F in
    let lower_shadow := (pymin (Open latest) (Close latest) - Low latest)%F in
    let star (bullish : bool) :=
      match iloc_back 3 data with
      | Some first =>
        let second := prev in
        let mid := ((Open first + Close first) / Fin 2)%F in
        (if bullish then (Close first <? Open first)%F
         else (Close first >? Open first)%F)
        && (fabs (Open second - Close second) <? body * Fin (5 # 10))%F
        && (if bullish then (Close latest >? Open latest)%F
            else (Close latest <? Open latest)%F)
        && (if bullish then (Close latest >? mid)%F else (Close latest <? mid)%F)
      | None => false
      end in
    {| doji := (body <=? (High latest - Low latest) * Fin (1 # 10))%F;
       hammer := (lower_shadow >=? Fin 2 * body)%F && (upper_shadow <=? body)%F;
       shooting_star :=
         (upper_shadow >=? Fin 2 * body)%F && (lower_shadow <=? body)%F;
       bullish_engulfing :=
         (Close latest >? Open latest)%F && (Close prev <? Open prev)%F
         && (Open latest <? Close prev)%F && (Close latest >? Open prev)%F;
       bearish_engulfing :=
         negb (Close latest >? Open latest)%F && (Close prev >? Open prev)%F
         && (Open latest >? Close prev)%F && (Close latest <? Open prev)%F;
       morning_star := star true;
       evening_star := star false |}
  | _, _ => no_patterns
  end.

(** The local variables of the signal generation logic. *)
Record tally : Type := Tally {
  signal_score : Z;
  confidence : Z;
  reasons : list string
}.

(** [signal_score += d; reasons.append(r); confidence += c]. *)
Definition note (d : Z) (r : string) (c : Z) (t : tally) : tally :=
  {| signal_score := signal_score t + d;
     reasons := reasons t ++ [r];
     confidence := confidence t + c |}.

(* RSI analysis *)
Definition rsi_analysis (latest : row) (t : tally) : tally :=
  if (RSI latest <? Fin 30)%F then note 1 "RSI Oversold" 10 t
  else if (RSI latest >? Fin 70)%F then note (-1) "RSI Overbought" 10 t
  else t.

(* MACD analysis *)
Definition macd_analysis (latest : row) (t : tally) : tally :=
  if (MACD latest >? MACD_Signal latest)%F
  then note 1 "MACD Bullish Crossover" 15 t
  else note (-1) "MACD Bearish" 15 t.

(* Moving Average analysis *)
Definition moving_average_analysis (latest : row) (t : tally) : tally :=
  if (Close latest >? MA20 latest)%F && (MA20 latest >? MA50 latest)%F
  then note 2 "Price above MA20 > MA50" 20 t
  else if (Close latest <? MA20 latest)%F && (MA20 latest <? MA50 latest)%F
  then note (-2) "Price below MA20 < MA50" 20 t
  else t.

(* Bollinger Bands *)
Definition bollinger_analysis (latest : row) (t : tally) : tally :=
  if (Close latest <? BB_Lower latest)%F then note 1 "Price below BB Lower" 15 t
  else if (Close latest >? BB_Upper latest)%F
  then note (-1) "Price above BB Upper" 15 t
  else t.

(* Stochastic *)
Definition stochastic_analysis (latest : row) (t : tally) : tally :=
  if (Stoch_K latest <? Fin 20)%F && (Stoch_D latest <? Fin 20)%F
  then note 1 "Stochastic Oversold" 10 t
  else if (Stoch_K latest >? Fin 80)%F && (Stoch_D latest >? Fin 80)%F
  then note (-1) "Stochastic Overbought" 10 t
  else t.

(* Candlestick patterns *)
Definition pattern_analysis (p : patterns) (t : tally) : tally :=
  let t := if bullish_engulfing p
           then note 2 "Bullish Engulfing Pattern" 25 t else t in
  if hammer p then note 1 "Hammer Pattern" 20 t else t.

Definition score_rules (latest : row) (p : patterns) (t : tally) : tally :=
  pattern_analysis p
    (stochastic_analysis latest
       (bollinger_analysis latest
          (moving_average_analysis latest
             (macd_analysis latest (rsi_analysis latest t))))).

(* Determine final signal *)
Definition final_signal (signal_score : Z) : string :=
  if (signal_score >=? 3)%Z then "BUY"
  else if (signal_score <=? -3)%Z then "SELL"
  else "HOLD".

(** [signal['technical_indicators']]. *)
Record technical_indicators : Type := TechnicalIndicators {
  ti_RSI : fnum; ti_MACD : fnum; ti_MACD_Signal : fnum; ti_ADX : fnum;
  ti_Stoch_K : fnum; ti_Stoch_D : fnum; BB_Position : fnum
}.

(** The signal dictionary (the trend and sentiment summaries and the
    timestamp are left out). *)
Record signal : Type := Signal {
  symbol : string;
  timeframe : string;
  signal_type : string;               (* signal['signal'] *)
  sig_confidence : Z;
  current_price : fnum;
  entry_price : fnum;
  stop_loss : fnum;
  take_profit : fnum;
  sig_reasons : list string;
  sig_patterns : patterns;
  indicators : technical_indicators
}.

(** [generate_signal(symbol, timeframe)], from the frame with its indicator
    columns ([calculate_indicators] of the fetched data; an empty frame is a
    failed or empty fetch).  [inl] is the [{'error': ...}] dictionary.  These
    are the statements of the [try] block from the emptiness test on, for a
    [calculate_indicators] that returned; the method with its handler is
    [generate_signal_handled] below. *)
Definition generate_signal (df : list row) (symbol timeframe : string)
  : string + signal :=
  match iloc_back 1 df with
  | None => inl ("No data available for " ++ symbol)%string
  | Some latest =>
    let patterns := detect_candlestick_patterns df in
    let t := score_rules latest patterns (Tally 0 0 []) in
    let signal_type := final_signal (signal_score t) in
    (* Normalize confidence *)
    let confidence := Z.min (confidence t) 95 in
    (* Calculate entry, stop loss, and take profit *)
    let current_price := Close latest in
    let atr := ATR latest in
    let '(entry_price, stop_loss, take_profit) :=
      if String.eqb signal_type "BUY" then
        (current_price, (current_price - atr * Fin (15 # 10))%F,
         (current_price + atr * Fin 2)%F)
      else
        (current_price, (current_price + atr * Fin (15 # 10))%F,
         (current_price - atr * Fin 2)%F) in
    inr {| symbol := symbol; timeframe := timeframe;
           signal_type := signal_type;
           sig_confidence := confidence;
           current_price := current_price;
           entry_price := entry_price;
           stop_loss := stop_loss;
           take_profit := take_profit;
           sig_reasons := reasons t;
           sig_patterns := patterns;
           indicators :=
             {| ti_RSI := RSI latest; ti_MACD := MACD latest;
                ti_MACD_Signal := MACD_Signal latest; ti_ADX := ADX latest;
                ti_Stoch_K := Stoch_K latest; ti_Stoch_D := Stoch_D latest;
                BB_Position :=
                  ((Close latest - BB_Lower latest)
                   / (BB_Upper latest - BB_Lower latest))%F |} |}
  end.



End TechnicalAnalysis.

(* ===================================================================== *)
(** ** technical_analysis.py: the price levels on binary64 *)
(* ===================================================================== *)

Module Binary64.
Import PrimFloat.
#[local] Set Warnings "-inexact-float".

(** [entry_price], [stop_loss] and [take_profit] of [generate_signal], on
    the doubles the code computes with. *)
Definition price_levels (signal_type : string) (current_price atr : float)
  : float * float * float :=
  if String.eqb signal_type "BUY" then
    (current_price, (current_price - atr * 1.5)%float,
     (current_price + atr * 2)%float)
  else
    (current_price, (current_price + atr * 1.5)%float,
     (current_price - atr * 2)%float).

(** A close of 1.1 and an ATR of 1e-17. *)
Definition narrow_close : float := 1.1%float.
Definition narrow_atr : float := 1e-17%float.

End Binary64.

(* ===================================================================== *)
(** ** risk_management.py: summaries and reports of RiskManager *)
(* ===================================================================== *)

Module RiskReports.
Import RiskManagement.

(** The configuration keys the reporting methods read besides those of
    [config]. *)
Record report_config : Type := ReportConfig {
  base : config;
  MAX_DRAWDOWN_PERCENTAGE : option fnum;
  MAX_PORTFOLIO_HEAT : option fnum
}.

(** The exceptions that leave the reporting methods (none of them has a
    [try] block of its own). *)
Inductive error : Type := ZeroDivisionError | TypeError.

(** *** get_daily_summary *)

(** The summary dictionary; [date] is the day that [strftime] prints. *)
Record daily_summary : Type := DailySummary {
  date_ : date;
  sum_signals_sent : Z;
  sum_trades_taken : Z;
  sum_profit_loss : fnum;
  remaining_signals : Z;
  sum_max_trades_reached : bool
}.

Section Rounding.

(** Python's [round(x, 2)] on a float is a parameter. *)
Variable round2 : fnum -> fnum.

Definition get_daily_summary (cfg : config) (now : date) (st : daily_stats)
  : daily_summary :=
  {| date_ := now;
     sum_signals_sent := signals_sent st;
     sum_trades_taken := trades_taken st;
     sum_profit_loss := round2 (profit_loss st);
     remaining_signals :=
       Z.max 0 (get 50 (MAX_DAILY_SIGNALS cfg) - signals_sent st);
     sum_max_trades_reached :=
       (signals_sent st >=? get 50 (MAX_DAILY_SIGNALS cfg))%Z |}.

(** *** calculate_drawdown_risk *)

Record drawdown_risk : Type := DrawdownRisk {
  current_drawdown_pct : fnum;
  max_drawdown_limit : fnum;
  dd_risk_level : string;
  action_required : bool;
  message : option string
}.

(** [x / y] on Python floats: a zero divisor raises. *)
Definition pydiv (x y : fnum) : error + fnum :=
  if (y =? Fin 0)%F then inl ZeroDivisionError else inr (x / y)%F.

(** [drawdown_risk['risk_level'] = level], [['action_required'] = required]
    (when given) and [['message'] = text]. *)
Definition escalate (level : string) (required : option bool) (text : string)
    (d : drawdown_risk) : drawdown_risk :=
  {| current_drawdown_pct := current_drawdown_pct d;
     max_drawdown_limit := max_drawdown_limit d;
     dd_risk_level := level;
     action_required := get (action_required d) required;
     message := Some text |}.

Definition calculate_drawdown_risk (cfg : report_config)
    (account_balance current_drawdown : fnum) : error + drawdown_risk :=
  let max_drawdown_limit := get (Fin 10) (MAX_DRAWDOWN_PERCENTAGE cfg) in
  match pydiv current_drawdown account_balance with
  | inl e => inl e
  | inr ratio =>
    let current_drawdown_pct := (ratio * Fin 100)%F in
    let drawdown_risk :=
      {| current_drawdown_pct := round2 current_drawdown_pct;
         max_drawdown_limit := max_drawdown_limit;
         dd_risk_level := "LOW";
         action_required := false;
         message := None |} in
    inr
      (if (current_drawdown_pct >=? max_drawdown_limit * Fin (8 # 10))%F then
         escalate "HIGH" (Some true) "Approaching maximum drawdown limit"
           drawdown_risk
       else if (current_drawdown_pct >=? max_drawdown_limit * Fin (5 # 10))%F then
         escalate "MEDIUM" None "Moderate drawdown detected" drawdown_risk
       else drawdown_risk)
  end.

(** *** portfolio_heat_check *)

(** A position dictionary: its [size] key, [None] when absent. *)
Definition position : Type := option fnum.

Record heat_check : Type := HeatCheck {
  total_exposure : fnum;
  portfolio_heat_pct : fnum;
  max_allowed_heat_pct : fnum;
  status : string;
  heat_warnings : list string
}.

(** [sum(pos.get('size', 0) for pos in current_positions)]: the builtin
    [sum] adds from the left, starting from the integer 0. *)
Definition exposure (current_positions : list position) : fnum :=
  foldl (fun acc pos => (acc + get (Fin 0) pos)%F) (Fin 0) current_positions.

Definition portfolio_heat_check (cfg : report_config)
    (current_positions : list position) (account_balance : fnum) : heat_check :=
  let total_exposure := exposure current_positions in
  let max_portfolio_heat := get (Fin 20) (MAX_PORTFOLIO_HEAT cfg) in
  let portfolio_heat_pct :=
    if (account_balance >? Fin 0)%F
    then ((total_exposure / account_balance) * Fin 100)%F else Fin 0 in
  let '(status, warnings) :=
    if (portfolio_heat_pct >? max_portfolio_heat)%F then
      ("DANGEROUS", ["Portfolio heat exceeds safe limits"])
    else if (portfolio_heat_pct >? max_portfolio_heat * Fin (8 # 10))%F then
      ("CAUTION", ["High portfolio exposure"])
    else ("SAFE", []) in
  {| total_exposure := total_exposure;
     portfolio_heat_pct := round2 portfolio_heat_pct;
     max_allowed_heat_pct := max_portfolio_heat;
     status := status;
     heat_warnings := warnings |}.

End Rounding.

(** *** generate_risk_report *)

(** A signal of the report: the keys [assess_trade_risk] reads, and the
    [symbol] key the report reads itself. *)
Record report_signal : Type := ReportSignal {
  symbol : option string;
  fields : signal
}.

Record individual_assessment : Type := IndividualAssessment {
  ia_symbol : option string;
  ia_signal : option string;
  ia_risk_level : string;
  ia_recommendation : string;
  ia_position_size : fnum;
  ia_warnings : list string
}.

(** The report dictionary (the timestamp is left out). *)
Record risk_report : Type := RiskReport {
  signals_analyzed : nat;
  report_account_balance : fnum;
  individual_assessments : list individual_assessment;
  total_risk_score : Z;
  average_confidence : fnum;
  high_risk_count : Z;
  approved_signals : list (option string);
  rejected_signals : list (option string);
  recommendations : list string;
  overall_risk : string
}.

(** How a call ends: the [{'error': ...}] dictionary, an exception, or the
    report. *)
Inductive report_result : Type :=
| NoSignals
| Raised (e : error)
| Report (r : risk_report).

(** [risk_score_map.get(level, 0)]. *)
Definition risk_score_map (level : string) : Z :=
  if String.eqb level "VERY_LOW" then -2
  else if String.eqb level "LOW" then -1
  else if String.eqb level "MEDIUM" then 0
  else if String.eqb level "HIGH" then 1
  else if String.eqb level "VERY_HIGH" then 2
  else 0.

(** The variables the loop over the signals updates. *)
Record tally : Type := Tally {
  t_assessments : list individual_assessment;
  t_approved : list (option string);
  t_rejected : list (option string);
  t_high_risk_count : Z;
  t_total_risk_score : Z;
  t_total_confidence : fnum;
  t_approved_count : Z
}.

Definition empty_tally : tally :=
  {| t_assessments := []; t_approved := []; t_rejected := [];
     t_high_risk_count := 0; t_total_risk_score := 0;
     t_total_confidence := Fin 0; t_approved_count := 0 |}.

(** One turn of the loop.  [total_confidence += signal.get('confidence', 0)]
    raises [TypeError] on [None]; the assessment made before has already
    gone through the session limiter. *)
Definition report_step (cfg : config) (now : date) (account_balance : fnum)
    (acc : (error + tally) * daily_stats) (s : report_signal)
  : (error + tally) * daily_stats :=
  match acc with
  | (inl e, st) => (inl e, st)
  | (inr t, st) =>
    let '(assessment, st) :=
      assess_trade_risk cfg now st (fields s) account_balance in
    let entry :=
      {| ia_symbol := symbol s;
         ia_signal := signal_type (fields s);
         ia_risk_level := risk_level assessment;
         ia_recommendation := recommendation assessment;
         ia_position_size := position_size assessment;
         ia_warnings := warnings assessment |} in
    let approved := String.eqb (recommendation assessment) "APPROVED" in
    match get (VNum (Fin 0)) (confidence (fields s)) with
    | VNone => (inl TypeError, st)
    | VNum c =>
      let high :=
        String.eqb (risk_level assessment) "HIGH"
        || String.eqb (risk_level assessment) "VERY_HIGH" in
      (inr {| t_assessments := t_assessments t ++ [entry];
              t_approved :=
                if approved then t_approved t ++ [symbol s] else t_approved t;
              t_rejected :=
                if approved then t_rejected t else t_rejected t ++ [symbol s];
              t_high_risk_count :=
                if high then t_high_risk_count t + 1 else t_high_risk_count t;
              t_total_risk_score :=
                t_total_risk_score t + risk_score_map (risk_level assessment);
              t_total_confidence := (t_total_confidence t + c)%F;
              t_approved_count :=
                if approved then t_approved_count t + 1 else t_approved_count t |},
       st)
    end
  end.

Definition generate_risk_report (cfg : config) (now : date) (st : daily_stats)
    (signals : list report_signal) (account_balance : fnum)
  : report_result * daily_stats :=
  match signals with
  | [] => (NoSignals, st)
  | _ =>
    match foldl (report_step cfg now account_balance) (inr empty_tally, st)
            signals with
    | (inl e, st) => (Raised e, st)
    | (inr t, st) =>
      let approved_count := t_approved_count t in
      let recommendations :=
        (if (approved_count =? 0)%Z then
           ["No signals meet risk criteria - Consider widening parameters or wait for better setups"]
         else if (approved_count >? 5)%Z then
           ["High number of approved signals - Consider reducing position sizes"]
         else [])
        ++ (if (t_high_risk_count t >? 0)%Z then
              ["High-risk signals detected - Review market conditions before proceeding"]
            else []) in
      (Report
         {| signals_analyzed := length signals;
            report_account_balance := account_balance;
            individual_assessments := t_assessments t;
            total_risk_score := t_total_risk_score t;
            average_confidence :=
              (t_total_confidence t / of_Z (Z.of_nat (length signals)))%F;
            high_risk_count := t_high_risk_count t;
            approved_signals := t_approved t;
            rejected_signals := t_rejected t;
            recommendations := recommendations;
            overall_risk :=
              if (t_total_risk_score t >? 3)%Z then "HIGH"
              else if (t_total_risk_score t >? 1)%Z then "MEDIUM"
              else "LOW" |},
       st)
    end
  end.

End RiskReports.

(* ===================================================================== *)
(** ** REALTIME_TRADING_BOT.py: generate_real_signal *)
(* ===================================================================== *)

Module RealtimeSignal.
Import Pandas RealtimeBot.

(** The columns of the frame [generate_real_signal] reads. *)
Record bar : Type := Bar { High : fnum; Low : fnum; Close : fnum }.

(** [self.currency_pairs.get(symbol, symbol)]. *)
Definition currency_pairs : list (string * string) :=
  [("EURUSD=X", "EUR/USD"); ("GBPUSD=X", "GBP/USD"); ("USDJPY=X", "USD/JPY");
   ("AUDUSD=X", "AUD/USD"); ("USDCAD=X", "USD/CAD"); ("EURGBP=X", "EUR/GBP")].

Fixpoint lookup_pair (table : list (string * string)) (symbol : string)
  : string :=
  match table with
  | [] => symbol
  | (k, v) :: rest => if String.eqb k symbol then v else lookup_pair rest symbol
  end.

(** [s.tail(n)]. *)
Definition tail_ (n : nat) (s : series) : series := drop (length s - n) s.

(** [s.max()] and [s.min()]: NaN entries are skipped, and the result is NaN
    when nothing is left. *)
Definition skipna (s : series) : series := filter (fun x => is_nan x = false) s.

Definition series_max (s : series) : fnum :=
  match skipna s with
  | [] => NaN
  | x :: rest => foldl (fun m y => if (m <? y)%F then y else m) x rest
  end.

Definition series_min (s : series) : fnum :=
  match skipna s with
  | [] => NaN
  | x :: rest => foldl (fun m y => if (y <? m)%F then y else m) x rest
  end.

(** [str.strip()]. *)
Definition is_space (c : Ascii.ascii) : bool :=
  let n := Ascii.nat_of_ascii c in
  ((9 <=? n) && (n <=? 13) || (28 <=? n) && (n <=? 32))%nat.

Fixpoint lstrip (s : string) : string :=
  match s with
  | String c rest => if is_space c then lstrip rest else s
  | EmptyString => EmptyString
  end.

Definition reverse (s : string) : string :=
  string_of_list_ascii (rev (list_ascii_of_string s)).

Definition strip (s : string) : string :=
  reverse (lstrip (reverse (lstrip s))).

Record real_signal : Type := RealSignal {
  pair : string;
  action : string;
  current_price : fnum;
  target_price : fnum;
  signal_strength : Z;
  rsi : fnum;
  rsi_signal : string;
  macd : fnum;
  macd_signal : string;
  volatility : fnum;
  reasoning : string
}.

(** How a call ends: [return None], the IndexError of an [iloc[-1]] on an
    empty series, or the signal. *)
Inductive outcome : Type :=
| NoSignal
| IndexError
| Generated (s : real_signal).

Section Engine.

(** [s.ewm(span=n).mean()] and [s.std()] are parameters. *)
Variable ewm_mean : nat -> series -> series.
Variable std : series -> fnum.

(** [calculate_macd(prices, fast=12, slow=26, signal=9)]. *)
Definition calculate_macd (prices : series) : option (fnum * fnum) :=
  let exp1 := ewm_mean 12 prices in
  let exp2 := ewm_mean 26 prices in
  let macd := zip_with fsub exp1 exp2 in
  let signal_line := ewm_mean 9 macd in
  m ← iloc_back 1 macd;
  s ← iloc_back 1 signal_line;
  Some (m, s).

(** [s.pct_change()]. *)
Definition pct_change (s : series) : series :=
  match s with
  | [] => []
  | _ :: rest => NaN :: zip_with (fun x prev => ((x - prev) / prev)%F) rest s
  end.

Definition generate_real_signal (symbol : string)
    (timeframe_data : option (list bar)) : outcome :=
  match timeframe_data with
  | None => NoSignal
  | Some data =>
    if bool_decide (data = []) then NoSignal else
    let close := Close <$> data in
    match iloc_back 1 close, calculate_rsi close 14, calculate_macd close with
    | Some current_price, Some rsi, Some (macd, signal_line) =>
      let signal_strength := 0%Z in
      let action := "" in
      let reasoning := "" in
      (* RSI analysis *)
      let '(rsi_signal, signal_strength, action, reasoning) :=
        if (rsi <? Fin 30)%F then
          if String.eqb action "" then
            ("Bullish (Oversold)", (signal_strength + 30)%Z, "BUY",
             (reasoning ++ "RSI oversold indicating potential reversal. ")%string)
          else ("Bullish (Oversold)", (signal_strength + 30)%Z, action, reasoning)
        else if (rsi >? Fin 70)%F then
          if String.eqb action "" then
            ("Bearish (Overbought)", (signal_strength + 30)%Z, "SELL",
             (reasoning ++ "RSI overbought indicating potential pullback. ")%string)
          else ("Bearish (Overbought)", (signal_strength + 30)%Z, action, reasoning)
        else ("Neutral", (signal_strength + 10)%Z, action, reasoning) in
      (* MACD analysis *)
      let '(macd_signal, signal_strength, reasoning) :=
        if (macd >? signal_line)%F then
          ("Bullish Crossover", (signal_strength + 25)%Z,
           (reasoning ++ "MACD above signal line showing bullish momentum. ")%string)
        else
          ("Bearish Crossover", (signal_strength + 25)%Z,
           (reasoning ++ "MACD below signal line showing bearish momentum. ")%string) in
      (* Price action analysis *)
      let recent_high := series_max (tail_ 20 (High <$> data)) in
      let recent_low := series_min (tail_ 20 (Low <$> data)) in
      let '(price_signal, signal_strength) :=
        if (current_price >? recent_high * Fin (98 # 100))%F then
          ("Near Resistance", (signal_strength + 10)%Z)
        else if (current_price <? recent_low * Fin (102 # 100))%F then
          ("Near Support", (signal_strength + 10)%Z)
        else ("Middle Range", (signal_strength + 5)%Z) in
      let reasoning :=
        (reasoning ++ "Price currently " ++ price_signal ++ ".")%string in
      (* Calculate target price *)
      let volatility := (std (pct_change close) * Fin 100)%F in
      let target_move := (volatility * Fin (5 # 10))%F in
      let target_price :=
        if String.eqb action "BUY"
        then (current_price * (Fin 1 + target_move / Fin 100))%F
        else (current_price * (Fin 1 - target_move / Fin 100))%F in
      Generated
        {| pair := lookup_pair currency_pairs symbol;
           action := action;
           current_price := current_price;
           target_price := target_price;
           signal_strength := Z.min signal_strength 95;
           rsi := rsi;
           rsi_signal := rsi_signal;
           macd := macd;
           macd_signal := macd_signal;
           volatility := volatility;
           reasoning := strip reasoning |}
    | _, _, _ => IndexError
    end
  end.

End Engine.

End RealtimeSignal.

(* ===================================================================== *)
(** ** ENHANCED_POCKET_OPTION_BOT.py: generate_quick_signal *)
(* ===================================================================== *)

Module EnhancedQuick.
Import Pandas EnhancedBot.

(** The fixture of [generate_quick_signal]. *)
Definition quick_fallback_signal : signal :=
  {| pair_symbol := "EURUSD"; sig_action := CALL;
     sig_current_price := Fin (10923 # 10000);
     timeframe := "5m"; period := "5m";
     sig_signal_strength := 78; confidence := "HIGH"; risk_level := "LOW";
     sig_rsi := Fin (421 # 10); sig_macd := Fin (15 # 10000);
     sig_macd_signal := Fin (12 # 10000); momentum := Fin (8 # 100);
     sig_volatility := Fin (9 # 10);
     bb_position := "Middle Range"; ma_position := "Above MA20";
     sig_reasoning :=
       [("RSI showing bullish divergence. MACD confirming upward momentum.",
         None)];
     data_freshness := LIVE |}.

Section Engine.

Variable ewm_mean : nat -> series -> series.
Variable rolling_std : nat -> series -> series.
Variable std : series -> fnum.

(** The signal [generate_quick_signal] renders:
    [generate_comprehensive_signal("EURUSD", "5m", "5m")], replaced by the
    fixture [if not signal_data]. *)
Definition quick_signal (data : option (gmap string (option series))) : signal :=
  match generate_comprehensive_signal ewm_mean rolling_std std data
          "EURUSD" "5m" "5m" with
  | Some signal_data => signal_data
  | None => quick_fallback_signal
  end.

End Engine.

(** [action_text] of both display methods. *)
Definition action_text (s : signal) : string :=
  if bool_decide (sig_action s = CALL) then "CALL (BUY)" else "PUT (SELL)".

End EnhancedQuick.

(* ===================================================================== *)
(** ** technical_analysis.py: trend and sentiment summaries *)
(* ===================================================================== *)

Module TechnicalSummaries.
Import TechnicalAnalysis.

(** The dictionary of [generate_trend_analysis]. *)
Record trend_analysis : Type := TrendAnalysis {
  trend : string;
  strength : string;
  direction : string
}.

(** [generate_trend_analysis(data)]; [None] is the empty dictionary returned
    for an empty frame. *)
Definition generate_trend_analysis (data : list row) : option trend_analysis :=
  match iloc_back 1 data with
  | None => None
  | Some latest =>
    let '(trend, direction) :=
      if (Close latest >? MA20 latest)%F && (MA20 latest >? MA50 latest)%F
      then ("BULLISH", "UP")
      else if (Close latest <? MA20 latest)%F && (MA20 latest <? MA50 latest)%F
      then ("BEARISH", "DOWN")
      else ("SIDEWAYS", "NEUTRAL") in
    let strength :=
      if (ADX latest >? Fin 25)%F then "STRONG"
      else if (ADX latest >? Fin 20)%F then "MODERATE"
      else "WEAK" in
    Some {| trend := trend; strength := strength; direction := direction |}
  end.

(** The volume columns of a row, which [calculate_market_sentiment] reads
    besides those of [row]. *)
Record volume_columns : Type := VolumeColumns {
  Volume : fnum;
  Volume_SMA : fnum
}.

(** The dictionary of [calculate_market_sentiment]. *)
Record sentiment : Type := Sentiment {
  overall : string;
  sent_momentum : string;
  sent_volatility : string
}.

(** [calculate_market_sentiment(data)]; [None] is the empty dictionary
    returned for an empty frame. *)
Definition calculate_market_sentiment (data : list (row * volume_columns))
  : option sentiment :=
  match iloc_back 1 data with
  | None => None
  | Some (latest, vol) =>
    (* RSI sentiment *)
    let rsi := RSI latest in
    let momentum :=
      if (rsi >? Fin 70)%F then "OVERBOUGHT"
      else if (rsi <? Fin 30)%F then "OVERSOLD"
      else "NEUTRAL" in
    (* Volume analysis *)
    let volatility :=
      if (Volume vol >? Volume_SMA vol * Fin (15 # 10))%F then "HIGH"
      else if (Volume vol <? Volume_SMA vol * Fin (5 # 10))%F then "LOW"
      else "MODERATE" in
    (* Bollinger Bands position *)
    let overall :=
      if (Close latest >? BB_Upper latest)%F then "VERY_BULLISH"
      else if (Close latest <? BB_Lower latest)%F then "VERY_BEARISH"
      else if (Close latest >? MA20 latest)%F then "BULLISH"
      else if (Close latest <? MA20 latest)%F then "BEARISH"
      else "NEUTRAL" in
    Some {| overall := overall; sent_momentum := momentum;
            sent_volatility := volatility |}
  end.

End TechnicalSummaries.

(* ===================================================================== *)
(** ** main.py: signal_command, from the signal to its assessment *)
(* ===================================================================== *)

Module SignalCommand.



End SignalCommand.

(* ===================================================================== *)
(** ** Facts about the number model *)
(* ===================================================================== *)

#[global] Arguments flt : simpl never.
#[global] Arguments fle : simpl never.
#[global] Arguments feqb : simpl never.
#[global] Arguments fadd : simpl never.
#[global] Arguments fneg : simpl never.
#[global] Arguments fabs : simpl never.
#[global] Arguments fmul : simpl never.
#[global] Arguments fdiv : simpl never.
#[global] Arguments pymin : simpl never.

Section NumberFacts.
Local Open Scope Q_scope.

Lemma Qltb_lt a b : Qltb a b = true <-> a < b.
Proof.
  unfold Qltb. rewrite negb_true_iff, <- not_true_iff_false, Qle_bool_iff.
  split; [apply Qnot_le_lt | apply Qlt_not_le].
Qed.

Lemma Qltb_ge a b : Qltb a b = false <-> b <= a.
Proof.
  unfold Qltb. rewrite negb_false_iff. apply Qle_bool_iff.
Qed.

Lemma Qeqb_eq a b : Qeqb a b = true <-> a == b.
Proof. apply Qeq_bool_iff. Qed.

Lemma Qeqb_neq a b : Qeqb a b = false <-> ~ a == b.
Proof. rewrite <- not_true_iff_false, Qeqb_eq. tauto. Qed.

Lemma fmul_nonneg a b :
  0 <= a -> 0 <= b -> exists q, fmul (Fin a) (Fin b) = Fin q /\ q == a * b.
Proof.
  intros Ha Hb. unfold fmul, finite; simpl.
  apply Qltb_ge in Ha, Hb. rewrite Ha, Hb. simpl.
  destruct (Qeqb (a * b) 0) eqn:E.
  - apply Qeqb_eq in E. exists 0. split; [reflexivity | now symmetry].
  - eexists; split; reflexivity.
Qed.

Lemma fdiv_nonneg_pos a b :
  0 <= a -> 0 < b -> exists q, fdiv (Fin a) (Fin b) = Fin q /\ q == a / b.
Proof.
  intros Ha Hb. unfold fdiv, finite; simpl.
  assert (Hb' : Qeqb b 0 = false) by (apply Qeqb_neq; lra).
  assert (Hs : Qltb b 0 = false) by (apply Qltb_ge; lra).
  apply Qltb_ge in Ha. rewrite Hb', Ha, Hs. simpl.
  destruct (Qeqb (a / b) 0) eqn:E.
  - apply Qeqb_eq in E. exists 0. split; [reflexivity | now symmetry].
  - eexists; split; reflexivity.
Qed.
Lemma flt_Fin a b : flt (Fin a) (Fin b) = Qltb a b.
Proof. reflexivity. Qed.

Lemma Qltb_compat a a' b b' : a == a' -> b == b' -> Qltb a b = Qltb a' b'.
Proof.
  intros Ha Hb. destruct (Qltb a' b') eqn:E.
  - apply Qltb_lt. apply Qltb_lt in E. lra.
  - apply Qltb_ge. apply Qltb_ge in E. lra.
Qed.

Lemma pymin_Fin_compat q q' m : q == q' -> same (pymin (Fin q) m) (pymin (Fin q') m).
Proof.
  intros Hq. unfold pymin.
  assert (E : flt m (Fin q) = flt m (Fin q')).
  { destruct m; try reflexivity; unfold flt; cbn [val];
      apply Qltb_compat; (reflexivity || exact Hq). }
  rewrite E. destruct (flt m (Fin q')); [|exact Hq].
  destruct m; cbn; (reflexivity || exact I).
Qed.

Lemma same_refl x : same x x.
Proof. destruct x; cbn; (reflexivity || exact I). Qed.
Lemma fsub_self_zero p : exists q, fabs (Fin p - Fin p)%F = Fin q /\ q == 0.
Proof.
  unfold fsub, fneg. destruct (Qeqb p 0) eqn:E.
  - apply Qeqb_eq in E. exists (Qabs p). split; [reflexivity|].
    rewrite E. reflexivity.
  - exists (Qabs (p + - p)). split; [reflexivity|].
    assert (H : p + - p == 0) by ring. rewrite H. reflexivity.
Qed.

Lemma is_zero_fdiv x p :
  is_zero x = true -> ~ p == 0 -> is_zero (x / Fin p)%F = true.
Proof.
  intros Hx Hp. apply Qeqb_neq in Hp.
  assert (Hv : val x == 0).
  { destruct x; try discriminate; [now apply Qeqb_eq | reflexivity]. }
  assert (Hq : Qeqb (val x / p) 0 = true).
  { apply Qeqb_eq. rewrite Hv. unfold Qdiv. ring. }
  unfold fdiv, finite.
  destruct x; try discriminate; cbn [is_nan is_inf is_zero orb val] in *;
    rewrite Hp, Hq; destruct (xorb _ _); reflexivity.
Qed.

Lemma is_zero_fmul x c :
  is_zero x = true -> is_zero (x * Fin c)%F = true.
Proof.
  intros Hx.
  assert (Hv : val x == 0).
  { destruct x; try discriminate; [now apply Qeqb_eq | reflexivity]. }
  assert (Hq : Qeqb (val x * c) 0 = true).
  { apply Qeqb_eq. rewrite Hv. ring. }
  unfold fmul, finite.
  destruct x; try discriminate; cbn [is_nan is_inf is_zero orb val] in *;
    rewrite Hq; destruct (xorb _ _); reflexivity.
Qed.

Lemma zero_flt_pos x c : is_zero x = true -> 0 < c -> flt x (Fin c) = true.
Proof.
  intros Hx Hc. destruct x; try discriminate; unfold flt; cbn [val].
  - apply Qeqb_eq in Hx. apply Qltb_lt. lra.
  - now apply Qltb_lt.
Qed.

Lemma pos_flt_zero x c : is_zero x = true -> 0 <= c -> flt (Fin c) x = false.
Proof.
  intros Hx Hc. destruct x; try discriminate; unfold flt; cbn [val].
  - apply Qeqb_eq in Hx. apply Qltb_ge. lra.
  - now apply Qltb_ge.
Qed.
Lemma fadd_fmul_above c a k :
  0 < a -> 0 < k -> flt (Fin c) (Fin c + Fin a * Fin k)%F = true.
Proof.
  intros Ha Hk.
  destruct (fmul_nonneg a k) as (q & -> & Hq); [lra | lra |].
  assert (0 < a * k) by (apply Qmult_lt_0_compat; assumption).
  unfold fadd. rewrite flt_Fin. apply Qltb_lt. lra.
Qed.

Lemma fsub_fmul_below c a k :
  0 < a -> 0 < k -> flt (Fin c - Fin a * Fin k)%F (Fin c) = true.
Proof.
  intros Ha Hk.
  destruct (fmul_nonneg a k) as (q & -> & Hq); [lra | lra |].
  assert (0 < a * k) by (apply Qmult_lt_0_compat; assumption).
  assert (Hq0 : Qeqb q 0 = false) by (apply Qeqb_neq; lra).
  unfold fsub, fneg. rewrite Hq0. unfold fadd. rewrite flt_Fin.
  apply Qltb_lt. lra.
Qed.
End NumberFacts.

(* ===================================================================== *)
(** ** The risk assessor and the session limiter *)
(* ===================================================================== *)

Module RiskManagementSpec.
Import RiskManagement.

(** *** The scoring tables

    What each numbered block of [assess_trade_risk] adds to the risk score,
    and the warning it appends. *)

Definition olist (o : option string) : list string :=
  match o with Some w => [w] | None => [] end.

Definition warn_opt (o : option string) (a : risk_assessment) : risk_assessment :=
  match o with Some w => append_warning w a | None => a end.

Definition rr_points (rr : fnum) : Z :=
  if (rr <? Fin 1)%F then 3 else if (rr <? Fin (3 # 2))%F then 1 else -1.
Definition rr_warning (rr : fnum) : option string :=
  if (rr <? Fin 1)%F then Some "Poor risk-reward ratio" else None.

Definition stop_points (risk_percent : fnum) : Z :=
  if (risk_percent >? Fin 5)%F then 2 else if (risk_percent <? Fin 1)%F then 1 else 0.
Definition stop_warning (risk_percent : fnum) : option string :=
  if (risk_percent >? Fin 5)%F then Some "High stop loss percentage"
  else if (risk_percent <? Fin 1)%F then Some "Very tight stop loss" else None.

Definition confidence_points (c : fnum) : Z :=
  if (c <? Fin 30)%F then 2 else if (c >? Fin 70)%F then -2 else 0.
Definition confidence_warning (c : fnum) : option string :=
  if (c <? Fin 30)%F then Some "Low signal confidence" else None.

Definition alignment_points (sig : signal) (rsi macd macd_signal : fnum) : Z :=
  (if (is_signal sig "BUY" || is_signal sig "SELL")
      && ((Fin 30 <? rsi)%F && (rsi <? Fin 70)%F) then 1 else -1)
  + (if is_signal sig "BUY" then (if (macd >? macd_signal)%F then 1 else -1)
     else if is_signal sig "SELL" then (if (macd <? macd_signal)%F then 1 else -1)
     else -1).

Definition volatility_points (adx : fnum) : Z := if (adx >? Fin 30)%F then 1 else 0.
Definition volatility_warning (adx : fnum) : option string :=
  if (adx >? Fin 30)%F then Some "High market volatility" else None.

Ltac run := unfold mbind, M_bind, mret, M_ret, modify; cbn.

Lemma assess_risk_reward_run rr sc s :
  assess_risk_reward rr sc s = (warn_opt (rr_warning rr) s, inr (sc + rr_points rr)).
Proof.
  unfold assess_risk_reward, rr_warning, rr_points.
  destruct (rr <? Fin 1)%F; [reflexivity|].
  destruct (rr <? Fin (3 # 2))%F; reflexivity.
Qed.

Lemma assess_stop_distance_run rp sc s :
  assess_stop_distance rp sc s = (warn_opt (stop_warning rp) s, inr (sc + stop_points rp)).
Proof.
  unfold assess_stop_distance, stop_warning, stop_points.
  destruct (rp >? Fin 5)%F; [reflexivity|].
  destruct (rp <? Fin 1)%F; run; [reflexivity|]. now rewrite Z.add_0_r.
Qed.

Lemma assess_confidence_run c sc s :
  assess_confidence c sc s = (warn_opt (confidence_warning c) s, inr (sc + confidence_points c)).
Proof.
  unfold assess_confidence, confidence_warning, confidence_points.
  destruct (c <? Fin 30)%F; [reflexivity|].
  destruct (c >? Fin 70)%F; run; [reflexivity|]. now rewrite Z.add_0_r.
Qed.

Lemma indicator_alignment_run sig ind r m ms s :
  get (VNum (Fin 50)) (RSI ind) = VNum r ->
  get (VNum (Fin 0)) (MACD ind) = VNum m ->
  get (VNum (Fin 0)) (MACD_Signal ind) = VNum ms ->
  indicator_alignment sig ind s = (s, inr (alignment_points sig r m ms)).
Proof.
  intros Hr Hm Hms. unfold indicator_alignment, alignment_points.
  rewrite Hr, Hm, Hms.
  destruct (is_signal sig "BUY"); destruct (is_signal sig "SELL"); run;
    repeat match goal with |- context [if ?b then _ else _] => destruct b; cbn end;
    reflexivity.
Qed.

Lemma assess_volatility_run ind adx sc s :
  get (VNum (Fin 0)) (ADX ind) = VNum adx ->
  assess_volatility ind sc s
  = (warn_opt (volatility_warning adx) s, inr (sc + volatility_points adx)).
Proof.
  intros Hadx. unfold assess_volatility, volatility_warning, volatility_points.
  rewrite Hadx. run.
  destruct (adx >? Fin 30)%F; run; [reflexivity|]. now rewrite Z.add_0_r.
Qed.

(** The recommendation before the daily limit is consulted. *)
Definition recommendation_of (risk_score : Z) (confidence : fnum) : string :=
  if (risk_score >? 4)%Z || (confidence <? Fin 20)%F then "REJECTED"
  else if (risk_score >? 2)%Z then "CAUTION"
  else "APPROVED".

Lemma final_recommendation_run sc c s :
  final_recommendation sc c s
  = (if (sc >? 4)%Z || (c <? Fin 20)%F then set_recommendation "REJECTED" s
     else if (sc >? 2)%Z then set_recommendation "CAUTION" s else s, inr tt).
Proof.
  unfold final_recommendation.
  destruct ((sc >? 4)%Z || (c <? Fin 20)%F); [reflexivity|].
  destruct (sc >? 2)%Z; reflexivity.
Qed.

Lemma daily_limits_check_run cfg now st s :
  daily_limits_check cfg now st s
  = (if (check_daily_limits cfg now st).1
     then append_warning "Daily trading limit reached"
            (set_recommendation "REJECTED" s)
     else s,
     inr (check_daily_limits cfg now st).2).
Proof.
  unfold daily_limits_check.
  destruct (check_daily_limits cfg now st) as [[] st']; reflexivity.
Qed.

(** *** Signals whose numeric keys hold numbers

    [reads sig v]: every numeric key of [sig] is absent or holds a number, and
    [v] lists the numbers [assess_trade_risk] reads, defaults applied. *)

Record readings : Type := Readings {
  v_price : fnum; v_stop : fnum; v_target : fnum; v_confidence : fnum;
  v_rsi : fnum; v_macd : fnum; v_macd_signal : fnum; v_adx : fnum
}.

Definition reads (sig : signal) (v : readings) : Prop :=
  let ind := get empty_indicators (technical_indicators sig) in
  get (VNum (Fin 0)) (current_price sig) = VNum (v_price v)
  /\ get (VNum (Fin 0)) (stop_loss sig) = VNum (v_stop v)
  /\ get (VNum (Fin 0)) (take_profit sig) = VNum (v_target v)
  /\ get (VNum (Fin 0)) (confidence sig) = VNum (v_confidence v)
  /\ get (VNum (Fin 50)) (RSI ind) = VNum (v_rsi v)
  /\ get (VNum (Fin 0)) (MACD ind) = VNum (v_macd v)
  /\ get (VNum (Fin 0)) (MACD_Signal ind) = VNum (v_macd_signal v)
  /\ get (VNum (Fin 0)) (ADX ind) = VNum (v_adx v).

Definition stop_distance_of (v : readings) : fnum :=
  fabs (v_price v - v_stop v)%F.

Definition risk_percent_of (v : readings) : fnum :=
  ((stop_distance_of v / v_price v) * Fin 100)%F.

Definition risk_reward_of (sig : signal) (v : readings) : fnum :=
  let profit_distance :=
    if is_signal sig "BUY" then (v_target v - v_price v)%F
    else (v_price v - v_target v)%F in
  if (stop_distance_of v >? Fin 0)%F
  then (profit_distance / stop_distance_of v)%F else Fin 0.

Definition risk_score_of (sig : signal) (v : readings) : Z :=
  rr_points (risk_reward_of sig v) + stop_points (risk_percent_of v)
  + confidence_points (v_confidence v)
  + alignment_points sig (v_rsi v) (v_macd v) (v_macd_signal v)
  + volatility_points (v_adx v).

(** The assessment of such a signal, as a function of its readings and of
    the answer of the daily-limit check. *)
Definition expected_assessment (cfg : config) (account_balance : fnum)
    (sig : signal) (v : readings) (limit_reached : bool) : risk_assessment :=
  let sc := risk_score_of sig v in
  {| risk_level := risk_level_of sc;
     score := sc;
     max_loss := stop_distance_of v;
     risk_reward_ratio := risk_reward_of sig v;
     warnings :=
       olist (rr_warning (risk_reward_of sig v))
       ++ olist (stop_warning (risk_percent_of v))
       ++ olist (confidence_warning (v_confidence v))
       ++ olist (volatility_warning (v_adx v))
       ++ (if limit_reached then ["Daily trading limit reached"] else []);
     recommendation :=
       if limit_reached then "REJECTED"
       else recommendation_of sc (v_confidence v);
     position_size :=
       calculate_position_size cfg account_balance
         (get (Fin 2) (RISK_PERCENTAGE cfg)) (stop_distance_of v) |}.

(** The [try] block on a signal that passes the price guard and whose
    numeric keys hold numbers: it completes, with the assessment above. *)
Lemma assess_body_numeric cfg now st sig bal v :
  reads sig v ->
  eq0 (VNum (v_price v)) = false ->
  eq0 (VNum (v_stop v)) = false ->
  assess_body cfg now st sig bal initial_assessment
  = (expected_assessment cfg bal sig v (check_daily_limits cfg now st).1,
     inr (check_daily_limits cfg now st).2).
Proof.
  intros (Hp & Hs & Ht & Hc & Hr & Hm & Hms & Ha) Hp0 Hs0.
  unfold assess_body. rewrite Hp, Hs, Ht, Hc, Hp0, Hs0. cbn [orb].
  unfold mbind, M_bind, num, mret, M_ret, modify.
  cbv beta iota zeta.
  rewrite assess_risk_reward_run.
  rewrite assess_stop_distance_run.
  rewrite assess_confidence_run.
  rewrite (indicator_alignment_run _ _ _ _ _ _ Hr Hm Hms).
  rewrite (assess_volatility_run _ _ _ _ Ha).
  rewrite final_recommendation_run, daily_limits_check_run.
  unfold expected_assessment, recommendation_of, risk_score_of.
  fold (stop_distance_of v). fold (risk_reward_of sig v). fold (risk_percent_of v).
  rewrite !Z.add_0_l.
  set (sc := (rr_points _ + _ + _ + _ + _)%Z).
  f_equal.
  destruct (rr_warning _), (stop_warning _), (confidence_warning _),
    (volatility_warning _), (check_daily_limits cfg now st).1,
    ((sc >? 4)%Z || (v_confidence v <? Fin 20)%F), (sc >? 2)%Z; reflexivity.
Qed.

Lemma assess_trade_risk_numeric cfg now st sig bal v :
  reads sig v ->
  eq0 (VNum (v_price v)) = false ->
  eq0 (VNum (v_stop v)) = false ->
  assess_trade_risk cfg now st sig bal
  = (expected_assessment cfg bal sig v (check_daily_limits cfg now st).1,
     (check_daily_limits cfg now st).2).
Proof.
  intros Hv Hp Hs. unfold assess_trade_risk.
  now rewrite (assess_body_numeric _ _ _ _ _ _ Hv Hp Hs).
Qed.

Lemma mbind_inr {A B} (m : M A) (k : A -> M B) s s' b :
  (m ≫= k) s = (s', inr b) ->
  exists a s1, m s = (s1, inr a) /\ k a s1 = (s', inr b).
Proof.
  unfold mbind, M_bind. destruct (m s) as [s1 [e | a]]; [discriminate|].
  intros H. now exists a, s1.
Qed.

(** Whatever the signal, the limiter state after an assessment is the one
    given, or the one the daily-limit check left. *)
Lemma assess_trade_risk_limiter cfg now st sig bal :
  (assess_trade_risk cfg now st sig bal).2 = st
  \/ (assess_trade_risk cfg now st sig bal).2 = (check_daily_limits cfg now st).2.
Proof.
  unfold assess_trade_risk.
  destruct (assess_body cfg now st sig bal initial_assessment) as [a [e | st']] eqn:E;
    [now left|].
  cbn [snd]. unfold assess_body in E.
  destruct (eq0 _ || eq0 _).
  - left. cbv in E. congruence.
  - right.
    repeat (apply mbind_inr in E; destruct E as (? & ? & _ & E)).
    unfold mret, M_ret in E. injection E as _ <-. reflexivity.
Qed.

(** *** The daily counter as seen on day [d] *)

Definition day_count (d : date) (st : daily_stats) : Z :=
  if (last_reset st =? d)%Z then signals_sent st else 0.

Lemma check_daily_limits_count cfg d st :
  (check_daily_limits cfg d st).1
  = (day_count d st >=? get 50 (MAX_DAILY_SIGNALS cfg))%Z.
Proof.
  unfold check_daily_limits, day_count.
  destruct (last_reset st =? d)%Z; reflexivity.
Qed.

Lemma day_count_check cfg d st :
  day_count d (check_daily_limits cfg d st).2 = day_count d st.
Proof.
  unfold check_daily_limits, day_count. cbn [snd].
  destruct (last_reset st =? d)%Z eqn:E; cbn [negb].
  - now rewrite E.
  - cbn. now rewrite Z.eqb_refl.
Qed.

Lemma day_count_update d signal_sent trade_result st :
  day_count d (update_daily_stats d signal_sent trade_result st)
  = day_count d st + (if signal_sent then 1 else 0).
Proof.
  unfold update_daily_stats, day_count.
  destruct (last_reset st =? d)%Z eqn:E; cbn [negb];
    destruct signal_sent, (truthy trade_result); cbn;
    repeat match goal with
           | |- context [match ?o with Some _ => _ | None => _ end] => destruct o
           end;
    cbn; rewrite ?E, ?Z.eqb_refl; lia.
Qed.

Lemma day_count_assess cfg d st sig bal :
  day_count d (assess_trade_risk cfg d st sig bal).2 = day_count d st.
Proof.
  destruct (assess_trade_risk_limiter cfg d st sig bal) as [-> | ->];
    [reflexivity | apply day_count_check].
Qed.

(** The operations on the limiter. *)
Inductive operation : Type :=
| UpdateDailyStats (signal_sent : bool) (trade_result : option (gmap string fnum))
| CheckDailyLimits
| AssessTradeRisk (sig : signal) (account_balance : fnum).

Definition perform (cfg : config) (d : date) (st : daily_stats) (op : operation)
  : daily_stats :=
  match op with
  | UpdateDailyStats signal_sent trade_result =>
      update_daily_stats d signal_sent trade_result st
  | CheckDailyLimits => (check_daily_limits cfg d st).2
  | AssessTradeRisk sig bal => (assess_trade_risk cfg d st sig bal).2
  end.

Lemma day_count_perform cfg d st op :
  day_count d st <= day_count d (perform cfg d st op).
Proof.
  destruct op; cbn [perform].
  - rewrite day_count_update. destruct signal_sent; lia.
  - rewrite day_count_check. lia.
  - rewrite day_count_assess. lia.
Qed.

Lemma day_count_operations cfg d ops st :
  day_count d st <= day_count d (foldl (perform cfg d) st ops).
Proof.
  revert st. induction ops as [|op ops IH]; intros st; cbn [foldl]; [lia|].
  etransitivity; [apply (day_count_perform cfg d st op) | apply IH].
Qed.

Lemma day_count_recordings d n st :
  day_count d (Nat.iter n (update_daily_stats d true None) st)
  = day_count d st + Z.of_nat n.
Proof.
  induction n as [|n IH]; [cbn; lia|].
  rewrite Nat.iter_succ, day_count_update, IH. lia.
Qed.

Lemma eq0_Fin p : eq0 (VNum (Fin p)) = false <-> ~ (p == 0)%Q.
Proof. apply Qeqb_neq. Qed.

(** With the stop-loss on the entry price the distance is zero: the ratio is
    set to 0 by the guard, which scores 3, and the zero stop percentage
    scores 1. *)
Lemma equal_stop_readings sig v p :
  v_price v = Fin p -> v_stop v = Fin p -> ~ (p == 0)%Q ->
  risk_reward_of sig v = Fin 0
  /\ rr_points (risk_reward_of sig v) = 3
  /\ rr_warning (risk_reward_of sig v) = Some "Poor risk-reward ratio"
  /\ stop_points (risk_percent_of v) = 1
  /\ stop_warning (risk_percent_of v) = Some "Very tight stop loss"
  /\ (stop_distance_of v >? Fin 0)%F = false.
Proof.
  intros Hp Hs Hne.
  destruct (fsub_self_zero p) as (q & Eq & Hq).
  assert (Hsd : stop_distance_of v = Fin q).
  { unfold stop_distance_of. now rewrite Hp, Hs. }
  assert (Hz : is_zero (Fin q) = true) by now apply Qeqb_eq.
  assert (Hgt : (stop_distance_of v >? Fin 0)%F = false).
  { rewrite Hsd. apply pos_flt_zero; [exact Hz | apply Qle_refl]. }
  assert (Hrr : risk_reward_of sig v = Fin 0).
  { unfold risk_reward_of. now rewrite Hgt. }
  assert (Hrp : is_zero (risk_percent_of v) = true).
  { unfold risk_percent_of. rewrite Hsd, Hp.
    apply is_zero_fmul, is_zero_fdiv; assumption. }
  assert (H5 : (risk_percent_of v >? Fin 5)%F = false).
  { apply pos_flt_zero; [exact Hrp | discriminate]. }
  assert (H1 : (risk_percent_of v <? Fin 1)%F = true).
  { apply zero_flt_pos; [exact Hrp | reflexivity]. }
  rewrite Hrr. unfold stop_points, stop_warning. rewrite H5, H1.
  repeat split; try reflexivity. exact Hgt.
Qed.

(** *** Inputs used as examples *)

Definition default_config : config := Config None None None.

(** A BUY signal with its stop-loss on the entry price, high confidence and
    both indicators against the direction. *)
Definition flat_stop_signal : signal :=
  {| current_price := Some (VNum (Fin 1.1%Q));
     stop_loss := Some (VNum (Fin 1.1%Q));
     take_profit := Some (VNum (Fin 1.2%Q));
     confidence := Some (VNum (Fin 80%Q));
     signal_type := Some "BUY";
     technical_indicators :=
       Some {| RSI := Some (VNum (Fin 75%Q));
               MACD := Some (VNum (Fin (-0.001)%Q));
               MACD_Signal := Some (VNum (Fin 0.002%Q));
               ADX := Some (VNum (Fin 20%Q)) |} |}.

Definition flat_stop_readings : readings :=
  Readings (Fin 1.1%Q) (Fin 1.1%Q) (Fin 1.2%Q) (Fin 80%Q)
    (Fin 75%Q) (Fin (-0.001)%Q) (Fin 0.002%Q) (Fin 20%Q).

(** A BUY signal that is approved while the daily limit is not reached. *)
Definition favourable_signal : signal :=
  {| current_price := Some (VNum (Fin 1.1%Q));
     stop_loss := Some (VNum (Fin 1.08%Q));
     take_profit := Some (VNum (Fin 1.15%Q));
     confidence := Some (VNum (Fin 80%Q));
     signal_type := Some "BUY";
     technical_indicators :=
       Some {| RSI := Some (VNum (Fin 50%Q));
               MACD := Some (VNum (Fin 0.002%Q));
               MACD_Signal := Some (VNum (Fin 0.001%Q));
               ADX := None |} |}.

Definition favourable_readings : readings :=
  Readings (Fin 1.1%Q) (Fin 1.08%Q) (Fin 1.15%Q) (Fin 80%Q)
    (Fin 50%Q) (Fin 0.002%Q) (Fin 0.001%Q) (Fin 0).

(** A signal whose price is zero. *)
Definition zero_price_signal : signal :=
  {| current_price := Some (VNum (Fin 0));
     stop_loss := Some (VNum (Fin 1.1%Q));
     take_profit := Some (VNum (Fin 1.2%Q));
     confidence := Some (VNum (Fin 80%Q));
     signal_type := Some "BUY";
     technical_indicators := None |}.

(** A price or stop-loss that is zero or missing. *)
Definition zero_or_missing (field : option pyval) : Prop :=
  field = None \/ exists x, field = Some (VNum x) /\ is_zero x = true.

(** The assessment the price guard returns. *)
Definition rejected_invalid_price : risk_assessment :=
  {| risk_level := "LOW"; score := 0; max_loss := Fin 0;
     risk_reward_ratio := Fin 0; warnings := ["Invalid price data"];
     recommendation := "REJECTED"; position_size := Fin 0 |}.

Lemma zero_or_missing_eq0 field :
  zero_or_missing field -> eq0 (get (VNum (Fin 0)) field) = true.
Proof.
  intros [-> | (x & -> & Hx)]; [reflexivity|].
  destruct x; try discriminate; [exact Hx | reflexivity].
Qed.

Lemma assess_body_invalid cfg now st sig bal :
  zero_or_missing (current_price sig) \/ zero_or_missing (stop_loss sig) ->
  assess_body cfg now st sig bal initial_assessment
  = (rejected_invalid_price, inr st).
Proof.
  intros H.
  assert (Hg : eq0 (get (VNum (Fin 0)) (current_price sig))
               || eq0 (get (VNum (Fin 0)) (stop_loss sig)) = true).
  { apply orb_true_iff.
    destruct H as [H | H]; [left | right]; now apply zero_or_missing_eq0. }
  unfold assess_body. rewrite Hg. reflexivity.
Qed.

Lemma assess_trade_risk_invalid cfg now st sig bal :
  zero_or_missing (current_price sig) \/ zero_or_missing (stop_loss sig) ->
  assess_trade_risk cfg now st sig bal = (rejected_invalid_price, st).
Proof.
  intros H. unfold assess_trade_risk. now rewrite (assess_body_invalid _ _ _ _ _ H).
Qed.

(* --------------------------------------------------------------------- *)
(** *** C2: stop-loss equal to the entry price *)
(* --------------------------------------------------------------------- *)

(** The BUY signal [flat_stop_signal] has its stop-loss on its non-zero
    entry price, and on a day without recorded signals the assessor
    approves it: the zero distance scores 3 + 1, the confidence of 80 takes
    2 off and the two indicators against the direction take 2 off, which
    leaves a risk score of 0. *)
Lemma equal_stop_approved :
  stop_loss flat_stop_signal = current_price flat_stop_signal
  /\ eq0 (VNum (Fin 1.1%Q)) = false
  /\ recommendation
       (assess_trade_risk default_config 7 (init_daily_stats 7)
          flat_stop_signal (Fin 1000%Q)).1 = "APPROVED"
  /\ recommendation
       (assess_trade_risk default_config 7 (init_daily_stats 7)
          flat_stop_signal (Fin 1000%Q)).1 <> "REJECTED".
Proof. repeat split. discriminate. Qed.

(** C2, amended.  For a signal whose stop-loss equals its finite, non-zero
    entry price and whose numeric keys hold numbers, [assess_trade_risk]
    completes without an exception: the zero distance is caught by the
    guard, which sets the risk-reward ratio to 0; the assessment carries the
    warnings "Poor risk-reward ratio" and "Very tight stop loss"; the risk
    score is 4 plus the confidence, alignment and volatility points; the
    position size is [min(0, MAX_POSITION_SIZE)]; and the recommendation is
    REJECTED exactly when that score exceeds 4, the confidence is below 20 or
    the daily limit is reached. *)
Theorem equal_stop_assessment cfg now st sig bal v p :
  reads sig v -> v_price v = Fin p -> v_stop v = Fin p -> ~ (p == 0)%Q ->
  let a := (assess_trade_risk cfg now st sig bal).1 in
  let sc := 4 + confidence_points (v_confidence v)
            + alignment_points sig (v_rsi v) (v_macd v) (v_macd_signal v)
            + volatility_points (v_adx v) in
  risk_reward_ratio a = Fin 0
  /\ score a = sc
  /\ In "Poor risk-reward ratio" (warnings a)
  /\ In "Very tight stop loss" (warnings a)
  /\ position_size a = pymin (Fin 0) (get (Fin 100) (MAX_POSITION_SIZE cfg))
  /\ (recommendation a = "REJECTED" <->
      sc > 4 \/ (v_confidence v <? Fin 20)%F = true
      \/ (check_daily_limits cfg now st).1 = true)
  /\ recommendation a <> "ERROR".
Proof.
  intros Hv Hp Hs Hne a sc.
  assert (Hp0 : eq0 (VNum (v_price v)) = false) by (rewrite Hp; now apply eq0_Fin).
  assert (Hs0 : eq0 (VNum (v_stop v)) = false) by (rewrite Hs; now apply eq0_Fin).
  destruct (equal_stop_readings sig v p Hp Hs Hne)
    as (Hrr & Hrrp & Hrrw & Hsp & Hsw & Hgt).
  subst a. rewrite (assess_trade_risk_numeric _ _ _ _ _ _ Hv Hp0 Hs0).
  cbn [fst expected_assessment risk_reward_ratio score warnings position_size
       recommendation].
  assert (Hsc : risk_score_of sig v = sc).
  { unfold risk_score_of. rewrite Hrrp, Hsp. subst sc. lia. }
  rewrite Hsc, Hrrw, Hsw.
  split; [exact Hrr|]. split; [reflexivity|].
  split; [now left|]. split; [right; now left|].
  split. { unfold calculate_position_size. now rewrite Hgt. }
  unfold recommendation_of.
  destruct (check_daily_limits cfg now st).1; [split; [tauto | discriminate]|].
  destruct (v_confidence v <? Fin 20)%F;
    [rewrite orb_true_r; split; [tauto | discriminate]|].
  rewrite orb_false_r.
  destruct (Z.gtb_spec sc 4) as [E4 | E4].
  - split; [|discriminate]. split; [intros _; left; lia | reflexivity].
  - assert (~ sc > 4) by lia.
    destruct (sc >? 2)%Z; (split; [|discriminate]);
      (split; [discriminate | intros [? | [? | ?]]; (contradiction || discriminate)]).
Qed.

Lemma equal_stop_assessment_witness :
  let a := (assess_trade_risk default_config 7 (init_daily_stats 7)
              flat_stop_signal (Fin 1000%Q)).1 in
  score a = 0 /\ recommendation a <> "REJECTED".
Proof.
  pose proof (equal_stop_assessment default_config 7 (init_daily_stats 7)
                flat_stop_signal (Fin 1000%Q) flat_stop_readings
                1.1%Q ltac:(repeat split) eq_refl eq_refl ltac:(discriminate))
    as (_ & Hsc & _ & _ & _ & Hrec & _).
  split; [exact Hsc|].
  intros H. apply Hrec in H. destruct H as [H | [H | H]]; discriminate.
Defined.

(* --------------------------------------------------------------------- *)
(** *** C3: the daily limit *)
(* --------------------------------------------------------------------- *)

(** After 50 recordings on day 7 under the default configuration the limit
    check answers true, and the assessment of [zero_price_signal] that
    follows is the price guard's: its only warning is "Invalid price data",
    the daily-limit warning is not appended. *)
Lemma limit_reached_without_warning :
  let st := Nat.iter 50 (update_daily_stats 7 true None) (init_daily_stats 7) in
  let a := (assess_trade_risk default_config 7 st zero_price_signal (Fin 1000%Q)).1 in
  (check_daily_limits default_config 7 st).1 = true
  /\ warnings a = ["Invalid price data"]
  /\ ~ In "Daily trading limit reached" (warnings a).
Proof.
  cbv zeta. split; [reflexivity|]. split; [reflexivity|].
  intros [H | []]. discriminate H.
Qed.

(** C3, amended.  Let [n = MAX_DAILY_SIGNALS] signal-sent recordings be made
    on day [d], from a state whose counter is not negative.  Then the
    daily-limit check on day [d] answers true, and it still does after any
    further operations of that day.  Every assessment made then of a signal
    that passes the price guard and whose numeric keys hold numbers returns
    REJECTED with "Daily trading limit reached" as its last warning,
    whatever its risk score and confidence; a signal whose price or
    stop-loss is zero or missing gets the price guard's rejection, whose only
    warning is "Invalid price data". *)
Theorem daily_limit_rejects cfg d n st0 :
  get 50 (MAX_DAILY_SIGNALS cfg) = Z.of_nat n ->
  0 <= signals_sent st0 ->
  let st := Nat.iter n (update_daily_stats d true None) st0 in
  (check_daily_limits cfg d st).1 = true
  /\ forall ops sig bal,
       let st' := foldl (perform cfg d) st ops in
       let a := (assess_trade_risk cfg d st' sig bal).1 in
       (check_daily_limits cfg d st').1 = true
       /\ (zero_or_missing (current_price sig) \/ zero_or_missing (stop_loss sig) ->
           a = rejected_invalid_price)
       /\ forall v, reads sig v ->
            eq0 (VNum (v_price v)) = false -> eq0 (VNum (v_stop v)) = false ->
            recommendation a = "REJECTED"
            /\ exists ws, warnings a = ws ++ ["Daily trading limit reached"].
Proof.
  intros Hmax H0 st.
  assert (Hst : Z.of_nat n <= day_count d st).
  { subst st. rewrite day_count_recordings.
    unfold day_count. destruct (last_reset st0 =? d)%Z; lia. }
  assert (Hlim : forall s, Z.of_nat n <= day_count d s ->
                           (check_daily_limits cfg d s).1 = true).
  { intros s Hs. rewrite check_daily_limits_count, Hmax.
    rewrite Z.geb_leb. now apply Z.leb_le. }
  split; [now apply Hlim|].
  intros ops sig bal st' a.
  assert (Hst' : (check_daily_limits cfg d st').1 = true).
  { apply Hlim. etransitivity; [exact Hst | apply day_count_operations]. }
  split; [exact Hst'|]. split.
  - intros Hinv. subst a.
    now rewrite (assess_trade_risk_invalid cfg d st' sig bal Hinv).
  - intros v Hv Hp Hs. subst a.
    rewrite (assess_trade_risk_numeric _ _ _ _ _ _ Hv Hp Hs), Hst'.
    cbn [fst expected_assessment recommendation warnings].
    split; [reflexivity|]. rewrite !app_assoc. eauto.
Qed.

Lemma daily_limit_rejects_witness :
  let st := Nat.iter 50 (update_daily_stats 7 true None) (init_daily_stats 7) in
  (check_daily_limits default_config 7 st).1 = true
  /\ recommendation
       (assess_trade_risk default_config 7
          (foldl (perform default_config 7) st [CheckDailyLimits])
          favourable_signal (Fin 1000%Q)).1 = "REJECTED"
  /\ recommendation
       (assess_trade_risk default_config 7 (init_daily_stats 7)
          favourable_signal (Fin 1000%Q)).1 = "APPROVED".
Proof.
  pose proof (daily_limit_rejects default_config 7 50 (init_daily_stats 7)
                eq_refl ltac:(discriminate)) as [H1 H2].
  split; [exact H1|]. split; [|reflexivity].
  destruct (H2 [CheckDailyLimits] favourable_signal (Fin 1000%Q)) as (_ & _ & H3).
  apply (H3 favourable_readings); repeat split.
Defined.

(* --------------------------------------------------------------------- *)
(** *** C4: zero or missing price or stop-loss *)
(* --------------------------------------------------------------------- *)

(** C4.  For every signal whose current price or stop-loss is zero or
    missing, the [try] block of [assess_trade_risk] completes without an
    exception and the function returns the initial assessment with
    recommendation REJECTED and the one warning "Invalid price data"; the
    session limiter is left as it was. *)
Theorem invalid_price_is_rejected cfg now st sig bal :
  zero_or_missing (current_price sig) \/ zero_or_missing (stop_loss sig) ->
  assess_body cfg now st sig bal initial_assessment
    = (rejected_invalid_price, inr st)
  /\ assess_trade_risk cfg now st sig bal = (rejected_invalid_price, st).
Proof.
  intros H. split;
    [now apply assess_body_invalid | now apply assess_trade_risk_invalid].
Qed.

Lemma invalid_price_is_rejected_witness :
  let sig := Signal None (Some (VNum (Fin 1.1%Q))) (Some (VNum (Fin 1.2%Q)))
                    (Some (VNum (Fin 80%Q))) (Some "BUY") None in
  assess_trade_risk default_config 7 (init_daily_stats 7) sig (Fin 1000%Q)
  = (rejected_invalid_price, init_daily_stats 7).
Proof.
  intros sig.
  apply (invalid_price_is_rejected default_config 7 (init_daily_stats 7)
           sig (Fin 1000%Q)).
  left. left. reflexivity.
Defined.

(** A price key that is present and holds [None] is not a missing one: the
    guard lets it through, the subtraction raises inside the [try] block and
    the handler returns ERROR. *)
Example none_price_is_error :
  let sig := Signal (Some VNone) (Some (VNum (Fin 1.1%Q)))
                    (Some (VNum (Fin 1.2%Q))) (Some (VNum (Fin 80%Q)))
                    (Some "BUY") None in
  let a := (assess_trade_risk default_config 7 (init_daily_stats 7) sig
              (Fin 1000%Q)).1 in
  recommendation a = "ERROR" /\ length (warnings a) = 1%nat.
Proof. split; reflexivity. Qed.

(* --------------------------------------------------------------------- *)
(** *** C5: day rollover *)
(* --------------------------------------------------------------------- *)

(** C5.  When the stored date differs from the current date, each of the
    limit check, the stats update and the reset works on zeroed counters and
    the current date: [reset_daily_stats] zeroes the counters and stores the
    date; [check_daily_limits] compares the zeroed counter and leaves the
    reset state; [update_daily_stats] gives what it gives on the reset
    state, so its increments start from zero. *)
Theorem day_rollover_resets_first cfg now st :
  last_reset st <> now ->
  reset_daily_stats now
    = {| trades_taken := 0; signals_sent := 0; max_trades_reached := false;
         win_rate := Fin 0; profit_loss := Fin 0; last_reset := now |}
  /\ check_daily_limits cfg now st
     = ((0 >=? get 50 (MAX_DAILY_SIGNALS cfg))%Z, reset_daily_stats now)
  /\ forall signal_sent trade_result,
       let st' := update_daily_stats now signal_sent trade_result st in
       st' = update_daily_stats now signal_sent trade_result (reset_daily_stats now)
       /\ last_reset st' = now
       /\ signals_sent st' = (if signal_sent then 1 else 0)
       /\ trades_taken st' = (if truthy trade_result then 1 else 0)
       /\ profit_loss st'
          = match trade_result ≫= (fun d => d !! "profit_loss") with
            | Some x => if truthy trade_result then (Fin 0 + x)%F else Fin 0
            | None => Fin 0
            end.
Proof.
  intros Hstale.
  assert (Hne : (last_reset st =? now)%Z = false) by now apply Z.eqb_neq.
  split; [reflexivity|]. split.
  - unfold check_daily_limits. rewrite Hne. reflexivity.
  - intros ss tr. cbv zeta. unfold update_daily_stats. rewrite Hne.
    cbn [negb reset_daily_stats last_reset]. rewrite Z.eqb_refl. cbn [negb].
    destruct ss, (truthy tr), (tr ≫= _); cbn; auto.
Qed.

Lemma day_rollover_resets_first_witness :
  let st := Nat.iter 3 (update_daily_stats 7 true None) (init_daily_stats 7) in
  signals_sent st = 3
  /\ check_daily_limits default_config 8 st = (false, reset_daily_stats 8)
  /\ signals_sent (update_daily_stats 8 true None st) = 1.
Proof.
  intros st.
  destruct (day_rollover_resets_first default_config 8 st ltac:(discriminate))
    as (_ & Hc & Hu).
  split; [reflexivity|]. split; [exact Hc|].
  exact (proj1 (proj2 (proj2 (Hu true None)))).
Defined.

(* --------------------------------------------------------------------- *)
(** *** C8: position sizing *)
(* --------------------------------------------------------------------- *)

(** C8.  For every non-negative balance and risk percentage and every
    positive stop distance, the position size is
    [(balance * risk_percentage / 100) / stop_distance] capped by [min] at
    the configured maximum position size (100 when not configured); for
    balance 1000, risk 2 and stop distance 0.0050 the value before the cap is
    4000. *)
Theorem position_size_formula cfg (balance risk_percentage stop_distance : Q) :
  (0 <= balance)%Q -> (0 <= risk_percentage)%Q -> (0 < stop_distance)%Q ->
  same (calculate_position_size cfg (Fin balance) (Fin risk_percentage)
          (Fin stop_distance))
       (pymin (Fin (balance * (risk_percentage / 100) / stop_distance))
          (get (Fin 100) (MAX_POSITION_SIZE cfg)))
  /\ ((balance == 1000)%Q -> (risk_percentage == 2)%Q ->
      (stop_distance == 5 / 1000)%Q ->
      same (calculate_position_size cfg (Fin balance) (Fin risk_percentage)
              (Fin stop_distance))
           (pymin (Fin 4000) (get (Fin 100) (MAX_POSITION_SIZE cfg)))).
Proof.
  intros Hb Hr Hd.
  assert (H100 : (0 < 100)%Q) by reflexivity.
  destruct (fdiv_nonneg_pos _ _ Hr H100) as (q1 & E1 & Hq1).
  assert (Hq1' : (0 <= q1)%Q).
  { rewrite Hq1. apply Qle_shift_div_l; lra. }
  destruct (fmul_nonneg _ _ Hb Hq1') as (q2 & E2 & Hq2).
  assert (Hq2' : (0 <= q2)%Q).
  { rewrite Hq2. apply Qmult_le_0_compat; assumption. }
  destruct (fdiv_nonneg_pos _ _ Hq2' Hd) as (q3 & E3 & Hq3).
  assert (Hcalc : calculate_position_size cfg (Fin balance) (Fin risk_percentage)
            (Fin stop_distance)
          = pymin (Fin q3) (get (Fin 100) (MAX_POSITION_SIZE cfg))).
  { unfold calculate_position_size, fgt. rewrite flt_Fin.
    assert (Hlt : Qltb 0 stop_distance = true) by now apply Qltb_lt.
    rewrite Hlt, E1, E2, E3. reflexivity. }
  assert (Hq : (q3 == balance * (risk_percentage / 100) / stop_distance)%Q).
  { rewrite Hq3, Hq2, Hq1. reflexivity. }
  rewrite Hcalc. split.
  - now apply pymin_Fin_compat.
  - intros Eb Er Es. apply pymin_Fin_compat.
    rewrite Hq, Eb, Er, Es. reflexivity.
Qed.

Lemma position_size_formula_witness :
  same (calculate_position_size default_config (Fin 1000%Q) (Fin 2%Q)
          (Fin (5 / 1000)%Q))
       (Fin 100)
  /\ same (calculate_position_size (Config None (Some (Fin 10000%Q)) None)
             (Fin 1000%Q) (Fin 2%Q) (Fin (5 / 1000)%Q))
          (Fin 4000).
Proof.
  split.
  - refine (proj2 (position_size_formula default_config
             1000%Q 2%Q (5 / 1000)%Q _ _ _) _ _ _); (reflexivity || discriminate).
  - refine (proj2 (position_size_formula (Config None (Some (Fin 10000%Q)) None)
             1000%Q 2%Q (5 / 1000)%Q _ _ _) _ _ _); (reflexivity || discriminate).
Defined.

End RiskManagementSpec.

(* ===================================================================== *)
(** ** The RSI computation *)
(* ===================================================================== *)

Module PandasFacts.
Import Pandas.

Lemma length_diff s : length (diff s) = length s.
Proof.
  destruct s as [|x rest]; [reflexivity|]. cbn [diff length]. f_equal.
  rewrite length_zip_with. cbn [length]. lia.
Qed.

Lemma length_rolling_mean w s : length (rolling_mean w s) = length s.
Proof. unfold rolling_mean. now rewrite length_fmap, length_seq. Qed.

Lemma length_avg_gain period prices : length (avg_gain period prices) = length prices.
Proof.
  unfold avg_gain, where_. now rewrite length_rolling_mean, length_fmap, length_diff.
Qed.

Lemma length_avg_loss period prices : length (avg_loss period prices) = length prices.
Proof.
  unfold avg_loss, neg, where_.
  now rewrite length_rolling_mean, !length_fmap, length_diff.
Qed.

Lemma iloc_back_zip_with (f : fnum -> fnum -> fnum) a b x y :
  length a = length b ->
  iloc_back 1 a = Some x -> iloc_back 1 b = Some y ->
  iloc_back 1 (zip_with f a b) = Some (f x y).
Proof.
  unfold iloc_back. intros Hlen.
  rewrite length_zip_with, <- Hlen, Nat.min_id.
  destruct (length a <? 1)%nat; [discriminate|].
  intros Ha Hb. rewrite lookup_zip_with, Ha. cbn.
  rewrite Hlen in Hb |- *. rewrite Hb. reflexivity.
Qed.

(** The RSI formula on a positive average gain and a zero average loss. *)
Lemma rsi_of_zero_loss g loss :
  (0 < g)%Q -> is_zero loss = true -> same (rsi_of (Fin g) loss) (Fin 100).
Proof.
  intros Hg Hz.
  assert (Hg0 : Qeqb g 0 = false) by (apply Qeqb_neq; lra).
  assert (Hs : Qltb g 0 = false) by (apply Qltb_ge; lra).
  unfold rsi_of, fdiv at 2.
  destruct loss; try discriminate; cbn [is_nan is_inf is_zero orb sgn val] in *;
    rewrite ?Hz, Hg0, Hs; cbn [xorb signed_inf].
  - destruct (Qltb q 0); vm_compute; split; discriminate.
  - vm_compute. split; discriminate.
Qed.
End PandasFacts.

(* ===================================================================== *)
(** ** The technical-analysis signal generator *)
(* ===================================================================== *)

Module TechnicalAnalysisSpec.
Import TechnicalAnalysis.

(** The tally of all rules on the latest row of a frame. *)
Definition final_tally (df : list row) (latest : row) : tally :=
  score_rules latest (detect_candlestick_patterns df) (Tally 0 0 []).

Lemma generate_signal_inr df symbol timeframe sig :
  generate_signal df symbol timeframe = inr sig ->
  exists latest,
    iloc_back 1 df = Some latest
    /\ signal_type sig = final_signal (signal_score (final_tally df latest))
    /\ sig_confidence sig = Z.min (confidence (final_tally df latest)) 95
    /\ current_price sig = Close latest
    /\ entry_price sig = Close latest
    /\ stop_loss sig
       = (if String.eqb (signal_type sig) "BUY"
          then Close latest - ATR latest * Fin (15 # 10)
          else Close latest + ATR latest * Fin (15 # 10))%F
    /\ take_profit sig
       = (if String.eqb (signal_type sig) "BUY"
          then Close latest + ATR latest * Fin 2
          else Close latest - ATR latest * Fin 2)%F.
Proof.
  unfold generate_signal. destruct (iloc_back 1 df) as [latest|]; [|discriminate].
  fold (final_tally df latest).
  intros H. exists latest. split; [reflexivity|].
  destruct (String.eqb (final_signal _) "BUY") eqn:E;
    injection H as <-; cbn; rewrite E; repeat split.
Qed.

Lemma final_signal_cases score :
  (final_signal score = "BUY" <-> 3 <= score)
  /\ (final_signal score = "SELL" <-> score <= -3)
  /\ (final_signal score = "HOLD" <-> -3 < score < 3).
Proof.
  unfold final_signal.
  destruct (Z.geb_spec score 3); [repeat split; (lia || discriminate || reflexivity)|].
  destruct (Z.leb_spec score (-3)); repeat split; (lia || discriminate || reflexivity).
Qed.

(** The confidence points of each rule. *)
Definition rsi_confidence (latest : row) : Z :=
  if (RSI latest <? Fin 30)%F || (RSI latest >? Fin 70)%F then 10 else 0.
Definition macd_confidence : Z := 15.
Definition moving_average_confidence (latest : row) : Z :=
  if ((Close latest >? MA20 latest)%F && (MA20 latest >? MA50 latest)%F)
     || ((Close latest <? MA20 latest)%F && (MA20 latest <? MA50 latest)%F)
  then 20 else 0.
Definition bollinger_confidence (latest : row) : Z :=
  if (Close latest <? BB_Lower latest)%F || (Close latest >? BB_Upper latest)%F
  then 15 else 0.
Definition stochastic_confidence (latest : row) : Z :=
  if ((Stoch_K latest <? Fin 20)%F && (Stoch_D latest <? Fin 20)%F)
     || ((Stoch_K latest >? Fin 80)%F && (Stoch_D latest >? Fin 80)%F)
  then 10 else 0.
Definition pattern_confidence (p : patterns) : Z :=
  (if bullish_engulfing p then 25 else 0) + (if hammer p then 20 else 0).

Definition rule_points (latest : row) (p : patterns) : Z :=
  rsi_confidence latest + macd_confidence + moving_average_confidence latest
  + bollinger_confidence latest + stochastic_confidence latest
  + pattern_confidence p.

Lemma rsi_analysis_confidence latest t :
  confidence (rsi_analysis latest t) = confidence t + rsi_confidence latest.
Proof.
  unfold rsi_analysis, rsi_confidence.
  destruct (_ <? _)%F; [reflexivity|]. destruct (_ >? _)%F; cbn; lia.
Qed.

Lemma macd_analysis_confidence latest t :
  confidence (macd_analysis latest t) = confidence t + macd_confidence.
Proof. unfold macd_analysis. destruct (_ >? _)%F; reflexivity. Qed.

Lemma moving_average_analysis_confidence latest t :
  confidence (moving_average_analysis latest t)
  = confidence t + moving_average_confidence latest.
Proof.
  unfold moving_average_analysis, moving_average_confidence.
  destruct (_ && _); [reflexivity|]. destruct (_ && _); cbn; lia.
Qed.

Lemma bollinger_analysis_confidence latest t :
  confidence (bollinger_analysis latest t) = confidence t + bollinger_confidence latest.
Proof.
  unfold bollinger_analysis, bollinger_confidence.
  destruct (_ <? _)%F; [reflexivity|]. destruct (_ >? _)%F; cbn; lia.
Qed.

Lemma stochastic_analysis_confidence latest t :
  confidence (stochastic_analysis latest t)
  = confidence t + stochastic_confidence latest.
Proof.
  unfold stochastic_analysis, stochastic_confidence.
  destruct (_ && _); [reflexivity|]. destruct (_ && _); cbn; lia.
Qed.

Lemma pattern_analysis_confidence p t :
  confidence (pattern_analysis p t) = confidence t + pattern_confidence p.
Proof.
  unfold pattern_analysis, pattern_confidence.
  destruct (bullish_engulfing p), (hammer p); cbn; lia.
Qed.

Lemma confidence_score_rules latest p t :
  confidence (score_rules latest p t) = confidence t + rule_points latest p.
Proof.
  unfold score_rules, rule_points.
  rewrite pattern_analysis_confidence, stochastic_analysis_confidence,
    bollinger_analysis_confidence, moving_average_analysis_confidence,
    macd_analysis_confidence, rsi_analysis_confidence.
  lia.
Qed.

Lemma rule_points_range latest p : 15 <= rule_points latest p <= 130.
Proof.
  unfold rule_points, rsi_confidence, macd_confidence, moving_average_confidence,
    bollinger_confidence, stochastic_confidence, pattern_confidence.
  repeat match goal with |- context [if ?b then _ else _] => destruct b end; lia.
Qed.

(* --------------------------------------------------------------------- *)
(** *** C10: the price geometry of a HOLD signal *)
(* --------------------------------------------------------------------- *)

(** A frame of one row on which only the MACD rule fires. *)
Definition quiet_row : row :=
  {| Open := Fin 1.1%Q; High := Fin 1.2%Q; Low := Fin 1.0%Q; Close := Fin 1.1%Q;
     RSI := Fin 50%Q; MACD := Fin 0.002%Q; MACD_Signal := Fin 0.001%Q;
     MA20 := Fin 1.1%Q; MA50 := Fin 1.1%Q;
     BB_Upper := Fin 1.3%Q; BB_Lower := Fin 0.9%Q;
     Stoch_K := Fin 50%Q; Stoch_D := Fin 50%Q;
     ADX := Fin 20%Q; ATR := Fin 0.01%Q |}.

Lemma flt_fle x y : flt x y = true -> fle x y = true.
Proof.
  destruct x, y; unfold flt, fle, Qleb; cbn [val]; intros H;
    try discriminate H; try reflexivity;
    apply Qltb_lt in H; apply Qle_bool_iff; now apply Qlt_le_weak.
Qed.

(** On binary64 the levels of a HOLD signal with a close of 1.1 and a
    positive ATR of 1e-17 coincide: 1.5 and 2 times the ATR are under half
    the spacing of the doubles at 1.1, so the sum and the difference round to
    the close, and the take-profit is not below the entry price nor the entry
    price below the stop-loss. *)
Lemma hold_levels_coincide :
  let '(entry_price, stop_loss, take_profit) :=
    Binary64.price_levels "HOLD" Binary64.narrow_close Binary64.narrow_atr in
  PrimFloat.ltb PrimFloat.zero Binary64.narrow_atr = true
  /\ PrimFloat.eqb stop_loss entry_price = true
  /\ PrimFloat.eqb take_profit entry_price = true
  /\ PrimFloat.ltb take_profit entry_price = false
  /\ PrimFloat.ltb entry_price stop_loss = false.
Proof. vm_compute. repeat split. Qed.

(** C10, amended.  A signal of [generate_signal] whose direction is HOLD,
    which is the case when the net score lies strictly between -3 and 3, gets
    the prices of the SELL side: the stop-loss is the close plus 1.5 times
    the ATR and the take-profit is the close minus twice the ATR.  When the
    close is finite and the ATR positive and finite, the take-profit is not
    above the entry price and the entry price not above the stop-loss; the
    three need not differ. *)
Theorem hold_signal_geometry df symbol timeframe sig :
  generate_signal df symbol timeframe = inr sig ->
  signal_type sig = "HOLD" ->
  exists latest,
    iloc_back 1 df = Some latest
    /\ -3 < signal_score (final_tally df latest) < 3
    /\ entry_price sig = Close latest
    /\ stop_loss sig = (Close latest + ATR latest * Fin (15 # 10))%F
    /\ take_profit sig = (Close latest - ATR latest * Fin 2)%F
    /\ forall c a, Close latest = Fin c -> ATR latest = Fin a -> (0 < a)%Q ->
         (take_profit sig <=? entry_price sig)%F = true
         /\ (entry_price sig <=? stop_loss sig)%F = true.
Proof.
  intros H Hhold.
  destruct (generate_signal_inr _ _ _ _ H)
    as (latest & Hl & Ht & _ & _ & He & Hs & Hp).
  rewrite Hhold in Hs, Hp. cbn [String.eqb Ascii.eqb Bool.eqb] in Hs, Hp.
  exists latest. split; [exact Hl|]. split.
  { apply final_signal_cases. now rewrite <- Ht. }
  split; [exact He|]. split; [exact Hs|]. split; [exact Hp|].
  intros c a Hc Ha Hpos. rewrite He, Hs, Hp, Hc, Ha. split; apply flt_fle.
  - apply fsub_fmul_below; [exact Hpos | reflexivity].
  - apply fadd_fmul_above; [exact Hpos | reflexivity].
Qed.

Lemma hold_signal_geometry_witness :
  exists sig,
    generate_signal [quiet_row] "EURUSD=X" "1m" = inr sig
    /\ signal_type sig = "HOLD"
    /\ (take_profit sig <=? entry_price sig)%F = true
    /\ (entry_price sig <=? stop_loss sig)%F = true.
Proof.
  eexists. split; [reflexivity|]. split; [reflexivity|].
  destruct (hold_signal_geometry [quiet_row] "EURUSD=X" "1m" _ eq_refl eq_refl)
    as (latest & Hl & _ & _ & _ & _ & Hg).
  injection Hl as <-.
  exact (Hg 1.1%Q 0.01%Q eq_refl eq_refl eq_refl).
Defined.
End TechnicalAnalysisSpec.

(* ===================================================================== *)
(** ** The signal aggregator of the enhanced bot *)
(* ===================================================================== *)

Module EnhancedBotSpec.
Import Pandas EnhancedBot PandasFacts.

(** The claimed tie-break: a rule that runs after the direction has left
    HOLD leaves the direction as it is. *)
Definition first_mover_wins (ind : indicators) : Prop :=
  forall earlier rule later,
    rules = earlier ++ rule :: later ->
    let s := foldl (fun s rule => rule ind s) initial_analysis earlier in
    action s <> HOLD -> action (rule ind s) = action s.

(** RSI overbought and MACD bearish, with the price under the lower band. *)
Definition overbought_at_lower_band : indicators :=
  {| current_price := Fin 1.05%Q; rsi := Fin 75%Q;
     macd := Fin 0.001%Q; macd_signal := Fin 0.002%Q;
     bb_upper := Fin 1.10%Q; bb_middle := Fin 1.08%Q; bb_lower := Fin 1.06%Q;
     ma_20 := Fin 1.08%Q; ma_50 := Fin 1.07%Q;
     momentum_1 := Fin (-0.05)%Q; momentum_5 := Fin (-0.1)%Q;
     volatility := Fin 0.5%Q |}.

(** The direction the RSI and MACD rules leave. *)
Definition opening_direction (ind : indicators) : direction :=
  if (rsi ind <? Fin 30)%F then CALL
  else if (rsi ind >? Fin 70)%F then PUT
  else if (macd ind >? macd_signal ind)%F then CALL else PUT.

(** The direction the Bollinger rule leaves, from the direction it finds. *)
Definition band_direction (ind : indicators) (a : direction) : direction :=
  if (current_price ind <=? bb_lower ind)%F then CALL
  else if (current_price ind >=? bb_upper ind)%F then PUT
  else a.

Definition extends (s s' : analysis) : Prop :=
  signal_strength s <= signal_strength s'
  /\ exists rs, reasoning s' = reasoning s ++ rs.

Lemma extends_refl s : extends s s.
Proof. split; [lia | exists []; now rewrite app_nil_r]. Qed.

Lemma extends_fire a points r s : 0 <= points -> extends s (fire a points r s).
Proof. intros H. split; [cbn; lia | now exists [r]]. Qed.

Ltac rule_cases :=
  repeat match goal with
         | |- context [if ?b then _ else _] => destruct b eqn:?
         end.

Lemma rsi_analysis_extends ind s : extends s (rsi_analysis ind s).
Proof. unfold rsi_analysis. rule_cases; apply extends_fire; lia. Qed.

Lemma macd_analysis_extends ind s : extends s (macd_analysis ind s).
Proof. unfold macd_analysis. destruct (_ >? _)%F; apply extends_fire; lia. Qed.

Lemma bollinger_analysis_extends ind s : extends s (bollinger_analysis ind s).
Proof.
  unfold bollinger_analysis.
  destruct (_ <=? _)%F; [apply extends_fire; lia|].
  destruct (_ >=? _)%F; [apply extends_fire; lia|].
  destruct (_ && _); [apply extends_fire; lia|].
  destruct (_ && _); [apply extends_fire; lia | apply extends_refl].
Qed.

Lemma moving_average_analysis_extends ind s :
  extends s (moving_average_analysis ind s).
Proof.
  unfold moving_average_analysis.
  destruct (_ >? _)%F; [apply extends_fire; lia|].
  destruct (_ <? _)%F; [apply extends_fire; lia | apply extends_refl].
Qed.

Lemma momentum_confirmation_extends ind s :
  extends s (momentum_confirmation ind s).
Proof.
  unfold momentum_confirmation.
  destruct (_ >? _)%F; [apply extends_fire; lia|].
  destruct (_ <? _)%F; [apply extends_fire; lia|].
  destruct (_ >? _)%F; [apply extends_fire; lia|].
  destruct (_ <? _)%F; [apply extends_fire; lia | apply extends_refl].
Qed.

Lemma action_fire_if_hold s a points r :
  action s <> HOLD -> action (fire (if_hold s a) points r s) = action s.
Proof.
  intros H. unfold if_hold. now rewrite bool_decide_eq_false_2.
Qed.

Lemma macd_analysis_keeps ind s :
  action s <> HOLD -> action (macd_analysis ind s) = action s.
Proof.
  intros H. unfold macd_analysis.
  destruct (_ >? _)%F; now apply action_fire_if_hold.
Qed.

Lemma moving_average_analysis_keeps ind s :
  action s <> HOLD -> action (moving_average_analysis ind s) = action s.
Proof.
  intros H. unfold moving_average_analysis.
  destruct (_ >? _)%F; [now apply action_fire_if_hold|].
  destruct (_ <? _)%F; [now apply action_fire_if_hold | reflexivity].
Qed.

Lemma momentum_confirmation_keeps ind s :
  action s <> HOLD -> action (momentum_confirmation ind s) = action s.
Proof.
  intros H. unfold momentum_confirmation.
  destruct (_ >? _)%F; [now apply action_fire_if_hold|].
  destruct (_ <? _)%F; [now apply action_fire_if_hold|].
  destruct (_ >? _)%F; [reflexivity|].
  destruct (_ <? _)%F; reflexivity.
Qed.

Lemma bollinger_analysis_act ind s :
  action s <> HOLD -> action (bollinger_analysis ind s) = band_direction ind (action s).
Proof.
  intros H. unfold bollinger_analysis, band_direction.
  destruct (_ <=? _)%F;
    [unfold fire; cbn [action]; destruct (action s); (contradiction || reflexivity)|].
  destruct (_ >=? _)%F;
    [unfold fire; cbn [action]; destruct (action s); (contradiction || reflexivity)|].
  destruct (_ && _); [reflexivity|].
  destruct (_ && _); reflexivity.
Qed.

Lemma opening_direction_spec ind :
  action (macd_analysis ind (rsi_analysis ind initial_analysis)) = opening_direction ind
  /\ opening_direction ind <> HOLD.
Proof.
  unfold opening_direction, macd_analysis, rsi_analysis.
  destruct (rsi ind <? Fin 30)%F;
    [destruct (_ >? _)%F; split; (reflexivity || discriminate)|].
  destruct (rsi ind >? Fin 70)%F;
    [destruct (_ >? _)%F; split; (reflexivity || discriminate)|].
  destruct (rsi ind <? Fin 40)%F;
    [destruct (_ >? _)%F; split; (reflexivity || discriminate)|].
  destruct (rsi ind >? Fin 60)%F;
    destruct (_ >? _)%F; split; (reflexivity || discriminate).
Qed.

Lemma band_direction_not_hold ind a : a <> HOLD -> band_direction ind a <> HOLD.
Proof.
  intros H. unfold band_direction.
  destruct (_ <=? _)%F; [discriminate|]. destruct (_ >=? _)%F; [discriminate | exact H].
Qed.

Lemma run_rules_act ind :
  action (run_rules ind initial_analysis) = band_direction ind (opening_direction ind).
Proof.
  destruct (opening_direction_spec ind) as [Ho Hne].
  unfold run_rules, rules. cbn [foldl].
  set (s2 := macd_analysis ind (rsi_analysis ind initial_analysis)) in *.
  assert (H2 : action s2 <> HOLD) by now rewrite Ho.
  pose proof (bollinger_analysis_act ind s2 H2) as H3.
  set (s3 := bollinger_analysis ind s2) in *.
  assert (H3' : action s3 <> HOLD).
  { rewrite H3. now apply band_direction_not_hold. }
  pose proof (moving_average_analysis_keeps ind s3 H3') as H4.
  set (s4 := moving_average_analysis ind s3) in *.
  assert (H4' : action s4 <> HOLD) by now rewrite H4.
  rewrite (momentum_confirmation_keeps ind s4 H4'), H4, H3, Ho. reflexivity.
Qed.

Section Engine.
Variable ewm_mean : nat -> series -> series.
Variable rolling_std : nat -> series -> series.
Variable std : series -> fnum.

Lemma calculate_technical_indicators_Some data ind :
  calculate_technical_indicators ewm_mean rolling_std std data = Some ind ->
  exists close,
    data = Some close /\ (20 <= length close)%nat
    /\ rsi ind = last_or (Fin 50) (rsi_series 14 close).
Proof.
  unfold calculate_technical_indicators.
  destruct data as [close|]; [|discriminate].
  destruct (bool_decide (close = [])); [discriminate|]. cbn [orb].
  destruct (Nat.ltb_spec (length close) 20) as [Hlt | Hge]; [discriminate|].
  intros H. injection H as <-. exists close. repeat split. assumption.
Qed.

(** What a generated signal is made of. *)
Lemma generate_comprehensive_signal_Some data pair_symbol timeframe period sig :
  generate_comprehensive_signal ewm_mean rolling_std std data
    pair_symbol timeframe period = Some sig ->
  exists frames close ind,
    data = Some frames
    /\ frames !! timeframe = Some (Some close)
    /\ (20 <= length close)%nat
    /\ calculate_technical_indicators ewm_mean rolling_std std (Some close) = Some ind
    /\ sig_action sig = action (run_rules ind initial_analysis)
    /\ sig_signal_strength sig
       = Z.min (signal_strength (run_rules ind initial_analysis)) 95
    /\ sig_reasoning sig = reasoning (run_rules ind initial_analysis)
    /\ sig_rsi sig = rsi ind
    /\ data_freshness sig = LIVE.
Proof.
  unfold generate_comprehensive_signal.
  destruct data as [frames|]; [|discriminate].
  destruct (bool_decide (frames = ∅)); [discriminate|].
  destruct (frames !! timeframe) as [frame|] eqn:Hf; [|discriminate].
  destruct (calculate_technical_indicators _ _ _ frame) as [ind|] eqn:Hi;
    [|discriminate].
  destruct (calculate_technical_indicators_Some _ _ Hi) as (close & -> & Hlen & _).
  intros H. injection H as <-. exists frames, close, ind. cbn.
  repeat split; try assumption.
  destruct close; [cbn in Hlen; lia | reflexivity].
Qed.

End Engine.

(** *** The strength tables

    The points each rule adds to [signal_strength]. *)

Definition rsi_strength (ind : indicators) : Z :=
  if (rsi ind <? Fin 30)%F || (rsi ind >? Fin 70)%F then 30
  else if (rsi ind <? Fin 40)%F || (rsi ind >? Fin 60)%F then 15
  else 5.

Definition macd_strength : Z := 25.

(** The Bollinger rule, for the direction [a] it finds. *)
Definition bollinger_strength (ind : indicators) (a : direction) : Z :=
  let price := current_price ind in
  if (price <=? bb_lower ind)%F || (price >=? bb_upper ind)%F then 20
  else if ((price >? bb_middle ind)%F && bool_decide (a = CALL))
          || ((price <? bb_middle ind)%F && bool_decide (a = PUT)) then 10
  else 0.

Definition moving_average_strength (ind : indicators) : Z :=
  if (current_price ind >? ma_20 ind)%F || (current_price ind <? ma_20 ind)%F
  then 15 else 0.

Definition momentum_strength (ind : indicators) : Z :=
  let m := momentum_1 ind in
  if (m >? Fin (2 # 100))%F || (m <? Fin (- 2 # 100))%F then 15
  else if (m >? Fin 0)%F || (m <? Fin 0)%F then 5
  else 0.

Definition total_strength (ind : indicators) : Z :=
  rsi_strength ind + macd_strength
  + bollinger_strength ind (opening_direction ind)
  + moving_average_strength ind + momentum_strength ind.

Lemma rsi_analysis_strength ind s :
  signal_strength (rsi_analysis ind s) = signal_strength s + rsi_strength ind.
Proof.
  unfold rsi_analysis, rsi_strength.
  destruct (rsi ind <? Fin 30)%F; [reflexivity|].
  destruct (rsi ind >? Fin 70)%F; [reflexivity|].
  destruct (rsi ind <? Fin 40)%F; [reflexivity|].
  destruct (rsi ind >? Fin 60)%F; reflexivity.
Qed.

Lemma macd_analysis_strength ind s :
  signal_strength (macd_analysis ind s) = signal_strength s + macd_strength.
Proof. unfold macd_analysis. destruct (_ >? _)%F; reflexivity. Qed.

Lemma bollinger_analysis_strength ind s :
  signal_strength (bollinger_analysis ind s)
  = signal_strength s + bollinger_strength ind (action s).
Proof.
  unfold bollinger_analysis, bollinger_strength.
  destruct (_ <=? _)%F; [reflexivity|].
  destruct (_ >=? _)%F; [reflexivity|].
  destruct (_ && _); [reflexivity|].
  destruct (_ && _); cbn; lia.
Qed.

Lemma moving_average_analysis_strength ind s :
  signal_strength (moving_average_analysis ind s)
  = signal_strength s + moving_average_strength ind.
Proof.
  unfold moving_average_analysis, moving_average_strength.
  destruct (_ >? _)%F; [reflexivity|].
  destruct (_ <? _)%F; cbn; lia.
Qed.

Lemma momentum_confirmation_strength ind s :
  signal_strength (momentum_confirmation ind s)
  = signal_strength s + momentum_strength ind.
Proof.
  unfold momentum_confirmation, momentum_strength.
  destruct (_ >? _)%F; [reflexivity|].
  destruct (_ <? _)%F; [reflexivity|].
  destruct (_ >? _)%F; [reflexivity|].
  destruct (_ <? _)%F; cbn; lia.
Qed.

Lemma run_rules_strength ind :
  signal_strength (run_rules ind initial_analysis) = total_strength ind.
Proof.
  unfold run_rules, rules, total_strength. cbn [foldl].
  rewrite momentum_confirmation_strength, moving_average_analysis_strength,
    bollinger_analysis_strength, (proj1 (opening_direction_spec ind)),
    macd_analysis_strength, rsi_analysis_strength.
  cbn [initial_analysis signal_strength]. lia.
Qed.

Lemma total_strength_range ind : 30 <= total_strength ind <= 105.
Proof.
  assert (5 <= rsi_strength ind <= 30).
  { unfold rsi_strength. destruct (_ || _); [lia|]. destruct (_ || _); lia. }
  assert (0 <= bollinger_strength ind (opening_direction ind) <= 20).
  { unfold bollinger_strength. cbv zeta.
    destruct (_ || _); [lia|]. destruct (_ || _); lia. }
  assert (0 <= moving_average_strength ind <= 15).
  { unfold moving_average_strength. destruct (_ || _); lia. }
  assert (0 <= momentum_strength ind <= 15).
  { unfold momentum_strength. cbv zeta.
    destruct (_ || _); [lia|]. destruct (_ || _); lia. }
  unfold total_strength, macd_strength. lia.
Qed.
End EnhancedBotSpec.

(* ===================================================================== *)
(** ** The generated signals *)
(* ===================================================================== *)

Module SignalSpec.
Import Pandas EnhancedBot PandasFacts EnhancedBotSpec.

(** *** Inputs used as examples *)

(** Sixteen closes rising by one. *)
Definition rising_prices : series :=
  (fun n => of_Z (Z.of_nat n)) <$> seq 1 16.

(** Twenty closes rising by one, as the only frame of a fetch. *)
Definition rising_frame : series :=
  (fun n => of_Z (Z.of_nat n)) <$> seq 1 20.

Definition rising_data : option (gmap string (option series)) :=
  Some {[ "5m" := Some rising_frame ]}.

(** Stand-ins for the pandas computations the engine takes as parameters. *)
Definition flat_ewm (span : nat) (s : series) : series := s.
Definition flat_std (window : nat) (s : series) : series :=
  (fun _ => Fin 0) <$> s.
Definition zero_std (s : series) : fnum := Fin 0.

(* --------------------------------------------------------------------- *)
(** *** C1: which rule decides the direction *)
(* --------------------------------------------------------------------- *)

(** On [overbought_at_lower_band] the RSI rule sets PUT and the MACD rule
    keeps it, and the Bollinger rule, which runs third, turns the direction
    to CALL: the claimed tie-break fails on this input. *)
Lemma bollinger_overturns_direction :
  action (macd_analysis overbought_at_lower_band
         (rsi_analysis overbought_at_lower_band initial_analysis)) = PUT
  /\ action (run_rules overbought_at_lower_band initial_analysis) = CALL
  /\ ~ first_mover_wins overbought_at_lower_band.
Proof.
  split; [reflexivity|]. split; [reflexivity|].
  intros H.
  specialize (H [rsi_analysis; macd_analysis] bollinger_analysis
                [moving_average_analysis; momentum_confirmation] eq_refl).
  cbv zeta in H. discriminate H. discriminate.
Qed.

(** C1, amended.  In [generate_comprehensive_signal] every rule only adds
    points and appends reasons.  The RSI rule, which runs first, sets the
    direction on an extreme reading; the MACD, moving-average and momentum
    rules set it only while it is HOLD, so after the MACD rule it is never
    HOLD; the Bollinger rule overrides it: a price at or under the lower band
    gives CALL and a price at or over the upper band gives PUT, whatever the
    earlier rules chose.  The direction of the signal is therefore the
    Bollinger rule's on a band touch and the RSI/MACD rules' otherwise.  In
    [generate_signal] of the technical-analysis variant no rule sets the
    direction: it is read once from the net score, BUY from 3, SELL to -3,
    HOLD between. *)
Theorem direction_of_signal ind :
  (forall rule s, In rule rules -> extends s (rule ind s))
  /\ (forall s, action s <> HOLD ->
        action (macd_analysis ind s) = action s
        /\ action (moving_average_analysis ind s) = action s
        /\ action (momentum_confirmation ind s) = action s
        /\ action (bollinger_analysis ind s) = band_direction ind (action s))
  /\ action (macd_analysis ind (rsi_analysis ind initial_analysis))
     = opening_direction ind
  /\ opening_direction ind <> HOLD
  /\ action (run_rules ind initial_analysis)
     = band_direction ind (opening_direction ind)
  /\ (forall df symbol timeframe sig,
        TechnicalAnalysis.generate_signal df symbol timeframe = inr sig ->
        exists latest,
          TechnicalAnalysis.iloc_back 1 df = Some latest
          /\ let score := TechnicalAnalysis.signal_score
                            (TechnicalAnalysisSpec.final_tally df latest) in
             (TechnicalAnalysis.signal_type sig = "BUY" <-> 3 <= score)
             /\ (TechnicalAnalysis.signal_type sig = "SELL" <-> score <= -3)
             /\ (TechnicalAnalysis.signal_type sig = "HOLD" <-> -3 < score < 3)).
Proof.
  split.
  { intros rule s Hin. cbn in Hin.
    destruct Hin as [<- | [<- | [<- | [<- | [<- | []]]]]].
    - apply rsi_analysis_extends.
    - apply macd_analysis_extends.
    - apply bollinger_analysis_extends.
    - apply moving_average_analysis_extends.
    - apply momentum_confirmation_extends. }
  split.
  { intros s Hs. repeat split.
    - now apply macd_analysis_keeps.
    - now apply moving_average_analysis_keeps.
    - now apply momentum_confirmation_keeps.
    - now apply bollinger_analysis_act. }
  split; [apply opening_direction_spec|].
  split; [apply opening_direction_spec|].
  split; [apply run_rules_act|].
  intros df symbol timeframe sig H.
  destruct (TechnicalAnalysisSpec.generate_signal_inr _ _ _ _ H)
    as (latest & Hl & Ht & _).
  exists latest. split; [exact Hl|]. cbv zeta. rewrite Ht.
  apply TechnicalAnalysisSpec.final_signal_cases.
Qed.

Lemma direction_of_signal_witness :
  action (run_rules overbought_at_lower_band initial_analysis) = CALL
  /\ action (bollinger_analysis overbought_at_lower_band
            (macd_analysis overbought_at_lower_band
               (rsi_analysis overbought_at_lower_band initial_analysis)))
     = CALL.
Proof.
  destruct (direction_of_signal overbought_at_lower_band)
    as (_ & Hkeep & Hopen & _ & Hrun & _).
  split; [exact Hrun|].
  destruct (Hkeep (macd_analysis overbought_at_lower_band
                     (rsi_analysis overbought_at_lower_band initial_analysis))
              ltac:(discriminate)) as (_ & _ & _ & Hb).
  exact Hb.
Defined.

(* --------------------------------------------------------------------- *)
(** *** C6: the confidence ceiling *)
(* --------------------------------------------------------------------- *)

(** C6.  The signal strength a generated signal of the enhanced bot reports
    is the sum of the points of its rules capped by [min] at 95, and the
    confidence a generated signal of the technical-analysis variant reports
    is the sum of the confidence points of its rules capped by [min] at 95;
    both lie between 0 and 95. *)
Theorem confidence_is_capped :
  (forall ewm_mean rolling_std std data pair_symbol timeframe period sig,
     generate_comprehensive_signal ewm_mean rolling_std std data
       pair_symbol timeframe period = Some sig ->
     exists frames close ind,
       data = Some frames /\ frames !! timeframe = Some (Some close)
       /\ calculate_technical_indicators ewm_mean rolling_std std (Some close)
          = Some ind
       /\ sig_signal_strength sig = Z.min (total_strength ind) 95
       /\ 0 <= sig_signal_strength sig <= 95)
  /\ (forall df symbol timeframe sig,
        TechnicalAnalysis.generate_signal df symbol timeframe = inr sig ->
        exists latest,
          TechnicalAnalysis.iloc_back 1 df = Some latest
          /\ TechnicalAnalysis.sig_confidence sig
             = Z.min (TechnicalAnalysisSpec.rule_points latest
                        (TechnicalAnalysis.detect_candlestick_patterns df)) 95
          /\ 0 <= TechnicalAnalysis.sig_confidence sig <= 95).
Proof.
  split.
  - intros ewm_mean rolling_std std data pair_symbol timeframe period sig H.
    destruct (generate_comprehensive_signal_Some _ _ _ _ _ _ _ _ H)
      as (frames & close & ind & Hd & Hf & _ & Hi & _ & Hs & _).
    exists frames, close, ind. rewrite Hs, run_rules_strength.
    pose proof (total_strength_range ind). repeat split; try assumption; lia.
  - intros df symbol timeframe sig H.
    destruct (TechnicalAnalysisSpec.generate_signal_inr _ _ _ _ H)
      as (latest & Hl & _ & Hc & _).
    exists latest. rewrite Hc. unfold TechnicalAnalysisSpec.final_tally.
    rewrite TechnicalAnalysisSpec.confidence_score_rules.
    cbn [TechnicalAnalysis.confidence]. rewrite Z.add_0_l.
    pose proof (TechnicalAnalysisSpec.rule_points_range latest
                  (TechnicalAnalysis.detect_candlestick_patterns df)).
    repeat split; try assumption; lia.
Qed.

Lemma confidence_is_capped_witness :
  (exists sig,
     generate_comprehensive_signal flat_ewm flat_std zero_std rising_data
       "EURUSD" "5m" "1m" = Some sig
     /\ 0 <= sig_signal_strength sig <= 95)
  /\ (exists sig,
        TechnicalAnalysis.generate_signal [TechnicalAnalysisSpec.quiet_row] "EURUSD=X" "1m" = inr sig
        /\ 0 <= TechnicalAnalysis.sig_confidence sig <= 95).
Proof.
  split.
  - eexists. split; [reflexivity|].
    destruct (proj1 confidence_is_capped flat_ewm flat_std zero_std rising_data
                "EURUSD" "5m" "1m" _ eq_refl) as (? & ? & ? & _ & _ & _ & _ & Hr).
    exact Hr.
  - eexists. split; [reflexivity|].
    destruct (proj2 confidence_is_capped [TechnicalAnalysisSpec.quiet_row] "EURUSD=X" "1m" _ eq_refl)
      as (? & _ & _ & Hr).
    exact Hr.
Defined.

(* --------------------------------------------------------------------- *)
(** *** C7: RSI with a zero average loss *)
(* --------------------------------------------------------------------- *)

(** C7.  For every price series whose last 14-period average loss is zero
    (of either sign) while its last average gain is positive, [calculate_rsi]
    returns 100, without an error, and so does the RSI entry of
    [calculate_technical_indicators]: the division by the zero loss gives
    an infinite RS, and [100 - 100 / (1 + RS)] is then 100. *)
Theorem rsi_zero_loss_is_100 prices g loss :
  iloc_back 1 (avg_gain 14 prices) = Some (Fin g) -> (0 < g)%Q ->
  iloc_back 1 (avg_loss 14 prices) = Some loss -> is_zero loss = true ->
  (exists r, RealtimeBot.calculate_rsi prices 14 = Some r /\ same r (Fin 100))
  /\ (forall ewm_mean rolling_std std ind,
        calculate_technical_indicators ewm_mean rolling_std std (Some prices)
          = Some ind ->
        same (rsi ind) (Fin 100)).
Proof.
  intros Hg Hpos Hl Hz.
  assert (Hr : iloc_back 1 (rsi_series 14 prices) = Some (rsi_of (Fin g) loss)).
  { unfold rsi_series. apply iloc_back_zip_with; [|assumption..].
    now rewrite length_avg_gain, length_avg_loss. }
  split.
  - exists (rsi_of (Fin g) loss). split; [exact Hr|].
    now apply rsi_of_zero_loss.
  - intros ewm_mean rolling_std std ind Hi.
    destruct (calculate_technical_indicators_Some _ _ _ _ _ Hi)
      as (close & Hc & _ & ->).
    injection Hc as <-. unfold last_or. rewrite Hr.
    now apply rsi_of_zero_loss.
Qed.

Lemma rsi_zero_loss_is_100_witness :
  RealtimeBot.calculate_rsi rising_prices 14 = Some (Fin 100)
  /\ exists r, RealtimeBot.calculate_rsi rising_prices 14 = Some r
               /\ same r (Fin 100).
Proof.
  split; [reflexivity|].
  exact (proj1 (rsi_zero_loss_is_100 rising_prices (14 # 14) (Fin 0)
                  eq_refl eq_refl eq_refl eq_refl)).
Defined.

(* --------------------------------------------------------------------- *)
(** *** C9: the freshness of a generated signal *)
(* --------------------------------------------------------------------- *)

(** C9.  Every signal [generate_comprehensive_signal] returns has
    [data_freshness] LIVE: a signal is returned only when the frame of the
    timeframe is present with at least 20 bars, so the STALE branch is never
    taken.  The signal [display_comprehensive_signal] renders is never STALE,
    and it is SIMULATED exactly when the generation returned [None] and the
    fixture was used. *)
Theorem generated_signal_is_live
    ewm_mean rolling_std std data pair_symbol timeframe period :
  let generated :=
    generate_comprehensive_signal ewm_mean rolling_std std data
      pair_symbol timeframe period in
  let displayed :=
    displayed_signal ewm_mean rolling_std std data pair_symbol timeframe period in
  (forall sig, generated = Some sig ->
     data_freshness sig = LIVE
     /\ exists frames close,
          data = Some frames /\ frames !! timeframe = Some (Some close)
          /\ (20 <= length close)%nat)
  /\ data_freshness displayed <> STALE
  /\ (data_freshness displayed = SIMULATED <-> generated = None).
Proof.
  intros generated displayed.
  assert (Hlive : forall sig, generated = Some sig ->
            data_freshness sig = LIVE
            /\ exists frames close,
                 data = Some frames /\ frames !! timeframe = Some (Some close)
                 /\ (20 <= length close)%nat).
  { intros sig H.
    destruct (generate_comprehensive_signal_Some _ _ _ _ _ _ _ _ H)
      as (frames & close & ind & Hd & Hf & Hlen & _ & _ & _ & _ & _ & Hfresh).
    split; [exact Hfresh|]. now exists frames, close. }
  split; [exact Hlive|].
  subst displayed. unfold displayed_signal. fold generated.
  destruct generated as [sig|] eqn:E.
  - destruct (Hlive sig eq_refl) as [-> _].
    split; [discriminate | split; discriminate].
  - split; [discriminate | split; reflexivity].
Qed.

Lemma generated_signal_is_live_witness :
  data_freshness
    (displayed_signal flat_ewm flat_std zero_std rising_data "EURUSD" "5m" "1m")
  = LIVE
  /\ data_freshness
       (displayed_signal flat_ewm flat_std zero_std None "EURUSD" "5m" "1m")
     = SIMULATED.
Proof.
  split.
  - destruct (generated_signal_is_live flat_ewm flat_std zero_std rising_data
                "EURUSD" "5m" "1m") as (H & _ & _).
    exact (proj1 (H _ eq_refl)).
  - apply (generated_signal_is_live flat_ewm flat_std zero_std None
             "EURUSD" "5m" "1m"). reflexivity.
Defined.
End SignalSpec.

(* ===================================================================== *)
(** ** Further properties of the risk manager *)
(* ===================================================================== *)

Module RiskExtras.
Import RiskManagement RiskManagementSpec RiskReports.

(** *** Position sizing *)

Lemma flt_irrefl_pymin a b : flt b (pymin a b) = false.
Proof.
  unfold pymin. destruct (flt b a) eqn:E; [|exact E].
  destruct b; try reflexivity; unfold flt; cbn [val];
    apply Qltb_ge, Qle_refl.
Qed.

(** X1.  The position size is never above the configured maximum, whatever
    the balance, the risk percentage and the stop distance (NaN and the
    infinities included); and a stop distance that is not positive (zero,
    negative or NaN) gives the position size 0 when the maximum is not
    negative. *)
Theorem position_size_capped cfg account_balance risk_percentage stop_distance :
  let max_position := get (Fin 100) (MAX_POSITION_SIZE cfg) in
  let size :=
    calculate_position_size cfg account_balance risk_percentage stop_distance in
  (max_position <? size)%F = false
  /\ ((stop_distance >? Fin 0)%F = false ->
      (max_position <? Fin 0)%F = false -> size = Fin 0).
Proof.
  cbv zeta. split.
  - unfold calculate_position_size. apply flt_irrefl_pymin.
  - intros Hsd Hmax. unfold calculate_position_size.
    rewrite Hsd. unfold pymin. now rewrite Hmax.
Qed.

Lemma position_size_capped_witness :
  calculate_position_size default_config (Fin 1000%Q) (Fin 2%Q) (Fin (-1)%Q)
  = Fin 0.
Proof.
  apply (position_size_capped default_config (Fin 1000%Q) (Fin 2%Q) (Fin (-1)%Q));
    reflexivity.
Defined.

(** *** Risk level and recommendation *)

Lemma risk_score_of_range sig v : -5 <= risk_score_of sig v <= 10.
Proof.
  unfold risk_score_of.
  assert (-1 <= rr_points (risk_reward_of sig v) <= 3).
  { unfold rr_points. destruct (_ <? _)%F; [lia|]. destruct (_ <? _)%F; lia. }
  assert (0 <= stop_points (risk_percent_of v) <= 2).
  { unfold stop_points. destruct (_ >? _)%F; [lia|]. destruct (_ <? _)%F; lia. }
  assert (-2 <= confidence_points (v_confidence v) <= 2).
  { unfold confidence_points. destruct (_ <? _)%F; [lia|]. destruct (_ >? _)%F; lia. }
  assert (-2 <= alignment_points sig (v_rsi v) (v_macd v) (v_macd_signal v) <= 2).
  { unfold alignment_points.
    destruct (_ && _); destruct (is_signal sig "BUY");
      try destruct (_ >? _)%F; try destruct (is_signal sig "SELL");
      try destruct (_ <? _)%F; lia. }
  assert (0 <= volatility_points (v_adx v) <= 1).
  { unfold volatility_points. destruct (_ >? _)%F; lia. }
  lia.
Qed.

(** X2.  For a signal that passes the price guard and whose numeric keys
    hold numbers, the risk score lies between -5 and 10 and the risk level is
    its bucket; a VERY_HIGH risk level is always REJECTED, CAUTION is given
    only at risk level HIGH, and APPROVED only at MEDIUM or below, with the
    confidence not under 20 and the daily limit not reached. *)
Theorem risk_level_and_recommendation cfg now st sig bal v :
  reads sig v ->
  eq0 (VNum (v_price v)) = false -> eq0 (VNum (v_stop v)) = false ->
  let a := (assess_trade_risk cfg now st sig bal).1 in
  -5 <= score a <= 10
  /\ risk_level a = risk_level_of (score a)
  /\ (risk_level a = "VERY_HIGH" -> recommendation a = "REJECTED")
  /\ (recommendation a = "CAUTION" -> risk_level a = "HIGH")
  /\ (recommendation a = "APPROVED" ->
      score a <= 2
      /\ (v_confidence v <? Fin 20)%F = false
      /\ (check_daily_limits cfg now st).1 = false).
Proof.
  intros Hv Hp Hs a. subst a.
  rewrite (assess_trade_risk_numeric _ _ _ _ _ _ Hv Hp Hs).
  cbn [fst expected_assessment score risk_level recommendation].
  pose proof (risk_score_of_range sig v) as Hr.
  set (sc := risk_score_of sig v) in *.
  split; [exact Hr|]. split; [reflexivity|].
  unfold recommendation_of, risk_level_of.
  destruct (check_daily_limits cfg now st).1.
  { repeat split; intros; (reflexivity || discriminate). }
  destruct (Z.gtb_spec sc 4), (Z.gtb_spec sc 2), (Z.leb_spec sc (-2)),
    (Z.leb_spec sc 0), (Z.leb_spec sc 2), (Z.leb_spec sc 4),
    (v_confidence v <? Fin 20)%F; cbn [orb];
    repeat split; intros; try (reflexivity || discriminate || lia).
Qed.

Lemma risk_level_and_recommendation_witness :
  let a := (assess_trade_risk default_config 7 (init_daily_stats 7)
              favourable_signal (Fin 1000%Q)).1 in
  recommendation a = "APPROVED" /\ score a <= 2.
Proof.
  pose proof (risk_level_and_recommendation default_config 7 (init_daily_stats 7)
                favourable_signal (Fin 1000%Q) favourable_readings
                ltac:(repeat split) eq_refl eq_refl) as (_ & _ & _ & _ & H).
  split; [reflexivity|]. exact (proj1 (H eq_refl)).
Defined.

(** *** The session limiter *)

(** The number of entries of a list on which a test holds. *)
Fixpoint count {A} (p : A -> bool) (l : list A) : Z :=
  match l with
  | [] => 0
  | x :: rest => (if p x then 1 else 0) + count p rest
  end.

Lemma count_none {A} (p : A -> bool) l :
  Forall (fun x => p x = false) l -> count p l = 0.
Proof.
  induction 1 as [|x l Hx _ IH]; [reflexivity|]. cbn [count]. rewrite Hx, IH. lia.
Qed.

(** The operations that record a sent signal. *)
Definition records_signal (op : operation) : bool :=
  match op with
  | UpdateDailyStats signal_sent _ => signal_sent
  | _ => false
  end.

Lemma day_count_perform_exact cfg d st op :
  day_count d (perform cfg d st op)
  = day_count d st + (if records_signal op then 1 else 0).
Proof.
  destruct op; cbn [perform records_signal].
  - apply day_count_update.
  - rewrite day_count_check. lia.
  - rewrite day_count_assess. lia.
Qed.

Lemma day_count_foldl_perform cfg d ops st :
  day_count d (foldl (perform cfg d) st ops)
  = day_count d st + count records_signal ops.
Proof.
  revert st. induction ops as [|op ops IH]; intros st; [cbn; lia|].
  cbn [foldl count]. rewrite IH, day_count_perform_exact. lia.
Qed.

(** X3.  On one day, the counter the daily-limit check compares grows by
    one for every [update_daily_stats(signal_sent=True)] and by nothing
    else: risk assessments, limit checks and trade-only updates leave it as it
    is.  So a sequence of operations without a signal-sent update never
    changes the answer of the daily-limit check. *)
Theorem only_recordings_count cfg d st ops :
  let st' := foldl (perform cfg d) st ops in
  day_count d st' = day_count d st + count records_signal ops
  /\ (Forall (fun op => records_signal op = false) ops ->
      (check_daily_limits cfg d st').1 = (check_daily_limits cfg d st).1).
Proof.
  cbv zeta. split; [apply day_count_foldl_perform|].
  intros Hall.
  rewrite !check_daily_limits_count, day_count_foldl_perform, count_none
    by exact Hall.
  now rewrite Z.add_0_r.
Qed.

Lemma only_recordings_count_witness :
  (check_daily_limits default_config 7
     (foldl (perform default_config 7) (init_daily_stats 7)
        [AssessTradeRisk favourable_signal (Fin 1000%Q); CheckDailyLimits;
         AssessTradeRisk flat_stop_signal (Fin 1000%Q);
         UpdateDailyStats false (Some {[ "profit_loss" := Fin 3%Q ]})])).1
  = false.
Proof.
  refine (proj2 (only_recordings_count default_config 7 (init_daily_stats 7) _) _).
  repeat constructor.
Defined.

(** The updates of one day, each with its two arguments. *)
Definition update_args : Type := bool * option (gmap string fnum).

Definition apply_update (d : date) (st : daily_stats) (u : update_args)
  : daily_stats :=
  update_daily_stats d u.1 u.2 st.

(** The profit or loss an update adds, if any. *)
Definition booked (u : update_args) : option fnum :=
  u.2 ≫= (fun r => r !! "profit_loss").

Lemma update_daily_stats_same_day d signal_sent trade_result st :
  last_reset st = d ->
  let st' := update_daily_stats d signal_sent trade_result st in
  last_reset st' = d
  /\ signals_sent st' = signals_sent st + (if signal_sent then 1 else 0)
  /\ trades_taken st' = trades_taken st + (if truthy trade_result then 1 else 0)
  /\ profit_loss st'
     = match trade_result ≫= (fun r => r !! "profit_loss") with
       | Some x => if truthy trade_result then (profit_loss st + x)%F
                   else profit_loss st
       | None => profit_loss st
       end.
Proof.
  intros Hd. cbv zeta. unfold update_daily_stats.
  rewrite Hd, Z.eqb_refl. cbn [negb].
  destruct signal_sent, (truthy trade_result); cbn;
    repeat match goal with
           | |- context [match ?o with Some _ => _ | None => _ end] => destruct o
           end; cbn; repeat split; (lia || reflexivity || assumption).
Qed.

Lemma booked_truthy (u : update_args) x : booked u = Some x -> truthy u.2 = true.
Proof.
  unfold booked, truthy. destruct u.2 as [r|]; [|discriminate]. cbn.
  intros H. apply negb_true_iff, bool_decide_eq_false. intros ->.
  now rewrite lookup_empty in H.
Qed.

(** X4.  Updates made on the stored day add up: the signal counter grows by
    the number of updates with [signal_sent], the trade counter by the
    number of updates whose [trade_result] is a non-empty dictionary (an
    empty dictionary, like [None], is not a trade), and the profit or loss
    by the [profit_loss] entries in the order of the updates. *)
Theorem updates_add_up d st (us : list update_args) :
  last_reset st = d ->
  let st' := foldl (apply_update d) st us in
  last_reset st' = d
  /\ signals_sent st' = signals_sent st + count (fun u => u.1) us
  /\ trades_taken st' = trades_taken st + count (fun u => truthy u.2) us
  /\ profit_loss st' = foldl fadd (profit_loss st) (omap booked us).
Proof.
  cbv zeta. revert st. induction us as [|u us IH]; intros st Hd.
  { cbn. repeat split; lia. }
  cbn [foldl count].
  destruct (update_daily_stats_same_day d u.1 u.2 st Hd) as (Hd' & Hs & Ht & Hp).
  fold (apply_update d st u) in Hd', Hs, Ht, Hp.
  destruct (IH _ Hd') as (IHd & IHs & IHt & IHp).
  split; [exact IHd|].
  rewrite IHs, IHt, IHp, Hs, Ht, Hp. clear IH IHd IHs IHt IHp Hs Ht Hp.
  split; [lia|]. split; [lia|].
  cbn [omap list_omap]. fold (booked u).
  destruct (booked u) as [x|] eqn:E; cbn [foldl].
  - rewrite (booked_truthy u x E). reflexivity.
  - reflexivity.
Qed.

Lemma updates_add_up_witness :
  let st' :=
    foldl (apply_update 7) (init_daily_stats 7)
      [(true, None); (false, Some ∅);
       (true, Some {[ "profit_loss" := Fin 3%Q ]});
       (false, Some {[ "symbol" := Fin 1%Q ]})] in
  signals_sent st' = 2 /\ trades_taken st' = 2.
Proof.
  destruct (updates_add_up 7 (init_daily_stats 7)
              [(true, None); (false, Some ∅);
               (true, Some {[ "profit_loss" := Fin 3%Q ]});
               (false, Some {[ "symbol" := Fin 1%Q ]})] eq_refl)
    as (_ & Hs & Ht & _).
  split; [exact Hs | exact Ht].
Defined.

(** *** get_daily_summary *)

(** X5.  In every daily summary the remaining signals are not negative,
    they are 0 exactly when [max_trades_reached] is true, and below the cap
    the signals sent and the remaining ones add up to [MAX_DAILY_SIGNALS]. *)
Theorem summary_remaining round2 cfg now st :
  let s := get_daily_summary round2 cfg now st in
  0 <= remaining_signals s
  /\ (remaining_signals s = 0 <-> sum_max_trades_reached s = true)
  /\ (sum_max_trades_reached s = false ->
      sum_signals_sent s + remaining_signals s = get 50 (MAX_DAILY_SIGNALS cfg)).
Proof.
  cbn. destruct (Z.geb_spec (signals_sent st) (get 50 (MAX_DAILY_SIGNALS cfg)));
    repeat split; intros; try (lia || discriminate).
Qed.

(** X6.  The summary reads the counters as they are stored, under the
    current date, without the rollover of the other operations: on the
    stored day its [max_trades_reached] is the answer of
    [check_daily_limits]; on another day it still shows the counters of the
    stored day, while [check_daily_limits] answers for a counter of 0. *)
Theorem summary_has_no_rollover round2 cfg now st :
  let s := get_daily_summary round2 cfg now st in
  date_ s = now
  /\ sum_signals_sent s = signals_sent st
  /\ sum_trades_taken s = trades_taken st
  /\ (last_reset st = now ->
      sum_max_trades_reached s = (check_daily_limits cfg now st).1)
  /\ (last_reset st <> now ->
      (check_daily_limits cfg now st).1
      = (0 >=? get 50 (MAX_DAILY_SIGNALS cfg))%Z).
Proof.
  cbv zeta. split; [reflexivity|]. split; [reflexivity|]. split; [reflexivity|].
  split; intros H; rewrite check_daily_limits_count; unfold day_count.
  - now rewrite H, Z.eqb_refl.
  - apply Z.eqb_neq in H. now rewrite H.
Qed.

(** The statistics of day 7 once fifty signals are recorded. *)
Definition full_day : daily_stats :=
  {| trades_taken := 0; signals_sent := 50; max_trades_reached := false;
     win_rate := Fin 0; profit_loss := Fin 0; last_reset := 7 |}.

Lemma full_day_recorded :
  full_day = Nat.iter 50 (update_daily_stats 7 true None) (init_daily_stats 7).
Proof. vm_compute. reflexivity. Qed.

Lemma summary_has_no_rollover_witness :
  sum_max_trades_reached
    (get_daily_summary (fun x => x) default_config 8 full_day) = true
  /\ (check_daily_limits default_config 8 full_day).1 = false.
Proof.
  split; [reflexivity|].
  exact (proj2 (proj2 (proj2 (proj2
           (summary_has_no_rollover (fun x => x) default_config 8 full_day))))
           ltac:(discriminate)).
Defined.

(** *** calculate_drawdown_risk *)

(** X7.  [calculate_drawdown_risk] raises ZeroDivisionError exactly when the
    account balance is zero (of either sign).  Otherwise it returns a
    dictionary whose limit is the configured one (10 by default), in which
    [action_required] is set exactly at risk level HIGH, which is given
    exactly when the drawdown percentage reaches 0.8 times the limit, and in
    which a message is present exactly when the level is not LOW. *)
Theorem drawdown_risk_cases round2 cfg account_balance current_drawdown :
  let limit := get (Fin 10) (MAX_DRAWDOWN_PERCENTAGE cfg) in
  let pct := (current_drawdown / account_balance * Fin 100)%F in
  (calculate_drawdown_risk round2 cfg account_balance current_drawdown
     = inl ZeroDivisionError <-> is_zero account_balance = true)
  /\ (is_zero account_balance = false ->
      exists r,
        calculate_drawdown_risk round2 cfg account_balance current_drawdown
          = inr r
        /\ max_drawdown_limit r = limit
        /\ current_drawdown_pct r = round2 pct
        /\ (dd_risk_level r = "HIGH" <-> (pct >=? limit * Fin (8 # 10))%F = true)
        /\ (action_required r = true <-> dd_risk_level r = "HIGH")
        /\ (message r = None <-> dd_risk_level r = "LOW")).
Proof.
  cbv zeta. unfold calculate_drawdown_risk, pydiv.
  assert (Hz : (account_balance =? Fin 0)%F = is_zero account_balance).
  { destruct account_balance; reflexivity. }
  rewrite Hz. destruct (is_zero account_balance).
  - split; [tauto | discriminate].
  - split; [split; discriminate|]. intros _.
    eexists. split; [reflexivity|].
    destruct (_ >=? _)%F; [cbn; repeat split; (tauto || discriminate)|].
    destruct (_ >=? _)%F; cbn; repeat split; (tauto || discriminate).
Qed.

Lemma drawdown_risk_cases_witness :
  exists r,
    calculate_drawdown_risk (fun x => x) (ReportConfig default_config None None)
      (Fin 1000%Q) (Fin 90%Q) = inr r
    /\ (action_required r = true <-> dd_risk_level r = "HIGH").
Proof.
  destruct (proj2 (drawdown_risk_cases (fun x => x)
                     (ReportConfig default_config None None)
                     (Fin 1000%Q) (Fin 90%Q)) eq_refl)
    as (r & Hr & _ & _ & _ & Ha & _).
  exists r. split; [exact Hr | exact Ha].
Defined.

(** *** portfolio_heat_check *)

(** X8.  In every heat check the warnings are empty exactly when the status
    is SAFE, and the status is DANGEROUS exactly when the heat percentage
    is above the maximum.  With an account balance that is not positive
    (zero, negative or NaN) the percentage is taken as 0, so that, for a
    maximum that is not negative, the status is SAFE whatever the exposure. *)
Theorem heat_check_cases round2 cfg current_positions account_balance :
  let r := portfolio_heat_check round2 cfg current_positions account_balance in
  let limit := get (Fin 20) (MAX_PORTFOLIO_HEAT cfg) in
  let pct :=
    if (account_balance >? Fin 0)%F
    then (exposure current_positions / account_balance * Fin 100)%F
    else Fin 0 in
  (heat_warnings r = [] <-> status r = "SAFE")
  /\ (status r = "DANGEROUS" <-> (pct >? limit)%F = true)
  /\ total_exposure r = exposure current_positions
  /\ ((account_balance >? Fin 0)%F = false ->
      forall q, limit = Fin q -> (0 <= q)%Q -> status r = "SAFE").
Proof.
  cbv zeta. unfold portfolio_heat_check.
  set (pct := if (account_balance >? Fin 0)%F then _ else _).
  set (limit := get (Fin 20) (MAX_PORTFOLIO_HEAT cfg)).
  split; [|split; [|split]].
  - destruct (pct >? limit)%F; [cbn; split; discriminate|].
    destruct (pct >? _)%F; cbn; split; (reflexivity || discriminate).
  - destruct (pct >? limit)%F; [cbn; tauto|].
    destruct (pct >? _)%F; cbn; split; discriminate.
  - destruct (pct >? limit)%F; [reflexivity|].
    destruct (pct >? _)%F; reflexivity.
  - intros Hb q Hq Hpos. subst pct. rewrite Hb, Hq.
    assert (H1 : (Fin 0 >? Fin q)%F = false).
    { unfold fgt. rewrite flt_Fin. now apply Qltb_ge. }
    assert (H2 : (Fin 0 >? Fin q * Fin (8 # 10))%F = false).
    { destruct (fmul_nonneg q (8 # 10) Hpos ltac:(discriminate)) as (p & -> & Hp).
      unfold fgt. rewrite flt_Fin. apply Qltb_ge. rewrite Hp.
      apply Qmult_le_0_compat; [exact Hpos | discriminate]. }
    rewrite H1, H2. reflexivity.
Qed.

Lemma heat_check_cases_witness :
  status (portfolio_heat_check (fun x => x) (ReportConfig default_config None None)
            [Some (Fin 5000%Q); None; Some (Fin 700%Q)] (Fin 0))
  = "SAFE".
Proof.
  exact (proj2 (proj2 (proj2
           (heat_check_cases (fun x => x) (ReportConfig default_config None None)
              [Some (Fin 5000%Q); None; Some (Fin 700%Q)] (Fin 0))))
           eq_refl 20%Q eq_refl ltac:(discriminate)).
Defined.

(** *** Assessments at the daily limit *)

(** How the [try] block can complete: at the price guard, or through the
    daily-limit check. *)
Lemma assess_body_completes cfg now st sig bal a st' :
  assess_body cfg now st sig bal initial_assessment = (a, inr st') ->
  (a = rejected_invalid_price /\ st' = st)
  \/ exists s, daily_limits_check cfg now st s = (a, inr st').
Proof.
  unfold assess_body. destruct (eq0 _ || eq0 _).
  - intros H. left. cbv in H. injection H as <- <-. split; reflexivity.
  - intros E. right.
    repeat lazymatch type of E with
           | daily_limits_check _ _ _ _ = _ => fail
           | _ => apply mbind_inr in E; destruct E as (? & ? & _ & E)
           end.
    eauto.
Qed.

Lemma recommendation_at_limit cfg now st sig bal :
  (check_daily_limits cfg now st).1 = true ->
  recommendation (assess_trade_risk cfg now st sig bal).1 = "REJECTED"
  \/ recommendation (assess_trade_risk cfg now st sig bal).1 = "ERROR".
Proof.
  intros Hlim. unfold assess_trade_risk.
  destruct (assess_body cfg now st sig bal initial_assessment) as [a [e | st']] eqn:E.
  - right. reflexivity.
  - left. cbn [fst].
    destruct (assess_body_completes _ _ _ _ _ _ _ E) as [[-> _] | [s Hs]];
      [reflexivity|].
    rewrite daily_limits_check_run, Hlim in Hs. now injection Hs as <- _.
Qed.

(** X9.  Once the daily-limit check answers true, no assessment is APPROVED
    or CAUTION, whatever the signal holds: the recommendation is REJECTED,
    or ERROR when the [try] block raised. *)
Theorem no_approval_at_limit cfg now st sig bal :
  (check_daily_limits cfg now st).1 = true ->
  let a := (assess_trade_risk cfg now st sig bal).1 in
  recommendation a = "REJECTED" \/ recommendation a = "ERROR".
Proof. intros Hlim. cbv zeta. now apply recommendation_at_limit. Qed.

Lemma no_approval_at_limit_witness :
  let a := (assess_trade_risk default_config 7 full_day favourable_signal
              (Fin 1000%Q)).1 in
  recommendation a = "REJECTED" \/ recommendation a = "ERROR".
Proof.
  exact (no_approval_at_limit default_config 7 full_day favourable_signal
           (Fin 1000%Q) eq_refl).
Defined.

Lemma limit_stays_reached cfg d st sig bal :
  (check_daily_limits cfg d st).1 = true ->
  (check_daily_limits cfg d (assess_trade_risk cfg d st sig bal).2).1 = true.
Proof.
  rewrite !check_daily_limits_count, day_count_assess. auto.
Qed.

(** *** generate_risk_report *)

Definition approved (e : individual_assessment) : bool :=
  String.eqb (ia_recommendation e) "APPROVED".

Definition high_risk (e : individual_assessment) : bool :=
  String.eqb (ia_risk_level e) "HIGH" || String.eqb (ia_risk_level e) "VERY_HIGH".

(** What the variables of the loop hold after the signals [done]. *)
Record tallied (done : list report_signal) (t : tally) : Prop := {
  tallied_symbols : ia_symbol <$> t_assessments t = symbol <$> done;
  tallied_approved :
    t_approved t = ia_symbol <$> List.filter approved (t_assessments t);
  tallied_rejected :
    t_rejected t
    = ia_symbol <$> List.filter (fun e => negb (approved e)) (t_assessments t);
  tallied_count : t_approved_count t = count approved (t_assessments t);
  tallied_high : t_high_risk_count t = count high_risk (t_assessments t)
}.

Lemma filter_snoc {A} (p : A -> bool) l x :
  List.filter p (l ++ [x]) = List.filter p l ++ (if p x then [x] else []).
Proof. rewrite List.filter_app. reflexivity. Qed.

Lemma count_snoc {A} (p : A -> bool) l x :
  count p (l ++ [x]) = count p l + (if p x then 1 else 0).
Proof. induction l as [|y l IH]; cbn [count app]; [lia | rewrite IH; lia]. Qed.

Lemma count_range {A} (p : A -> bool) l : 0 <= count p l <= Z.of_nat (length l).
Proof.
  induction l as [|x l IH]; cbn [count length]; [lia|]. destruct (p x); lia.
Qed.

Lemma count_filter {A} (p : A -> bool) l :
  count p l = Z.of_nat (length (List.filter p l)).
Proof.
  induction l as [|x l IH]; [reflexivity|]. cbn [count List.filter].
  destruct (p x); cbn [length]; lia.
Qed.

Lemma report_step_raised cfg now bal e st signals :
  foldl (report_step cfg now bal) (inl e, st) signals = (inl e, st).
Proof. induction signals as [|s signals IH]; [reflexivity | exact IH]. Qed.

Lemma report_step_tallied cfg now bal done t st s t' st' :
  tallied done t ->
  report_step cfg now bal (inr t, st) s = (inr t', st') ->
  tallied (done ++ [s]) t'.
Proof.
  intros [Hsym Happ Hrej Hcnt Hhigh]. unfold report_step.
  destruct (assess_trade_risk cfg now st (fields s) bal) as [a st1].
  destruct (get (VNum (Fin 0)) (confidence (fields s))) as [c|]; [|discriminate].
  intros H. injection H as <- _.
  set (entry := {| ia_symbol := symbol s |}).
  assert (Hap : approved entry = String.eqb (recommendation a) "APPROVED")
    by reflexivity.
  assert (Hhi : high_risk entry
                = String.eqb (risk_level a) "HIGH"
                  || String.eqb (risk_level a) "VERY_HIGH") by reflexivity.
  split; cbn [t_assessments t_approved t_rejected t_approved_count
              t_high_risk_count].
  - rewrite !fmap_app, Hsym. reflexivity.
  - rewrite filter_snoc, fmap_app, Hap, <- Happ.
    destruct (String.eqb _ _); [reflexivity | now rewrite app_nil_r].
  - rewrite filter_snoc, fmap_app, Hap, <- Hrej.
    destruct (String.eqb _ _); cbn [negb]; [now rewrite app_nil_r | reflexivity].
  - rewrite count_snoc, Hap, <- Hcnt. destruct (String.eqb _ _); lia.
  - rewrite count_snoc, Hhi, <- Hhigh. destruct (_ || _); lia.
Qed.

Lemma foldl_report_tallied cfg now bal signals done t st t' st' :
  tallied done t ->
  foldl (report_step cfg now bal) (inr t, st) signals = (inr t', st') ->
  tallied (done ++ signals) t'.
Proof.
  revert done t st. induction signals as [|s signals IH]; intros done t st Ht.
  - cbn. intros H. injection H as <- _. now rewrite app_nil_r.
  - cbn [foldl].
    destruct (report_step cfg now bal (inr t, st) s) as [[e | t1] st1] eqn:E.
    + rewrite report_step_raised. discriminate.
    + intros H. rewrite (cons_middle s done signals), app_assoc.
      eapply IH; [|exact H]. eapply report_step_tallied; eassumption.
Qed.

Lemma tallied_empty : tallied [] empty_tally.
Proof. split; reflexivity. Qed.

(** X10.  A report that [generate_risk_report] returns lists one assessment
    per signal, in the order of the signals.  Its approved signals are the
    symbols of the assessments recommended APPROVED and its rejected signals
    the symbols of all the others (CAUTION and ERROR included), so the two
    lists together have one entry per signal; and its high-risk count is the
    number of assessments at risk level HIGH or VERY_HIGH. *)
Theorem report_partitions_signals cfg now st signals bal r st' :
  generate_risk_report cfg now st signals bal = (Report r, st') ->
  signals_analyzed r = length signals
  /\ ia_symbol <$> individual_assessments r = symbol <$> signals
  /\ approved_signals r
     = ia_symbol <$> List.filter approved (individual_assessments r)
  /\ rejected_signals r
     = ia_symbol
         <$> List.filter (fun e => negb (approved e)) (individual_assessments r)
  /\ (length (approved_signals r) + length (rejected_signals r)
      = length signals)%nat
  /\ high_risk_count r = count high_risk (individual_assessments r)
  /\ 0 <= high_risk_count r <= Z.of_nat (length signals).
Proof.
  unfold generate_risk_report. destruct signals as [|s0 signals]; [discriminate|].
  destruct (foldl _ _ (s0 :: signals)) as [[e | t] st1] eqn:E; [discriminate|].
  intros H. injection H as <- _.
  pose proof (foldl_report_tallied _ _ _ _ [] _ _ _ _ tallied_empty E)
    as [Hsym Happ Hrej Hcnt Hhigh].
  cbn [app] in Hsym.
  cbn [signals_analyzed individual_assessments approved_signals
       rejected_signals high_risk_count].
  assert (Hlen : length (t_assessments t) = length (s0 :: signals)).
  { rewrite <- (length_fmap ia_symbol), Hsym, length_fmap. reflexivity. }
  split; [reflexivity|]. split; [exact Hsym|]. split; [exact Happ|].
  split; [exact Hrej|]. split; [|split; [exact Hhigh|]].
  - rewrite Happ, Hrej, !length_fmap, <- Hlen.
    clear. induction (t_assessments t) as [|e l IH]; [reflexivity|].
    cbn [List.filter]. destruct (approved e); cbn [negb length]; lia.
  - rewrite Hhigh, <- Hlen. apply count_range.
Qed.

Definition report_of (signals : list signal) : list report_signal :=
  (fun s => ReportSignal (signal_type s) s) <$> signals.

Lemma report_partitions_signals_witness :
  exists r st',
    generate_risk_report default_config 7 (init_daily_stats 7)
      (report_of [favourable_signal; flat_stop_signal; zero_price_signal])
      (Fin 1000%Q) = (Report r, st')
    /\ (length (approved_signals r) + length (rejected_signals r) = 3)%nat.
Proof.
  assert (E : exists r st',
            generate_risk_report default_config 7 (init_daily_stats 7)
              (report_of [favourable_signal; flat_stop_signal; zero_price_signal])
              (Fin 1000%Q) = (Report r, st'))
    by (vm_compute; eexists _, _; reflexivity).
  destruct E as (r & st' & E). exists r, st'. split; [exact E|].
  exact (proj1 (proj2 (proj2 (proj2 (proj2
           (report_partitions_signals default_config 7 (init_daily_stats 7)
              (report_of [favourable_signal; flat_stop_signal; zero_price_signal])
              (Fin 1000%Q) r st' E)))))).
Defined.

(** A signal whose [confidence] key holds [None]. *)
Definition confidence_is_none (s : report_signal) : Prop :=
  confidence (fields s) = Some VNone.

Lemma report_step_raises cfg now bal t st s :
  (exists st', report_step cfg now bal (inr t, st) s = (inl TypeError, st'))
  \/ (exists t' st', report_step cfg now bal (inr t, st) s = (inr t', st')).
Proof.
  unfold report_step.
  destruct (assess_trade_risk cfg now st (fields s) bal) as [a st1].
  destruct (get _ _); eauto.
Qed.

Lemma report_step_inl_iff cfg now bal t st s :
  (exists e st', report_step cfg now bal (inr t, st) s = (inl e, st'))
  <-> confidence_is_none s.
Proof.
  unfold report_step, confidence_is_none.
  destruct (assess_trade_risk cfg now st (fields s) bal) as [a st1].
  destruct (confidence (fields s)) as [[c|]|]; cbn [get].
  - split; [intros (e & st' & H); discriminate | discriminate].
  - split; [reflexivity | eauto].
  - split; [intros (e & st' & H); discriminate | discriminate].
Qed.

Lemma foldl_report_inl_iff cfg now bal signals t st :
  (exists e st',
     foldl (report_step cfg now bal) (inr t, st) signals = (inl e, st'))
  <-> Exists confidence_is_none signals.
Proof.
  revert t st. induction signals as [|s signals IH]; intros t st.
  { cbn. split; [intros (e & st' & H); discriminate | intros H; inversion H]. }
  cbn [foldl]. rewrite Exists_cons.
  destruct (report_step cfg now bal (inr t, st) s) as [[e | t1] st1] eqn:E.
  - rewrite report_step_raised. split; [|eauto].
    intros _. left. apply (report_step_inl_iff cfg now bal t st s). eauto.
  - rewrite IH. split; [tauto|]. intros [H | H]; [|exact H].
    apply (report_step_inl_iff cfg now bal t st s) in H.
    destruct H as (e & st' & H). rewrite E in H. discriminate.
Qed.

Lemma foldl_report_error cfg now bal signals acc e st' :
  foldl (report_step cfg now bal) acc signals = (inl e, st') ->
  acc.1 = inl e \/ e = TypeError.
Proof.
  revert acc. induction signals as [|s signals IH]; intros [[e0 | t] st].
  - cbn. intros H. left. now injection H as ->.
  - cbn. discriminate.
  - rewrite report_step_raised. intros H. left. now injection H as ->.
  - cbn [foldl]. intros H. apply IH in H. destruct H as [H | H]; [|now right].
    destruct (report_step_raises cfg now bal t st s)
      as [(st1 & E) | (t1 & st1 & E)]; rewrite E in H; cbn in H;
      [right; now injection H as <- | discriminate].
Qed.

(** X11.  [generate_risk_report] has no [try] block of its own: on a list
    that is not empty it raises exactly when the [confidence] key of one of
    the signals holds [None], and then with TypeError (from the sum of the
    confidences), although [assess_trade_risk] itself returned an assessment
    for that signal; on an empty list it returns the error dictionary and
    leaves the session limiter as it is. *)
Theorem report_raises_on_none_confidence cfg now st signals bal :
  (generate_risk_report cfg now st [] bal = (NoSignals, st))
  /\ (signals <> [] ->
      ((exists e st',
          generate_risk_report cfg now st signals bal = (Raised e, st'))
       <-> Exists confidence_is_none signals)
      /\ forall e st',
           generate_risk_report cfg now st signals bal = (Raised e, st') ->
           e = TypeError).
Proof.
  split; [reflexivity|]. intros Hne.
  unfold generate_risk_report. destruct signals as [|s0 signals]; [contradiction|].
  split.
  - rewrite <- (foldl_report_inl_iff cfg now bal (s0 :: signals) empty_tally st).
    destruct (foldl _ _ (s0 :: signals)) as [[e | t] st1].
    + split; eauto.
    + split; intros (e & st' & H); discriminate.
  - intros e st' H.
    destruct (foldl _ _ (s0 :: signals)) as [[e1 | t] st1] eqn:E; [|discriminate].
    injection H as <- _. apply foldl_report_error in E.
    destruct E as [E | E]; [discriminate | exact E].
Qed.

(** A signal with a zero price, which the price guard rejects, and a
    [confidence] that holds [None]. *)
Definition unrated_signal : signal :=
  {| current_price := Some (VNum (Fin 0));
     stop_loss := Some (VNum (Fin 1.1%Q));
     take_profit := Some (VNum (Fin 1.2%Q));
     confidence := Some VNone;
     signal_type := Some "BUY";
     technical_indicators := None |}.

Lemma report_raises_on_none_confidence_witness :
  recommendation
    (assess_trade_risk default_config 7 (init_daily_stats 7) unrated_signal
       (Fin 1000%Q)).1 = "REJECTED"
  /\ exists e st',
       generate_risk_report default_config 7 (init_daily_stats 7)
         (report_of [favourable_signal; unrated_signal]) (Fin 1000%Q)
       = (Raised e, st').
Proof.
  split; [vm_compute; reflexivity|].
  apply (proj1 (proj2 (report_raises_on_none_confidence default_config 7
                         (init_daily_stats 7)
                         (report_of [favourable_signal; unrated_signal])
                         (Fin 1000%Q)) ltac:(discriminate))).
  right. left. reflexivity.
Defined.

Lemma foldl_report_at_limit cfg d bal signals done t st t' st' :
  (check_daily_limits cfg d st).1 = true ->
  Forall (fun e => approved e = false) (t_assessments t) ->
  tallied done t ->
  foldl (report_step cfg d bal) (inr t, st) signals = (inr t', st') ->
  Forall (fun e => approved e = false) (t_assessments t').
Proof.
  revert done t st. induction signals as [|s signals IH]; intros done t st Hlim Hall Ht.
  - cbn. intros H. now injection H as <- _.
  - cbn [foldl].
    destruct (report_step cfg d bal (inr t, st) s) as [[e | t1] st1] eqn:E.
    + rewrite report_step_raised. discriminate.
    + apply (IH (done ++ [s])).
      * unfold report_step in E.
        pose proof (limit_stays_reached cfg d st (fields s) bal Hlim) as Hl.
        destruct (assess_trade_risk cfg d st (fields s) bal) as [a st2].
        destruct (get _ _); [|discriminate]. injection E as _ <-. exact Hl.
      * unfold report_step in E.
        pose proof (recommendation_at_limit cfg d st (fields s) bal Hlim) as Hn.
        destruct (assess_trade_risk cfg d st (fields s) bal) as [a st2].
        destruct (get _ _); [|discriminate]. injection E as <- _.
        cbn [t_assessments]. apply Forall_app. split; [exact Hall|].
        constructor; [|constructor]. unfold approved. cbn [ia_recommendation].
        cbn [fst] in Hn. destruct Hn as [-> | ->]; reflexivity.
      * eapply report_step_tallied; eassumption.
Qed.

(** X12.  A report made once the daily-limit check answers true approves
    nothing: its list of approved signals is empty, every signal is listed
    as rejected, and its first recommendation is the one for no signal
    meeting the risk criteria. *)
Theorem report_at_limit cfg d st signals bal r st' :
  (check_daily_limits cfg d st).1 = true ->
  generate_risk_report cfg d st signals bal = (Report r, st') ->
  approved_signals r = []
  /\ rejected_signals r = symbol <$> signals
  /\ exists rest,
       recommendations r
       = "No signals meet risk criteria - Consider widening parameters or wait for better setups"
         :: rest.
Proof.
  intros Hlim. unfold generate_risk_report.
  destruct signals as [|s0 signals]; [discriminate|].
  destruct (foldl _ _ (s0 :: signals)) as [[e | t] st1] eqn:E; [discriminate|].
  intros H. injection H as <- _.
  pose proof (foldl_report_tallied _ _ _ _ [] _ _ _ _ tallied_empty E)
    as [Hsym Happ Hrej Hcnt Hhigh].
  pose proof (foldl_report_at_limit cfg d bal (s0 :: signals) [] empty_tally
                st t st1 Hlim ltac:(constructor) tallied_empty E) as Hnone.
  cbn [approved_signals rejected_signals recommendations app] in *.
  assert (Hf : List.filter approved (t_assessments t) = []).
  { clear -Hnone. induction Hnone as [|e l He _ IH]; [reflexivity|].
    cbn [List.filter]. now rewrite He. }
  assert (Hg : List.filter (fun e => negb (approved e)) (t_assessments t)
               = t_assessments t).
  { clear -Hnone. induction Hnone as [|e l He _ IH]; [reflexivity|].
    cbn [List.filter]. rewrite He. cbn [negb]. now rewrite IH. }
  split; [now rewrite Happ, Hf|]. split; [now rewrite Hrej, Hg|].
  rewrite Hcnt, count_filter, Hf. cbn [length Z.of_nat Z.eqb]. eauto.
Qed.

Lemma report_at_limit_witness :
  exists r st',
    generate_risk_report default_config 7 full_day
      (report_of [favourable_signal; flat_stop_signal]) (Fin 1000%Q)
    = (Report r, st')
    /\ approved_signals r = [].
Proof.
  assert (E : exists r st',
            generate_risk_report default_config 7 full_day
              (report_of [favourable_signal; flat_stop_signal]) (Fin 1000%Q)
            = (Report r, st'))
    by (vm_compute; eexists _, _; reflexivity).
  destruct E as (r & st' & E). exists r, st'. split; [exact E|].
  exact (proj1 (report_at_limit default_config 7 full_day
                  (report_of [favourable_signal; flat_stop_signal]) (Fin 1000%Q)
                  r st' eq_refl E)).
Defined.

End RiskExtras.

(* ===================================================================== *)
(** ** Arithmetic on finite values *)
(* ===================================================================== *)

Section ValueFacts.
Local Open Scope Q_scope.

#[global] Instance same_reflexive : Reflexive same := same_refl.

(** [same x (Fin q)]: [x] is finite, of value [q]. *)
Lemma same_Fin x q : same x (Fin q) <-> exists p, x = Fin p /\ p == q.
Proof.
  split.
  - destruct x; cbn [same]; try contradiction. eauto.
  - intros (p & -> & H). exact H.
Qed.

Lemma same_compat x p q : same x (Fin p) -> p == q -> same x (Fin q).
Proof. destruct x; cbn [same]; try contradiction. intros H1 H2. now rewrite H1. Qed.

Lemma same_fsub x y p q :
  same x (Fin p) -> same y (Fin q) -> same (x - y)%F (Fin (p - q)).
Proof.
  destruct x as [a| | | |], y as [b| | | |]; cbn [same]; try contradiction.
  intros Ha Hb. unfold fsub, fneg. destruct (Qeqb b 0) eqn:E; unfold fadd; cbn [same].
  - apply Qeqb_eq in E. rewrite Ha, <- Hb, E. ring.
  - rewrite Ha, Hb. reflexivity.
Qed.

(** Ordered comparisons of doubles are asymmetric. *)
Lemma flt_asym x y : flt x y = true -> flt y x = false.
Proof.
  destruct x, y; unfold flt; cbn [val]; try (reflexivity || discriminate);
    intros H; apply Qltb_lt in H; apply Qltb_ge; lra.
Qed.

End ValueFacts.

(* ===================================================================== *)
(** ** From the generated signal to its risk assessment *)
(* ===================================================================== *)

Module PipelineExtras.
Import RiskManagement RiskManagementSpec SignalCommand.









End PipelineExtras.

(* ===================================================================== *)
(** ** Further properties of the technical analyzer *)
(* ===================================================================== *)

Module TechnicalExtras.
Import TechnicalAnalysis TechnicalAnalysisSpec TechnicalSummaries.

(** *** Score and confidence *)

(** A rule moves the score by between [lo] and [hi] and pays at least ten
    confidence points, and [slack] more, for each point of score. *)
Definition moves (lo hi slack : Z) (t t' : tally) : Prop :=
  lo <= signal_score t' - signal_score t <= hi
  /\ 10 * Z.abs (signal_score t' - signal_score t) + slack
     <= confidence t' - confidence t.

Ltac rule_moves :=
  unfold moves;
  repeat match goal with
         | |- context [if ?b then _ else _] => destruct b
         end;
  cbn [note signal_score confidence]; lia.

Lemma rsi_analysis_moves latest t : moves (-1) 1 0 t (rsi_analysis latest t).
Proof. unfold rsi_analysis. rule_moves. Qed.

Lemma macd_analysis_moves latest t : moves (-1) 1 5 t (macd_analysis latest t).
Proof. unfold macd_analysis. rule_moves. Qed.

Lemma moving_average_analysis_moves latest t :
  moves (-2) 2 0 t (moving_average_analysis latest t).
Proof. unfold moving_average_analysis. rule_moves. Qed.

Lemma bollinger_analysis_moves latest t :
  moves (-1) 1 0 t (bollinger_analysis latest t).
Proof. unfold bollinger_analysis. rule_moves. Qed.

Lemma stochastic_analysis_moves latest t :
  moves (-1) 1 0 t (stochastic_analysis latest t).
Proof. unfold stochastic_analysis. rule_moves. Qed.

Lemma pattern_analysis_moves p t : moves 0 3 0 t (pattern_analysis p t).
Proof. unfold pattern_analysis. rule_moves. Qed.

Lemma score_rules_moves latest p t : moves (-6) 9 5 t (score_rules latest p t).
Proof.
  unfold score_rules.
  pose proof (rsi_analysis_moves latest t) as H1.
  set (t1 := rsi_analysis latest t) in *.
  pose proof (macd_analysis_moves latest t1) as H2.
  set (t2 := macd_analysis latest t1) in *.
  pose proof (moving_average_analysis_moves latest t2) as H3.
  set (t3 := moving_average_analysis latest t2) in *.
  pose proof (bollinger_analysis_moves latest t3) as H4.
  set (t4 := bollinger_analysis latest t3) in *.
  pose proof (stochastic_analysis_moves latest t4) as H5.
  set (t5 := stochastic_analysis latest t4) in *.
  pose proof (pattern_analysis_moves p t5) as H6.
  set (t6 := pattern_analysis p t5) in *.
  unfold moves in *. lia.
Qed.

(** X15.  In [generate_signal] the net score lies between -6 and 9, and
    every point of it, up or down, comes with at least ten points of
    confidence, the MACD rule, which always fires, paying five more: the
    confidence before the cap is at least ten times the size of the score
    plus five.  So a BUY or SELL signal, which needs a score of size 3,
    carries a confidence of at least 35, and a signal with a confidence
    under 35 is a HOLD. *)
Theorem directional_signal_confidence df symbol timeframe sig :
  generate_signal df symbol timeframe = inr sig ->
  exists latest,
    iloc_back 1 df = Some latest
    /\ let t := final_tally df latest in
       -6 <= signal_score t <= 9
       /\ 10 * Z.abs (signal_score t) + 5 <= confidence t
       /\ (signal_type sig <> "HOLD" -> 35 <= sig_confidence sig <= 95)
       /\ (sig_confidence sig < 35 -> signal_type sig = "HOLD").
Proof.
  intros H.
  destruct (generate_signal_inr _ _ _ _ H) as (latest & Hl & Ht & Hc & _).
  exists latest. split; [exact Hl|]. cbv zeta.
  pose proof (score_rules_moves latest (detect_candlestick_patterns df)
                (Tally 0 0 [])) as [Hs Hm].
  fold (final_tally df latest) in Hs, Hm.
  cbn [signal_score confidence] in Hs, Hm.
  set (t := final_tally df latest) in *.
  destruct (final_signal_cases (signal_score t)) as (Hb & Hse & Hh).
  rewrite <- Ht in Hb, Hse, Hh.
  assert (Hcases : signal_type sig = "HOLD" \/ 3 <= Z.abs (signal_score t)).
  { rewrite Ht. unfold final_signal.
    destruct (Z.geb_spec (signal_score t) 3); [right; lia|].
    destruct (Z.leb_spec (signal_score t) (-3)); [right; lia | now left]. }
  split; [lia|]. split; [lia|]. split.
  - intros Hne. destruct Hcases as [E | E]; [contradiction | lia].
  - intros Hlow. destruct Hcases as [E | E]; [exact E | lia].
Qed.

(** Three rules for the BUY side, on two rows. *)
Definition oversold_row : row :=
  {| Open := Fin 1.1%Q; High := Fin 1.2%Q; Low := Fin 1.0%Q; Close := Fin 1.1%Q;
     RSI := Fin 25%Q; MACD := Fin 0.002%Q; MACD_Signal := Fin 0.001%Q;
     MA20 := Fin 1.1%Q; MA50 := Fin 1.1%Q;
     BB_Upper := Fin 1.3%Q; BB_Lower := Fin 0.9%Q;
     Stoch_K := Fin 10%Q; Stoch_D := Fin 15%Q;
     ADX := Fin 20%Q; ATR := Fin 0.01%Q |}.

Lemma directional_signal_confidence_witness :
  exists sig,
    generate_signal [quiet_row; oversold_row] "EURUSD=X" "1m" = inr sig
    /\ signal_type sig = "BUY"
    /\ 35 <= sig_confidence sig <= 95.
Proof.
  assert (E : exists sig,
            generate_signal [quiet_row; oversold_row] "EURUSD=X" "1m" = inr sig
            /\ signal_type sig = "BUY")
    by (vm_compute; eexists; split; reflexivity).
  destruct E as (sig & E & Hb). exists sig. split; [exact E|]. split; [exact Hb|].
  destruct (directional_signal_confidence _ _ _ _ E) as (latest & _ & _ & _ & H & _).
  apply H. rewrite Hb. discriminate.
Defined.

(** *** Candlestick patterns in the score *)

(** The points the candlestick block adds to the score. *)
Definition pattern_score (p : patterns) : Z :=
  (if bullish_engulfing p then 2 else 0) + (if hammer p then 1 else 0).

Lemma pattern_analysis_score p t :
  signal_score (pattern_analysis p t) = signal_score t + pattern_score p.
Proof.
  unfold pattern_analysis, pattern_score.
  destruct (bullish_engulfing p), (hammer p); cbn; lia.
Qed.

Lemma score_rules_patterns latest p t :
  signal_score (score_rules latest p t)
  = signal_score (score_rules latest no_patterns t) + pattern_score p.
Proof. unfold score_rules. now rewrite pattern_analysis_score. Qed.

(** X16.  Candlestick patterns count for the BUY side only: the score of
    [generate_signal] is the score of the five indicator rules plus 2 for a
    bullish engulfing and 1 for a hammer, and no other pattern that
    [detect_candlestick_patterns] reports (doji, shooting star, bearish
    engulfing, morning and evening star) changes it.  So a SELL signal is
    one the indicator rules alone would give, and a score of 3 from the
    indicator rules is a BUY signal whatever the patterns. *)
Theorem patterns_count_for_buy_only df symbol timeframe sig :
  generate_signal df symbol timeframe = inr sig ->
  exists latest,
    iloc_back 1 df = Some latest
    /\ let base := signal_score (score_rules latest no_patterns (Tally 0 0 [])) in
       let p := detect_candlestick_patterns df in
       signal_score (final_tally df latest) = base + pattern_score p
       /\ 0 <= pattern_score p <= 3
       /\ (forall p', bullish_engulfing p' = bullish_engulfing p ->
                      hammer p' = hammer p ->
                      score_rules latest p' (Tally 0 0 []) = final_tally df latest)
       /\ (signal_type sig = "SELL" -> base <= -3)
       /\ (3 <= base -> signal_type sig = "BUY").
Proof.
  intros H.
  destruct (generate_signal_inr _ _ _ _ H) as (latest & Hl & Ht & _).
  exists latest. split; [exact Hl|]. cbv zeta.
  unfold final_tally in *. rewrite score_rules_patterns in *.
  set (base := signal_score (score_rules latest no_patterns (Tally 0 0 []))) in *.
  set (p := detect_candlestick_patterns df) in *.
  assert (Hp : 0 <= pattern_score p <= 3).
  { unfold pattern_score. destruct (bullish_engulfing p), (hammer p); lia. }
  destruct (final_signal_cases (base + pattern_score p)) as (Hb & Hs & _).
  rewrite <- Ht in Hb, Hs.
  split; [reflexivity|]. split; [exact Hp|]. split; [|split].
  - intros p' He Hh. unfold score_rules, pattern_analysis. now rewrite He, Hh.
  - intros E. apply Hs in E. lia.
  - intros E. apply Hb. lia.
Qed.

Lemma patterns_count_for_buy_only_witness :
  exists sig,
    generate_signal [quiet_row; oversold_row] "EURUSD=X" "1m" = inr sig
    /\ signal_type sig = "BUY".
Proof.
  assert (E : exists sig,
            generate_signal [quiet_row; oversold_row] "EURUSD=X" "1m" = inr sig)
    by (vm_compute; eexists; reflexivity).
  destruct E as (sig & E). exists sig. split; [exact E|].
  destruct (patterns_count_for_buy_only _ _ _ _ E)
    as (latest & Hl & _ & _ & _ & _ & Hb).
  apply Hb. vm_compute in Hl. injection Hl as <-. vm_compute. discriminate.
Defined.

(** *** detect_candlestick_patterns *)

Lemma iloc_back_short {A} k (l : list A) :
  (length l < k)%nat -> iloc_back k l = None.
Proof. intros H. unfold iloc_back. apply Nat.ltb_lt in H. now rewrite H. Qed.

Lemma iloc_back_Some {A} k (l : list A) :
  (0 < k <= length l)%nat -> exists x, iloc_back k l = Some x.
Proof.
  intros H. unfold iloc_back.
  replace (length l <? k)%nat with false by (symmetry; apply Nat.ltb_ge; lia).
  apply lookup_lt_is_Some_2. lia.
Qed.

(** X17.  [detect_candlestick_patterns] reports nothing on a frame of fewer
    than two rows and no star on a frame of fewer than three; and a bullish
    pattern of two or three bars (bullish engulfing, morning star) never
    comes with a bearish one (bearish engulfing, evening star), since the
    first need the last bar to close above its open. *)
Theorem candlestick_patterns_exclusive data :
  let p := detect_candlestick_patterns data in
  ((length data < 2)%nat -> p = no_patterns)
  /\ ((length data < 3)%nat -> morning_star p = false /\ evening_star p = false)
  /\ (bullish_engulfing p = true \/ morning_star p = true ->
      bearish_engulfing p = false /\ evening_star p = false).
Proof.
  cbv zeta. unfold detect_candlestick_patterns. split; [|split].
  - intros H. rewrite (iloc_back_short 2 data H).
    destruct (iloc_back 1 data); reflexivity.
  - intros H. rewrite (iloc_back_short 3 data H).
    destruct (iloc_back 1 data), (iloc_back 2 data); split; reflexivity.
  - destruct (iloc_back 1 data) as [latest|];
      [|cbn; intros [H | H]; discriminate].
    destruct (iloc_back 2 data) as [prev|];
      [|cbn; intros [H | H]; discriminate].
    cbn [bullish_engulfing bearish_engulfing morning_star evening_star].
    unfold fgt.
    pose proof (flt_asym (Open latest) (Close latest)) as Ha.
    destruct (flt (Open latest) (Close latest)).
    + intros _. rewrite (Ha eq_refl). split; [reflexivity|].
      destruct (iloc_back 3 data); [|reflexivity].
      now rewrite andb_false_r.
    + intros [H | H]; [discriminate|]. exfalso. revert H.
      destruct (iloc_back 3 data); [|discriminate].
      now rewrite andb_false_r.
Qed.

Lemma candlestick_patterns_exclusive_witness :
  detect_candlestick_patterns [quiet_row] = no_patterns.
Proof.
  apply (candlestick_patterns_exclusive [quiet_row]). cbn. lia.
Defined.

Section FlatBar.
Local Open Scope Q_scope.

Lemma fmul_Fin_zero a b :
  0 <= a -> 0 <= b -> a * b == 0 -> (Fin a * Fin b)%F = Fin 0.
Proof.
  intros Ha Hb H. unfold fmul, finite. cbn [is_nan is_inf orb val sgn].
  apply Qltb_ge in Ha, Hb. apply Qeqb_eq in H. now rewrite H, Ha, Hb.
Qed.

Lemma fle_Fin a b : fle (Fin a) (Fin b) = true <-> a <= b.
Proof. unfold fle. cbn [val]. apply Qle_bool_iff. Qed.

Lemma fsub_Fin_self c : exists d, (Fin c - Fin c)%F = Fin d /\ d == 0.
Proof.
  apply same_Fin. eapply same_compat.
  - apply same_fsub; reflexivity.
  - ring.
Qed.

End FlatBar.

(** X18.  A bar without range (open, high, low and close on one finite
    price) at the end of a frame of at least two rows is reported as a doji,
    a hammer and a shooting star at once; of these only the hammer counts,
    so such a bar adds 1 to the score for BUY and 20 to the confidence, with
    the reason Hammer Pattern. *)
Theorem flat_bar_is_hammer data latest c :
  iloc_back 1 data = Some latest -> (2 <= length data)%nat ->
  Open latest = Fin c -> High latest = Fin c ->
  Low latest = Fin c -> Close latest = Fin c ->
  let p := detect_candlestick_patterns data in
  doji p = true /\ hammer p = true /\ shooting_star p = true
  /\ bullish_engulfing p = false
  /\ forall t, pattern_analysis p t = note 1 "Hammer Pattern" 20 t.
Proof.
  intros Hl Hlen Ho Hh Hlo Hc.
  destruct (iloc_back_Some 2 data ltac:(lia)) as [prev Hp].
  cbv zeta. unfold detect_candlestick_patterns. rewrite Hl, Hp.
  cbn [doji hammer shooting_star bullish_engulfing].
  rewrite Ho, Hh, Hlo, Hc.
  assert (Hmax : pymax (Fin c) (Fin c) = Fin c).
  { unfold pymax. destruct (_ >? _)%F; reflexivity. }
  assert (Hmin : pymin (Fin c) (Fin c) = Fin c).
  { unfold pymin. destruct (flt _ _); reflexivity. }
  rewrite Hmax, Hmin.
  destruct (fsub_Fin_self c) as (d & -> & Hd).
  unfold fabs.
  assert (Hq : (Qabs d == 0)%Q) by (rewrite Hd; reflexivity).
  assert (H1 : (Fin d * Fin (1 # 10))%F = Fin 0).
  { apply fmul_Fin_zero; [rewrite Hd; discriminate | discriminate | rewrite Hd; ring]. }
  assert (H2 : (Fin 2 * Fin (Qabs d))%F = Fin 0).
  { apply fmul_Fin_zero; [discriminate | rewrite Hq; discriminate | rewrite Hq; ring]. }
  rewrite H1, H2. unfold fge, fgt.
  assert (E1 : fle (Fin (Qabs d)) (Fin 0) = true)
    by (apply fle_Fin; rewrite Hq; discriminate).
  assert (E2 : fle (Fin 0) (Fin d) = true)
    by (apply fle_Fin; rewrite Hd; discriminate).
  assert (E3 : fle (Fin d) (Fin (Qabs d)) = true)
    by (apply fle_Fin; rewrite Hq, Hd; discriminate).
  assert (E4 : flt (Fin c) (Fin c) = false)
    by (rewrite flt_Fin; apply Qltb_ge, Qle_refl).
  rewrite E1, E2, E3, E4. cbn [andb].
  repeat split. 
Qed.

Lemma flat_bar_is_hammer_witness :
  let flat := {| Open := Fin 1.1%Q; High := Fin 1.1%Q; Low := Fin 1.1%Q;
                 Close := Fin 1.1%Q;
                 RSI := Fin 50%Q; MACD := Fin 0.002%Q; MACD_Signal := Fin 0.001%Q;
                 MA20 := Fin 1.1%Q; MA50 := Fin 1.1%Q;
                 BB_Upper := Fin 1.3%Q; BB_Lower := Fin 0.9%Q;
                 Stoch_K := Fin 50%Q; Stoch_D := Fin 50%Q;
                 ADX := Fin 20%Q; ATR := Fin 0.01%Q |} in
  hammer (detect_candlestick_patterns [quiet_row; flat]) = true.
Proof.
  intros flat.
  exact (proj1 (proj2 (flat_bar_is_hammer [quiet_row; flat] flat 1.1%Q
                         eq_refl ltac:(cbn; lia) eq_refl eq_refl eq_refl eq_refl))).
Defined.

(** *** The reasons of a signal and its summaries *)

(** The reasons each rule appends. *)
Definition rsi_reasons (latest : row) : list string :=
  if (RSI latest <? Fin 30)%F then ["RSI Oversold"]
  else if (RSI latest >? Fin 70)%F then ["RSI Overbought"] else [].

Definition macd_reasons (latest : row) : list string :=
  if (MACD latest >? MACD_Signal latest)%F
  then ["MACD Bullish Crossover"] else ["MACD Bearish"].

Definition moving_average_reasons (latest : row) : list string :=
  if (Close latest >? MA20 latest)%F && (MA20 latest >? MA50 latest)%F
  then ["Price above MA20 > MA50"]
  else if (Close latest <? MA20 latest)%F && (MA20 latest <? MA50 latest)%F
  then ["Price below MA20 < MA50"] else [].

Definition bollinger_reasons (latest : row) : list string :=
  if (Close latest <? BB_Lower latest)%F then ["Price below BB Lower"]
  else if (Close latest >? BB_Upper latest)%F then ["Price above BB Upper"]
  else [].

Definition stochastic_reasons (latest : row) : list string :=
  if (Stoch_K latest <? Fin 20)%F && (Stoch_D latest <? Fin 20)%F
  then ["Stochastic Oversold"]
  else if (Stoch_K latest >? Fin 80)%F && (Stoch_D latest >? Fin 80)%F
  then ["Stochastic Overbought"] else [].

Definition pattern_reasons (p : patterns) : list string :=
  (if bullish_engulfing p then ["Bullish Engulfing Pattern"] else [])
  ++ (if hammer p then ["Hammer Pattern"] else []).

Ltac rule_reasons :=
  repeat match goal with
         | |- context [if ?b then _ else _] => destruct b
         end;
  cbn [note reasons app]; rewrite ?app_nil_r, <- ?app_assoc; reflexivity.

Lemma rsi_analysis_reasons latest t :
  reasons (rsi_analysis latest t) = reasons t ++ rsi_reasons latest.
Proof. unfold rsi_analysis, rsi_reasons. rule_reasons. Qed.

Lemma macd_analysis_reasons latest t :
  reasons (macd_analysis latest t) = reasons t ++ macd_reasons latest.
Proof. unfold macd_analysis, macd_reasons. rule_reasons. Qed.

Lemma moving_average_analysis_reasons latest t :
  reasons (moving_average_analysis latest t)
  = reasons t ++ moving_average_reasons latest.
Proof. unfold moving_average_analysis, moving_average_reasons. rule_reasons. Qed.

Lemma bollinger_analysis_reasons latest t :
  reasons (bollinger_analysis latest t) = reasons t ++ bollinger_reasons latest.
Proof. unfold bollinger_analysis, bollinger_reasons. rule_reasons. Qed.

Lemma stochastic_analysis_reasons latest t :
  reasons (stochastic_analysis latest t) = reasons t ++ stochastic_reasons latest.
Proof. unfold stochastic_analysis, stochastic_reasons. rule_reasons. Qed.

Lemma pattern_analysis_reasons p t :
  reasons (pattern_analysis p t) = reasons t ++ pattern_reasons p.
Proof. unfold pattern_analysis, pattern_reasons. rule_reasons. Qed.

Lemma generate_signal_reasons df symbol timeframe sig :
  generate_signal df symbol timeframe = inr sig ->
  exists latest,
    iloc_back 1 df = Some latest
    /\ sig_reasons sig
       = rsi_reasons latest ++ macd_reasons latest
         ++ moving_average_reasons latest ++ bollinger_reasons latest
         ++ stochastic_reasons latest
         ++ pattern_reasons (detect_candlestick_patterns df).
Proof.
  unfold generate_signal. destruct (iloc_back 1 df) as [latest|]; [|discriminate].
  intros H. exists latest. split; [reflexivity|].
  assert (E : sig_reasons sig
              = reasons (score_rules latest (detect_candlestick_patterns df)
                           (Tally 0 0 []))).
  { destruct (String.eqb _ _); injection H as <-; reflexivity. }
  rewrite E. unfold score_rules.
  rewrite pattern_analysis_reasons, stochastic_analysis_reasons,
    bollinger_analysis_reasons, moving_average_analysis_reasons,
    macd_analysis_reasons, rsi_analysis_reasons.
  cbn [reasons app]. now rewrite <- !app_assoc.
Qed.

(** Which rule a reason comes from. *)
Inductive origin : Type :=
| FromRSI | FromMACD | FromMovingAverage | FromBollinger | FromStochastic
| FromPattern.

Definition origin_of (w : string) : option origin :=
  if String.eqb w "RSI Oversold" || String.eqb w "RSI Overbought"
  then Some FromRSI
  else if String.eqb w "MACD Bullish Crossover" || String.eqb w "MACD Bearish"
  then Some FromMACD
  else if String.eqb w "Price above MA20 > MA50"
          || String.eqb w "Price below MA20 < MA50"
  then Some FromMovingAverage
  else if String.eqb w "Price below BB Lower" || String.eqb w "Price above BB Upper"
  then Some FromBollinger
  else if String.eqb w "Stochastic Oversold" || String.eqb w "Stochastic Overbought"
  then Some FromStochastic
  else if String.eqb w "Bullish Engulfing Pattern" || String.eqb w "Hammer Pattern"
  then Some FromPattern
  else None.

Ltac reason_origin :=
  repeat match goal with
         | |- context [if ?b then _ else _] => destruct b
         end;
  cbn [In app]; intros H;
  repeat match type of H with
         | _ \/ _ => destruct H as [H | H]
         end;
  (contradiction || (subst; reflexivity)).

Lemma rsi_reasons_origin latest w :
  In w (rsi_reasons latest) -> origin_of w = Some FromRSI.
Proof. unfold rsi_reasons. reason_origin. Qed.

Lemma macd_reasons_origin latest w :
  In w (macd_reasons latest) -> origin_of w = Some FromMACD.
Proof. unfold macd_reasons. reason_origin. Qed.

Lemma moving_average_reasons_origin latest w :
  In w (moving_average_reasons latest) -> origin_of w = Some FromMovingAverage.
Proof. unfold moving_average_reasons. reason_origin. Qed.

Lemma bollinger_reasons_origin latest w :
  In w (bollinger_reasons latest) -> origin_of w = Some FromBollinger.
Proof. unfold bollinger_reasons. reason_origin. Qed.

Lemma stochastic_reasons_origin latest w :
  In w (stochastic_reasons latest) -> origin_of w = Some FromStochastic.
Proof. unfold stochastic_reasons. reason_origin. Qed.

Lemma pattern_reasons_origin p w :
  In w (pattern_reasons p) -> origin_of w = Some FromPattern.
Proof. unfold pattern_reasons. reason_origin. Qed.

(** A reason is in the list of the signal exactly when its own rule appended
    it. *)
Lemma sig_reasons_by_origin df symbol timeframe sig :
  generate_signal df symbol timeframe = inr sig ->
  exists latest,
    iloc_back 1 df = Some latest
    /\ forall w,
         In w (sig_reasons sig)
         <-> match origin_of w with
             | Some FromRSI => In w (rsi_reasons latest)
             | Some FromMACD => In w (macd_reasons latest)
             | Some FromMovingAverage => In w (moving_average_reasons latest)
             | Some FromBollinger => In w (bollinger_reasons latest)
             | Some FromStochastic => In w (stochastic_reasons latest)
             | Some FromPattern =>
                 In w (pattern_reasons (detect_candlestick_patterns df))
             | None => False
             end.
Proof.
  intros H. destruct (generate_signal_reasons _ _ _ _ H) as (latest & Hl & ->).
  exists latest. split; [exact Hl|]. intros w. rewrite !in_app_iff.
  pose proof (rsi_reasons_origin latest w) as H1.
  pose proof (macd_reasons_origin latest w) as H2.
  pose proof (moving_average_reasons_origin latest w) as H3.
  pose proof (bollinger_reasons_origin latest w) as H4.
  pose proof (stochastic_reasons_origin latest w) as H5.
  pose proof (pattern_reasons_origin (detect_candlestick_patterns df) w) as H6.
  destruct (origin_of w) as [[]|];
    split; intros Hin;
    repeat match type of Hin with
           | _ \/ _ => destruct Hin as [Hin | Hin]
           end;
    try assumption;
    try (match goal with
         | Hk : In w ?l -> _ = _, Hi : In w ?l |- _ => specialize (Hk Hi); discriminate
         end);
    tauto.
Qed.

Lemma iloc_back_fmap {A B} (f : A -> B) k (l : list A) :
  iloc_back k (f <$> l) = f <$> iloc_back k l.
Proof.
  unfold iloc_back. rewrite length_fmap.
  destruct (length l <? k)%nat; [reflexivity | apply list_lookup_fmap].
Qed.

Lemma oversold_not_overbought x :
  (x <? Fin 30)%F = true -> (x >? Fin 70)%F = false.
Proof.
  unfold fgt. destruct x; unfold flt; cbn [val]; try (reflexivity || discriminate).
  intros H. apply Qltb_lt in H. apply Qltb_ge. lra.
Qed.

(** X19.  The summaries [generate_signal] attaches to a signal are computed
    from the same last row as its reasons, and agree with them on the moving
    averages and on the RSI: the trend is BULLISH (BEARISH) exactly when the
    reason for the price above (below) its stacked averages is listed, and
    the momentum is OVERSOLD (OVERBOUGHT) exactly when the reason RSI
    Oversold (RSI Overbought) is.  On the Bollinger bands they read the
    other way: whenever the overall sentiment is VERY_BEARISH the signal
    lists the price below the lower band, which it counts as a point for
    BUY. *)
Theorem summaries_agree_with_reasons df symbol timeframe sig :
  generate_signal df symbol timeframe = inr sig ->
  (exists tr,
     generate_trend_analysis df = Some tr
     /\ (trend tr = "BULLISH" <-> In "Price above MA20 > MA50" (sig_reasons sig))
     /\ (trend tr = "BEARISH" <-> In "Price below MA20 < MA50" (sig_reasons sig)))
  /\ forall data, data.*1 = df ->
       exists se,
         calculate_market_sentiment data = Some se
         /\ (sent_momentum se = "OVERSOLD" <-> In "RSI Oversold" (sig_reasons sig))
         /\ (sent_momentum se = "OVERBOUGHT"
             <-> In "RSI Overbought" (sig_reasons sig))
         /\ (overall se = "VERY_BEARISH" ->
             In "Price below BB Lower" (sig_reasons sig))
         /\ (overall se = "VERY_BULLISH" ->
             In "Price above BB Upper" (sig_reasons sig)
             \/ In "Price below BB Lower" (sig_reasons sig)).
Proof.
  intros H. destruct (sig_reasons_by_origin _ _ _ _ H) as (latest & Hl & Hin).
  split.
  - unfold generate_trend_analysis. rewrite Hl.
    destruct ((Close latest >? MA20 latest)%F && (MA20 latest >? MA50 latest)%F)
      eqn:Eup;
      [|destruct ((Close latest <? MA20 latest)%F && (MA20 latest <? MA50 latest)%F)
          eqn:Edown];
      eexists; (split; [reflexivity|]); cbn [trend];
      rewrite !Hin; cbn [origin_of String.eqb Ascii.eqb Bool.eqb orb];
      unfold moving_average_reasons; rewrite Eup, ?Edown; cbn [In];
      split; split; intros; try discriminate; try tauto;
      repeat match goal with Hx : _ \/ _ |- _ => destruct Hx end;
      try discriminate; try contradiction; auto.
  - intros data Hd. unfold calculate_market_sentiment.
    assert (Hl' : exists vol, iloc_back 1 data = Some (latest, vol)).
    { rewrite <- Hd, iloc_back_fmap in Hl.
      destruct (iloc_back 1 data) as [[r vol]|]; [|discriminate].
      injection Hl as ->. eauto. }
    destruct Hl' as [vol ->].
    eexists. split; [reflexivity|]. cbn [sent_momentum overall].
    rewrite !Hin. cbn [origin_of String.eqb Ascii.eqb Bool.eqb orb].
    unfold rsi_reasons, bollinger_reasons.
    pose proof (oversold_not_overbought (RSI latest)) as Hx.
    split; [|split; [|split]].
    + destruct (RSI latest <? Fin 30)%F;
        [rewrite (Hx eq_refl); cbn; intuition discriminate|].
      destruct (RSI latest >? Fin 70)%F; cbn; intuition discriminate.
    + destruct (RSI latest <? Fin 30)%F;
        [rewrite (Hx eq_refl); cbn; intuition discriminate|].
      destruct (RSI latest >? Fin 70)%F; cbn; intuition discriminate.
    + destruct (Close latest >? BB_Upper latest)%F; [discriminate|].
      destruct (Close latest <? BB_Lower latest)%F; [cbn; auto|].
      destruct (Close latest >? MA20 latest)%F; [discriminate|].
      destruct (Close latest <? MA20 latest)%F; discriminate.
    + destruct (Close latest <? BB_Lower latest)%F; [cbn; auto|].
      destruct (Close latest >? BB_Upper latest)%F; [cbn; auto|].
      destruct (Close latest >? MA20 latest)%F; [discriminate|].
      destruct (Close latest <? MA20 latest)%F; discriminate.
Qed.

(** A row under its lower band, with the averages stacked upwards. *)
Definition below_band_row : row :=
  {| Open := Fin 1.1%Q; High := Fin 1.2%Q; Low := Fin 1.0%Q; Close := Fin 1.1%Q;
     RSI := Fin 25%Q; MACD := Fin 0.002%Q; MACD_Signal := Fin 0.001%Q;
     MA20 := Fin 1.09%Q; MA50 := Fin 1.08%Q;
     BB_Upper := Fin 1.3%Q; BB_Lower := Fin 1.15%Q;
     Stoch_K := Fin 50%Q; Stoch_D := Fin 50%Q;
     ADX := Fin 20%Q; ATR := Fin 0.01%Q |}.

Lemma summaries_agree_with_reasons_witness :
  exists sig se,
    generate_signal [below_band_row] "EURUSD=X" "1m" = inr sig
    /\ calculate_market_sentiment
         [(below_band_row, VolumeColumns (Fin 100%Q) (Fin 100%Q))] = Some se
    /\ overall se = "VERY_BEARISH"
    /\ signal_type sig = "BUY"
    /\ In "Price below BB Lower" (sig_reasons sig).
Proof.
  assert (E : exists sig,
            generate_signal [below_band_row] "EURUSD=X" "1m" = inr sig
            /\ signal_type sig = "BUY")
    by (vm_compute; eexists; split; reflexivity).
  destruct E as (sig & E & Hb).
  destruct (proj2 (summaries_agree_with_reasons _ _ _ _ E)
              [(below_band_row, VolumeColumns (Fin 100%Q) (Fin 100%Q))] eq_refl)
    as (se & Hse & _ & _ & Hbear & _).
  assert (Ho : overall se = "VERY_BEARISH").
  { vm_compute in Hse. injection Hse as <-. reflexivity. }
  exists sig, se. repeat split; try assumption. exact (Hbear Ho).
Defined.

End TechnicalExtras.

(* ===================================================================== *)
(** ** Further properties of the enhanced bot *)
(* ===================================================================== *)

Module EnhancedExtras.
Import Pandas EnhancedBot EnhancedBotSpec EnhancedQuick.

Lemma confidence_level_of_capped strength :
  confidence_level_of (Z.min strength 95) = confidence_level_of strength.
Proof.
  unfold confidence_level_of.
  destruct (Z.geb_spec strength 80), (Z.geb_spec (Z.min strength 95) 80);
    try lia; [reflexivity|].
  destruct (Z.geb_spec strength 60), (Z.geb_spec (Z.min strength 95) 60);
    try lia; [reflexivity|].
  destruct (Z.geb_spec strength 40), (Z.geb_spec (Z.min strength 95) 40);
    try lia; reflexivity.
Qed.

Section Engine.
Variable ewm_mean : nat -> series -> series.
Variable rolling_std : nat -> series -> series.
Variable std : series -> fnum.

(** The fields of a generated signal that are computed from the indicators. *)
Lemma generated_signal_fields data pair_symbol timeframe period sig :
  generate_comprehensive_signal ewm_mean rolling_std std data
    pair_symbol timeframe period = Some sig ->
  exists ind,
    sig_action sig = action (run_rules ind initial_analysis)
    /\ sig_signal_strength sig
       = Z.min (signal_strength (run_rules ind initial_analysis)) 95
    /\ confidence sig
       = confidence_level_of (signal_strength (run_rules ind initial_analysis))
    /\ bb_position sig
       = (if (current_price ind <=? bb_lower ind)%F then "Lower Band"
          else if (current_price ind >=? bb_upper ind)%F then "Upper Band"
          else "Middle Range")
    /\ ma_position sig
       = (if (current_price ind >? ma_20 ind)%F then "Above MA20"
          else "Below MA20").
Proof.
  unfold generate_comprehensive_signal.
  destruct data as [frames|]; [|discriminate].
  destruct (bool_decide (frames = ∅)); [discriminate|].
  destruct (frames !! timeframe) as [frame|]; [|discriminate].
  destruct (calculate_technical_indicators _ _ _ frame) as [ind|]; [|discriminate].
  intros H. injection H as <-. exists ind. repeat split.
Qed.

Lemma generated_action_not_hold data pair_symbol timeframe period sig :
  generate_comprehensive_signal ewm_mean rolling_std std data
    pair_symbol timeframe period = Some sig ->
  sig_action sig <> HOLD.
Proof.
  intros H. destruct (generated_signal_fields _ _ _ _ _ H) as (ind & Ha & _).
  rewrite Ha, run_rules_act. apply band_direction_not_hold.
  apply opening_direction_spec.
Qed.

(** X20.  A signal [generate_comprehensive_signal] returns is never HOLD;
    its direction is CALL whenever its band position reads Lower Band and
    PUT whenever it reads Upper Band.  Its strength lies between 30 and 95,
    and its confidence label, which the code computes before the cap, is the
    label of the strength it reports: LOW under 40, MEDIUM under 60, HIGH
    under 80 and VERY HIGH from 80. *)
Theorem generated_signal_labels data pair_symbol timeframe period sig :
  generate_comprehensive_signal ewm_mean rolling_std std data
    pair_symbol timeframe period = Some sig ->
  sig_action sig <> HOLD
  /\ (bb_position sig = "Lower Band" -> sig_action sig = CALL)
  /\ (bb_position sig = "Upper Band" -> sig_action sig = PUT)
  /\ 30 <= sig_signal_strength sig <= 95
  /\ confidence sig = confidence_level_of (sig_signal_strength sig)
  /\ (confidence sig = "LOW" <-> sig_signal_strength sig < 40).
Proof.
  intros H.
  destruct (generated_signal_fields _ _ _ _ _ H) as (ind & Ha & Hs & Hc & Hb & _).
  rewrite run_rules_act in Ha. rewrite run_rules_strength in Hs, Hc.
  pose proof (total_strength_range ind) as Hr.
  destruct (opening_direction_spec ind) as [_ Hne].
  assert (Hlabel : confidence sig = confidence_level_of (sig_signal_strength sig)).
  { now rewrite Hs, confidence_level_of_capped. }
  split; [rewrite Ha; now apply band_direction_not_hold|].
  split; [|split; [|split; [lia|split; [exact Hlabel|]]]].
  - rewrite Ha, Hb. unfold band_direction.
    destruct (_ <=? _)%F; [reflexivity|].
    destruct (_ >=? _)%F; discriminate.
  - rewrite Ha, Hb. unfold band_direction.
    destruct (_ <=? _)%F; [discriminate|].
    destruct (_ >=? _)%F; [reflexivity | discriminate].
  - rewrite Hlabel. unfold confidence_level_of.
    destruct (Z.geb_spec (sig_signal_strength sig) 80);
      [split; [discriminate | lia]|].
    destruct (Z.geb_spec (sig_signal_strength sig) 60);
      [split; [discriminate | lia]|].
    destruct (Z.geb_spec (sig_signal_strength sig) 40);
      [split; [discriminate | lia]|].
    split; [lia | reflexivity].
Qed.

(** X21.  [generate_comprehensive_signal] returns a signal exactly when the
    fetch succeeded and holds, under the requested timeframe, a frame of at
    least 20 closes; in every other case (failed fetch, timeframe absent,
    frame missing or shorter) it returns [None], and
    [display_comprehensive_signal] shows its fixture. *)
Theorem signal_generated_iff data pair_symbol timeframe period :
  (exists sig,
     generate_comprehensive_signal ewm_mean rolling_std std data
       pair_symbol timeframe period = Some sig)
  <-> (exists frames close,
         data = Some frames /\ frames !! timeframe = Some (Some close)
         /\ (20 <= length close)%nat).
Proof.
  split.
  - intros [sig H].
    destruct (generate_comprehensive_signal_Some _ _ _ _ _ _ _ _ H)
      as (frames & close & ind & Hd & Hf & Hlen & _).
    now exists frames, close.
  - intros (frames & close & -> & Hf & Hlen).
    unfold generate_comprehensive_signal.
    assert (Hne : frames <> ∅).
    { intros ->. now rewrite lookup_empty in Hf. }
    rewrite (bool_decide_eq_false_2 _ Hne), Hf.
    unfold calculate_technical_indicators.
    assert (Hc : close <> []) by (intros ->; cbn in Hlen; lia).
    rewrite (bool_decide_eq_false_2 _ Hc).
    replace (length close <? 20)%nat with false
      by (symmetry; apply Nat.ltb_ge; lia).
    cbn [orb]. eauto.
Qed.

(** X22.  The signal [generate_quick_signal] renders is labelled LIVE
    whatever happened: when the generation returned nothing it is the
    fixture (CALL, 78%, HIGH), whose [data_freshness] is LIVE, where
    [display_comprehensive_signal] labels its own fixture SIMULATED.  Its
    direction is never HOLD, so the button text is CALL (BUY) for CALL and
    PUT (SELL) for PUT. *)
Theorem quick_signal_always_live data :
  let s := quick_signal ewm_mean rolling_std std data in
  data_freshness s = LIVE
  /\ sig_action s <> HOLD
  /\ (action_text s = "CALL (BUY)" <-> sig_action s = CALL)
  /\ (action_text s = "PUT (SELL)" <-> sig_action s = PUT)
  /\ (generate_comprehensive_signal ewm_mean rolling_std std data
        "EURUSD" "5m" "5m" = None ->
      s = quick_fallback_signal
      /\ data_freshness
           (displayed_signal ewm_mean rolling_std std data "EURUSD" "5m" "5m")
         = SIMULATED).
Proof.
  cbv zeta. unfold quick_signal, displayed_signal.
  destruct (generate_comprehensive_signal _ _ _ data "EURUSD" "5m" "5m")
    as [sig|] eqn:E.
  - destruct (generate_comprehensive_signal_Some _ _ _ _ _ _ _ _ E)
      as (_ & _ & _ & _ & _ & _ & _ & _ & _ & _ & _ & Hlive).
    pose proof (generated_action_not_hold _ _ _ _ _ E) as Hne.
    unfold action_text.
    split; [exact Hlive|]. split; [exact Hne|].
    destruct (sig_action sig); try contradiction;
      cbn; repeat split; intros; (reflexivity || discriminate).
  - cbn. repeat split; intros; (reflexivity || discriminate).
Qed.

End Engine.

Lemma generated_signal_labels_witness :
  exists sig,
    generate_comprehensive_signal SignalSpec.flat_ewm SignalSpec.flat_std
      SignalSpec.zero_std SignalSpec.rising_data "EURUSD" "5m" "1m" = Some sig
    /\ sig_action sig <> HOLD
    /\ confidence sig = confidence_level_of (sig_signal_strength sig).
Proof.
  assert (E : exists sig,
            generate_comprehensive_signal SignalSpec.flat_ewm SignalSpec.flat_std
              SignalSpec.zero_std SignalSpec.rising_data "EURUSD" "5m" "1m"
            = Some sig)
    by (vm_compute; eexists; reflexivity).
  destruct E as (sig & E). exists sig. split; [exact E|].
  destruct (generated_signal_labels _ _ _ _ _ _ _ _ E)
    as (H1 & _ & _ & _ & H2 & _).
  split; [exact H1 | exact H2].
Defined.

Lemma signal_generated_iff_witness :
  exists sig,
    generate_comprehensive_signal SignalSpec.flat_ewm SignalSpec.flat_std
      SignalSpec.zero_std SignalSpec.rising_data "EURUSD" "5m" "1m" = Some sig.
Proof.
  apply (signal_generated_iff SignalSpec.flat_ewm SignalSpec.flat_std
           SignalSpec.zero_std SignalSpec.rising_data "EURUSD" "5m" "1m").
  exists {[ "5m" := Some SignalSpec.rising_frame ]}, SignalSpec.rising_frame.
  split; [reflexivity|]. split; [reflexivity|]. vm_compute. lia.
Defined.

Lemma quick_signal_always_live_witness :
  quick_signal SignalSpec.flat_ewm SignalSpec.flat_std SignalSpec.zero_std None
  = quick_fallback_signal
  /\ data_freshness
       (quick_signal SignalSpec.flat_ewm SignalSpec.flat_std SignalSpec.zero_std
          None) = LIVE.
Proof.
  destruct (quick_signal_always_live SignalSpec.flat_ewm SignalSpec.flat_std
              SignalSpec.zero_std None) as (Hl & _ & _ & _ & Hf).
  split; [exact (proj1 (Hf eq_refl)) | exact Hl].
Defined.

End EnhancedExtras.

(* ===================================================================== *)
(** ** Properties of the real-time bot *)
(* ===================================================================== *)

Module RealtimeExtras.
Import Pandas RealtimeBot RealtimeSignal PandasFacts.

(** *** calculate_rsi *)

Lemma iloc_back_1_Some (s : series) :
  s <> [] -> exists x, iloc_back 1 s = Some x.
Proof.
  intros Hne. unfold iloc_back. destruct s as [|a s]; [contradiction|].
  replace (length (a :: s) <? 1)%nat with false
    by (symmetry; apply Nat.ltb_ge; cbn; lia).
  apply lookup_lt_is_Some_2. cbn. lia.
Qed.

Lemma iloc_back_1_nil : iloc_back 1 [] = None.
Proof. reflexivity. Qed.

Lemma iloc_back_rolling_mean w (s : series) :
  s <> [] -> iloc_back 1 (rolling_mean w s) = Some (window_mean w s).
Proof.
  intros Hne. unfold iloc_back, rolling_mean.
  rewrite length_fmap, length_seq.
  assert (Hlen : (0 < length s)%nat) by (destruct s; [contradiction | cbn; lia]).
  replace (length s <? 1)%nat with false by (symmetry; apply Nat.ltb_ge; lia).
  rewrite list_lookup_fmap, lookup_seq_lt by lia. cbn [fmap option_fmap option_map].
  replace (S (0 + (length s - 1))) with (length s) by lia.
  now rewrite firstn_all.
Qed.

(** The gains and the losses [calculate_rsi] averages. *)
Definition gains (prices : series) : series :=
  where_ (fun d => (d >? Fin 0)%F) (diff prices).

Definition losses (prices : series) : series :=
  neg (where_ (fun d => (d <? Fin 0)%F) (diff prices)).

Lemma length_gains prices : length (gains prices) = length prices.
Proof. unfold gains, where_. now rewrite length_fmap, length_diff. Qed.

Lemma length_losses prices : length (losses prices) = length prices.
Proof. unfold losses, neg, where_. now rewrite !length_fmap, length_diff. Qed.

Lemma calculate_rsi_nonempty prices period :
  prices <> [] ->
  calculate_rsi prices period
  = Some (rsi_of (window_mean period (gains prices))
                 (window_mean period (losses prices))).
Proof.
  intros Hne. unfold calculate_rsi, rsi_series.
  assert (Hg : gains prices <> []).
  { intros E. apply (f_equal length) in E. rewrite length_gains in E.
    destruct prices; [contradiction | discriminate]. }
  assert (Hl : losses prices <> []).
  { intros E. apply (f_equal length) in E. rewrite length_losses in E.
    destruct prices; [contradiction | discriminate]. }
  apply iloc_back_zip_with.
  - now rewrite length_avg_gain, length_avg_loss.
  - now apply iloc_back_rolling_mean.
  - now apply iloc_back_rolling_mean.
Qed.

Lemma rsi_of_nan loss : rsi_of NaN loss = NaN.
Proof. destruct loss; reflexivity. Qed.

Lemma calculate_rsi_warm_up prices period :
  prices <> [] -> (length prices < period)%nat ->
  calculate_rsi prices period = Some NaN.
Proof.
  intros Hne Hlen. rewrite (calculate_rsi_nonempty _ _ Hne).
  unfold window_mean at 1. rewrite length_gains.
  apply Nat.ltb_lt in Hlen. rewrite Hlen. now rewrite rsi_of_nan.
Qed.

Section Engine.
Variable ewm_mean : nat -> series -> series.
Variable std : series -> fnum.

(** *** generate_real_signal *)

(** The points of the RSI and of the price-action blocks. *)
Definition rsi_points (r : fnum) : Z :=
  if (r <? Fin 30)%F || (r >? Fin 70)%F then 30 else 10.

Definition near_extreme (bars : list bar) (price : fnum) : bool :=
  (price >? series_max (tail_ 20 (High <$> bars)) * Fin (98 # 100))%F
  || (price <? series_min (tail_ 20 (Low <$> bars)) * Fin (102 # 100))%F.

(** What a generated signal is made of. *)
Lemma generate_real_signal_Generated symbol timeframe_data s :
  generate_real_signal ewm_mean std symbol timeframe_data = Generated s ->
  exists bars m sl,
    timeframe_data = Some bars /\ bars <> []
    /\ iloc_back 1 (Close <$> bars) = Some (current_price s)
    /\ calculate_rsi (Close <$> bars) 14 = Some (rsi s)
    /\ calculate_macd ewm_mean (Close <$> bars) = Some (m, sl)
    /\ macd s = m
    /\ action s
       = (if (rsi s <? Fin 30)%F then "BUY"
          else if (rsi s >? Fin 70)%F then "SELL" else "")
    /\ rsi_signal s
       = (if (rsi s <? Fin 30)%F then "Bullish (Oversold)"
          else if (rsi s >? Fin 70)%F then "Bearish (Overbought)" else "Neutral")
    /\ macd_signal s
       = (if (m >? sl)%F then "Bullish Crossover" else "Bearish Crossover")
    /\ signal_strength s
       = Z.min (rsi_points (rsi s) + 25
                + (if near_extreme bars (current_price s) then 10 else 5)) 95
    /\ volatility s = (std (pct_change (Close <$> bars)) * Fin 100)%F
    /\ target_price s
       = (if String.eqb (action s) "BUY"
          then current_price s
               * (Fin 1 + volatility s * Fin (5 # 10) / Fin 100)
          else current_price s
               * (Fin 1 - volatility s * Fin (5 # 10) / Fin 100))%F.
Proof.
  unfold generate_real_signal.
  destruct timeframe_data as [bars|]; [|discriminate].
  destruct (bool_decide (bars = [])) eqn:Eb; [discriminate|].
  apply bool_decide_eq_false in Eb.
  destruct (iloc_back 1 (Close <$> bars)) as [price|] eqn:Hp; [|discriminate].
  destruct (calculate_rsi (Close <$> bars) 14) as [r|] eqn:Hr; [|discriminate].
  destruct (calculate_macd ewm_mean (Close <$> bars)) as [[m sl]|] eqn:Hm;
    [|discriminate].
  unfold rsi_points, near_extreme.
  intros H. exists bars, m, sl.
  destruct (r <? Fin 30)%F eqn:E1; [|destruct (r >? Fin 70)%F eqn:E2];
    destruct (m >? sl)%F eqn:E3;
    (destruct (price >? _ * Fin (98 # 100))%F eqn:E4;
     [|destruct (price <? _ * Fin (102 # 100))%F eqn:E5]);
    injection H as <-;
    cbn [current_price rsi macd action rsi_signal macd_signal signal_strength
         volatility target_price orb];
    rewrite ?E1, ?E2, ?E3, ?E4, ?E5; cbn [orb];
    repeat split; assumption.
Qed.

(** X23.  In a signal of [generate_real_signal] only the RSI sets the
    action: it is BUY for an RSI under 30, SELL for an RSI over 70 and the
    empty string otherwise (an RSI from 30 to 70, or NaN), whatever the MACD
    says; and every action that is not BUY, the empty one included, gets the
    target of the SELL side, the current price times 1 minus the target
    move.  The strength is 30 or 10 points for the RSI, 25 for the
    MACD and 10 or 5 for the price action: it lies between 40 and 65, is at
    least 60 exactly when there is an action, and never reaches the cap of
    95. *)
Theorem real_signal_action symbol timeframe_data s :
  generate_real_signal ewm_mean std symbol timeframe_data = Generated s ->
  action s
  = (if (rsi s <? Fin 30)%F then "BUY"
     else if (rsi s >? Fin 70)%F then "SELL" else "")
  /\ (action s = "" <-> rsi_signal s = "Neutral")
  /\ 40 <= signal_strength s <= 65
  /\ (60 <= signal_strength s <-> action s <> "")
  /\ (action s <> "BUY" ->
      target_price s
      = (current_price s * (Fin 1 - volatility s * Fin (5 # 10) / Fin 100))%F).
Proof.
  intros H.
  destruct (generate_real_signal_Generated _ _ _ H)
    as (bars & m & sl & _ & _ & _ & _ & _ & _ & Ha & Hr & _ & Hs & _ & Ht).
  split; [exact Ha|].
  assert (Hact : action s = "" <-> rsi_points (rsi s) = 10).
  { rewrite Ha. unfold rsi_points.
    destruct (rsi s <? Fin 30)%F; [cbn; split; [discriminate | lia]|].
    destruct (rsi s >? Fin 70)%F; cbn; split;
      try discriminate; try lia; reflexivity. }
  assert (Hpts : rsi_points (rsi s) = 10 \/ rsi_points (rsi s) = 30).
  { unfold rsi_points. destruct (_ || _); auto. }
  split.
  { rewrite Hact, Hr. unfold rsi_points.
    destruct (rsi s <? Fin 30)%F; [cbn; split; [lia | discriminate]|].
    destruct (rsi s >? Fin 70)%F; cbn; split;
      try discriminate; try lia; reflexivity. }
  split.
  { rewrite Hs. destruct (near_extreme bars (current_price s)); lia. }
  split.
  { rewrite Hs. split.
    - intros Hge Hemp. apply Hact in Hemp.
      destruct (near_extreme bars (current_price s)); lia.
    - intros Hne. destruct Hpts as [E | E]; [exfalso; apply Hne, Hact, E|].
      destruct (near_extreme bars (current_price s)); lia. }
  intros Hne. rewrite Ht.
  destruct (String.eqb_spec (action s) "BUY"); [contradiction | reflexivity].
Qed.

Hypothesis ewm_mean_length : forall span s, length (ewm_mean span s) = length s.

Lemma calculate_macd_Some prices :
  prices <> [] -> exists m sl, calculate_macd ewm_mean prices = Some (m, sl).
Proof using ewm_mean_length.
  intros Hne. unfold calculate_macd.
  assert (Hlen : forall s : series, length s = length prices -> s <> []).
  { intros s Hs ->. destruct prices; [contradiction | discriminate]. }
  assert (Hm : length (zip_with fsub (ewm_mean 12 prices) (ewm_mean 26 prices))
               = length prices).
  { rewrite length_zip_with, !ewm_mean_length. lia. }
  destruct (iloc_back_1_Some _ (Hlen _ Hm)) as [m ->].
  destruct (iloc_back_1_Some (ewm_mean 9 (zip_with fsub (ewm_mean 12 prices)
                                            (ewm_mean 26 prices))))
    as [sl ->].
  { apply Hlen. now rewrite ewm_mean_length. }
  cbn. eauto.
Qed.

(** X24.  With an exponential mean that keeps the length of its series (as
    that of pandas does), [generate_real_signal] returns [None] exactly when
    the frame is [None] or empty, and a signal in every other case: no
    [iloc[-1]] of the indicator helpers fails on a frame that is not
    empty. *)
Theorem real_signal_outcome symbol timeframe_data :
  (generate_real_signal ewm_mean std symbol timeframe_data = NoSignal
   <-> timeframe_data = None \/ timeframe_data = Some [])
  /\ generate_real_signal ewm_mean std symbol timeframe_data <> IndexError
  /\ (forall bars, timeframe_data = Some bars -> bars <> [] ->
      exists s, generate_real_signal ewm_mean std symbol timeframe_data
                = Generated s).
Proof using ewm_mean_length.
  assert (Hgen : forall bars, bars <> [] ->
            exists s, generate_real_signal ewm_mean std symbol (Some bars)
                      = Generated s).
  { intros bars Hne. unfold generate_real_signal.
    rewrite (bool_decide_eq_false_2 _ Hne).
    assert (Hc : Close <$> bars <> []).
    { destruct bars; [contradiction | discriminate]. }
    destruct (iloc_back_1_Some _ Hc) as [price ->].
    rewrite (calculate_rsi_nonempty _ 14 Hc).
    destruct (calculate_macd_Some _ Hc) as (m & sl & ->).
    destruct (_ <? Fin 30)%F; [|destruct (_ >? Fin 70)%F];
      destruct (m >? sl)%F;
      (destruct (price >? _ * Fin (98 # 100))%F;
       [|destruct (price <? _ * Fin (102 # 100))%F]);
      eexists; reflexivity. }
  destruct timeframe_data as [bars|].
  - destruct bars as [|b bars].
    + split; [split; [auto | reflexivity]|]. split; [discriminate|].
      intros bars Hb Hne. injection Hb as <-. contradiction.
    + destruct (Hgen (b :: bars) ltac:(discriminate)) as [s Hs].
      rewrite Hs. split; [split; [discriminate | intros [H | H]; discriminate]|].
      split; [discriminate|]. intros bars' _ _. eauto.
  - split; [split; [auto | reflexivity]|]. split; [discriminate|].
    intros bars H. discriminate.
Qed.

(** X25.  [calculate_rsi] fails (the IndexError of [iloc[-1]]) exactly on an
    empty series, and on a series shorter than its period it returns NaN,
    the rolling means having no full window.  In a signal generated from
    fewer than 14 bars the RSI is therefore NaN, which reads as Neutral and
    leaves the action empty. *)
Theorem rsi_warm_up prices period :
  (calculate_rsi prices period = None <-> prices = [])
  /\ (prices <> [] -> (length prices < period)%nat ->
      calculate_rsi prices period = Some NaN)
  /\ (forall symbol bars s,
        (length bars < 14)%nat ->
        generate_real_signal ewm_mean std symbol (Some bars) = Generated s ->
        rsi s = NaN /\ rsi_signal s = "Neutral" /\ action s = "").
Proof.
  split; [|split].
  - split.
    + intros H. destruct prices as [|p prices]; [reflexivity|].
      rewrite calculate_rsi_nonempty in H by discriminate. discriminate.
    + intros ->. reflexivity.
  - apply calculate_rsi_warm_up.
  - intros symbol bars s Hlen H.
    destruct (generate_real_signal_Generated _ _ _ H)
      as (bars' & m & sl & Hb & Hne & _ & Hr & _ & _ & Ha & Hs & _).
    injection Hb as <-.
    rewrite calculate_rsi_warm_up in Hr.
    + injection Hr as Hr. rewrite Ha, Hs, <- Hr. repeat split.
    + destruct bars; [contradiction | discriminate].
    + now rewrite length_fmap.
Qed.

End Engine.

(** Three five-minute bars. *)
Definition three_bars : list bar :=
  [Bar (Fin 1.10%Q) (Fin 1.08%Q) (Fin 1.09%Q);
   Bar (Fin 1.11%Q) (Fin 1.09%Q) (Fin 1.10%Q);
   Bar (Fin 1.12%Q) (Fin 1.10%Q) (Fin 1.11%Q)].

Lemma real_signal_action_witness :
  exists s,
    generate_real_signal SignalSpec.flat_ewm SignalSpec.zero_std "EURUSD=X"
      (Some three_bars) = Generated s
    /\ 40 <= signal_strength s <= 65.
Proof.
  assert (E : exists s,
            generate_real_signal SignalSpec.flat_ewm SignalSpec.zero_std
              "EURUSD=X" (Some three_bars) = Generated s)
    by (vm_compute; eexists; reflexivity).
  destruct E as [s E]. exists s. split; [exact E|].
  exact (proj1 (proj2 (proj2 (real_signal_action _ _ _ _ _ E)))).
Defined.

Lemma real_signal_outcome_witness :
  exists s,
    generate_real_signal SignalSpec.flat_ewm SignalSpec.zero_std "EURUSD=X"
      (Some three_bars) = Generated s.
Proof.
  apply (proj2 (proj2 (real_signal_outcome SignalSpec.flat_ewm SignalSpec.zero_std
                         (fun _ _ => eq_refl) "EURUSD=X" (Some three_bars)))
           three_bars eq_refl).
  discriminate.
Defined.

Lemma rsi_warm_up_witness :
  calculate_rsi (Close <$> three_bars) 14 = Some NaN.
Proof.
  apply (proj1 (proj2 (rsi_warm_up SignalSpec.flat_ewm SignalSpec.zero_std
                         (Close <$> three_bars) 14))).
  - discriminate.
  - cbn. lia.
Defined.

End RealtimeExtras.
